(** * SkyKit optimizer: calibration, forecasting and adaptive feedback

    A shallow embedding of [backend/engine/calibrator.ts] (classes
    [NetworkCalibrator], [RuntimeCalibrator] and [AdaptiveEngine]), of
    [backend/engine/forecasting.ts] (class [DemandForecaster]) and of
    [calculateDynamicPurchaseConfig] of the engine types, followed by the
    properties established about them.

    Numbers.  A TypeScript [number] is embedded as an extended rational
    [num]: a finite rational, one of the two infinities, or NaN.  The
    special values follow IEEE 754 as JavaScript exposes it (x/0, 0/0,
    comparisons with NaN, [Math.min]/[Math.max] on NaN); finite
    arithmetic is exact, so binary rounding error is abstracted away and
    the zero is unsigned (a zero divisor counts as +0).  Days, hours and
    event counters are integers.

    Rounding.  Where binary rounding decides a result (a ceiling next to
    a whole number, a difference of nearly equal squares) the demand
    statistics are evaluated a second time on binary64 numbers, in
    module [F64]; the statements about such results carry the ranges in
    which both evaluations agree up to the stated tolerance. *)

From Stdlib Require Import QArith Qabs Qminmax Qround Lqa ZArith Lia String Ascii List Bool Sorted.
From stdpp Require Import gmap strings list pretty.
From Stdlib Require PrimFloat FloatOps SpecFloat Uint63.
Import ListNotations.

Local Open Scope Z_scope.

(* ===================================================================== *)
(** ** JavaScript numbers                                                 *)
(* ===================================================================== *)

Module JS.

Inductive num : Type :=
| Fin (q : Q)
| PInf
| NInf
| NaN.

Arguments Fin q%_Q.

Definition of_Z (z : Z) : num := Fin (inject_Z z).
Definition of_nat (n : nat) : num := of_Z (Z.of_nat n).

Definition neg (x : num) : num :=
  match x with
  | Fin a => Fin (- a)
  | PInf => NInf
  | NInf => PInf
  | NaN => NaN
  end.

Definition add (x y : num) : num :=
  match x, y with
  | NaN, _ | _, NaN => NaN
  | Fin a, Fin b => Fin (a + b)
  | PInf, NInf | NInf, PInf => NaN
  | PInf, _ | _, PInf => PInf
  | NInf, _ | _, NInf => NInf
  end.

Definition sub (x y : num) : num := add x (neg y).

(** Sign of an infinity scaled by the finite factor [a]; [0 * Infinity]
    is NaN. *)
Definition scale_inf (a : Q) (pos : bool) : num :=
  match (a ?= 0)%Q with
  | Gt => if pos then PInf else NInf
  | Lt => if pos then NInf else PInf
  | Eq => NaN
  end.

Definition mul (x y : num) : num :=
  match x, y with
  | NaN, _ | _, NaN => NaN
  | Fin a, Fin b => Fin (a * b)
  | Fin a, PInf | PInf, Fin a => scale_inf a true
  | Fin a, NInf | NInf, Fin a => scale_inf a false
  | PInf, PInf | NInf, NInf => PInf
  | PInf, NInf | NInf, PInf => NInf
  end.

Definition div (x y : num) : num :=
  match x, y with
  | NaN, _ | _, NaN => NaN
  | Fin a, Fin b =>
      match (b ?= 0)%Q with
      | Eq => scale_inf a true
      | _ => Fin (a / b)
      end
  | Fin _, PInf | Fin _, NInf => Fin 0
  | PInf, Fin b => match (b ?= 0)%Q with Lt => NInf | _ => PInf end
  | NInf, Fin b => match (b ?= 0)%Q with Lt => PInf | _ => NInf end
  | _, _ => NaN
  end.

Definition Qltb (a b : Q) : bool :=
  match (a ?= b)%Q with Lt => true | _ => false end.
Definition Qleb (a b : Q) : bool :=
  match (a ?= b)%Q with Gt => false | _ => true end.
Definition Qeqb (a b : Q) : bool :=
  match (a ?= b)%Q with Eq => true | _ => false end.

(** [x < y]; every comparison with NaN is false. *)
Definition lt (x y : num) : bool :=
  match x, y with
  | NaN, _ | _, NaN => false
  | Fin a, Fin b => Qltb a b
  | NInf, NInf | PInf, _ => false
  | NInf, _ => true
  | Fin _, PInf => true
  | Fin _, NInf => false
  end.

(** [x <= y]. *)
Definition le (x y : num) : bool :=
  match x, y with
  | NaN, _ | _, NaN => false
  | Fin a, Fin b => Qleb a b
  | NInf, _ | _, PInf => true
  | _, _ => false
  end.

Definition gt (x y : num) : bool := lt y x.
Definition ge (x y : num) : bool := le y x.

(** [x === y] on numbers. *)
Definition strict_eq (x y : num) : bool :=
  match x, y with
  | Fin a, Fin b => Qeqb a b
  | PInf, PInf | NInf, NInf => true
  | _, _ => false
  end.

(** [Math.min] and [Math.max] return NaN as soon as one argument is NaN. *)
Definition Math_min (x y : num) : num :=
  match x, y with
  | NaN, _ | _, NaN => NaN
  | _, _ => if le x y then x else y
  end.

Definition Math_max (x y : num) : num :=
  match x, y with
  | NaN, _ | _, NaN => NaN
  | _, _ => if le x y then y else x
  end.

Definition Math_abs (x : num) : num :=
  match x with
  | Fin a => Fin (Qabs a)
  | PInf | NInf => PInf
  | NaN => NaN
  end.

Definition Math_ceil (x : num) : num :=
  match x with
  | Fin a => of_Z (Qceiling a)
  | _ => x
  end.

Definition Math_floor (x : num) : num :=
  match x with
  | Fin a => of_Z (Qfloor a)
  | _ => x
  end.

(** [Math.round] rounds half-way cases towards +Infinity. *)
Definition Math_round (x : num) : num :=
  match x with
  | Fin a => of_Z (Qfloor (a + (1 # 2))%Q)
  | _ => x
  end.

(** Equality of numbers as values: rationals up to [Qeq]. *)
Definition num_eq (x y : num) : Prop :=
  match x, y with
  | Fin a, Fin b => (a == b)%Q
  | PInf, PInf | NInf, NInf | NaN, NaN => True
  | _, _ => False
  end.

(** [between lo hi x]: [x] is a finite number of the closed interval. *)
Definition between (lo hi : Q) (x : num) : Prop :=
  match x with
  | Fin a => (lo <= a <= hi)%Q
  | _ => False
  end.

Definition is_finite (x : num) : Prop :=
  match x with Fin _ => True | _ => False end.

Definition is_nan (x : num) : bool :=
  match x with NaN => true | _ => false end.

End JS.

Import JS.

Declare Scope js_scope.
Delimit Scope js_scope with js.
Bind Scope js_scope with num.
Infix "+" := add : js_scope.
Infix "-" := sub : js_scope.
Infix "*" := mul : js_scope.
Infix "/" := div : js_scope.
Infix "<?" := lt : js_scope.
Infix "<=?" := le : js_scope.
Infix ">?" := gt : js_scope.
Infix ">=?" := ge : js_scope.
Infix "===" := strict_eq (at level 70, no associativity) : js_scope.
Infix "≈" := num_eq (at level 70, no associativity) : js_scope.

(* ===================================================================== *)
(** ** Shared types                                                       *)
(* ===================================================================== *)

(** Modelled from the spec: the module [../types] is not part of the
    sources at hand.  The kit classes are the four fixed tiers of the
    glossary, in the order [first, business, premiumEconomy, economy]
    (the order [AdaptiveEngine.getPrioritizedClasses] also lists). *)
Inductive KitClass : Type :=
| K_first
| K_business
| K_premiumEconomy
| K_economy.

Definition KIT_CLASSES : list KitClass :=
  [K_first; K_business; K_premiumEconomy; K_economy].

#[global] Instance KitClass_eq_dec : EqDecision KitClass.
Proof. solve_decision. Defined.

(** Modelled from the spec: [PerClassAmount], the fixed 4-field record
    of section 3, as also declared in the front end's copy of the type. *)
Record PerClassAmount : Type := mkPerClass {
  first : num;
  business : num;
  premiumEconomy : num;
  economy : num
}.

(** [p[kitClass]] *)
Definition pc_get (p : PerClassAmount) (k : KitClass) : num :=
  match k with
  | K_first => first p
  | K_business => business p
  | K_premiumEconomy => premiumEconomy p
  | K_economy => economy p
  end.

(** [p[kitClass] = v] *)
Definition pc_set (p : PerClassAmount) (k : KitClass) (v : num) : PerClassAmount :=
  match k with
  | K_first => mkPerClass v (business p) (premiumEconomy p) (economy p)
  | K_business => mkPerClass (first p) v (premiumEconomy p) (economy p)
  | K_premiumEconomy => mkPerClass (first p) (business p) v (economy p)
  | K_economy => mkPerClass (first p) (business p) (premiumEconomy p) v
  end.

Definition pc_const (v : num) : PerClassAmount := mkPerClass v v v v.

(** Modelled from the spec: [Airport] of section 3 (code, hub flag,
    per-class capacity, per-class loading and processing cost); the two
    cost records are read through optional chaining in the source and are
    therefore optional here. *)
Record Airport : Type := mkAirport {
  code : string;
  isHub : bool;
  capacity : PerClassAmount;
  loadingCost : option PerClassAmount;
  processingCost : option PerClassAmount
}.

(** Modelled from the spec: [Aircraft] of section 3. *)
Record Aircraft : Type := mkAircraft {
  seats : PerClassAmount;
  costPerKgPerKm : num
}.

(** Modelled from the spec: [FlightPlan] of section 3, with the field
    names the engine reads. *)
Record FlightPlan : Type := mkFlightPlan {
  departCode : string;
  arrivalCode : string;
  scheduledHour : Z;
  scheduledArrivalHour : Z;
  weekdays : list bool;
  distanceKm : num
}.

Record DayHour : Type := mkDayHour { day : Z; hour : Z }.

(** Modelled from the spec: [FlightEvent] of section 3. *)
Record FlightEvent : Type := mkFlightEvent {
  originAirport : string;
  destinationAirport : string;
  departure : DayHour;
  arrival : DayHour;
  passengers : PerClassAmount
}.

(** A JavaScript [Map] with string keys, as the list of its entries in
    insertion order; the keys of a [Map] are pairwise distinct, and [get]
    returns the entry of the key. *)
Definition JsMap (V : Type) : Type := list (string * V).

Fixpoint Map_get {V : Type} (m : JsMap V) (key : string) : option V :=
  match m with
  | [] => None
  | (k, v) :: rest => if decide (k = key) then Some v else Map_get rest key
  end.

Definition Map_values {V : Type} (m : JsMap V) : list V := map snd m.

(** [arr[i]] read as a condition: out of range is [undefined], falsy. *)
Definition truthy_at (arr : list bool) (i : Z) : bool :=
  if (i <? 0)%Z then false else nth (Z.to_nat i) arr false.

(** [new Error(message)]: the only exception the engine raises. *)
Inductive Exception : Type :=
| Error (message : string).

(** A call that either returns or throws. *)
Inductive Completion (A : Type) : Type :=
| Return (a : A)
| Throw (e : Exception).
Arguments Return {A} a.
Arguments Throw {A} e.

(* ===================================================================== *)
(** ** calibrator.ts: NetworkCalibrator                                   *)
(* ===================================================================== *)

Module Calibrator.

Local Open Scope js_scope.

Record NetworkTopology : Type := mkNetworkTopology {
  hubCode : string;
  spokeCount : nat;
  totalFlightsPerDay : num;
  avgFlightsPerSpoke : num;
  hubCapacity : PerClassAmount;
  avgSpokeCapacity : PerClassAmount;
  minSpokeCapacity : PerClassAmount;
  capacityRatio : PerClassAmount
}.

Record RouteEconomics : Type := mkRouteEconomics {
  avgDistance : num;
  minDistance : num;
  maxDistance : num;
  distanceStdDev : num;
  avgPenaltyPerEconomyKit : num;
  avgTransportCost : num;
  penaltyCostRatio : num
}.

Record EconomyLoadFactorConfig : Type := mkEconomyLoadFactorConfig {
  baseline : num;
  warningThreshold : num;
  dangerThreshold : num;
  minFactor : num;
  maxFactor : num
}.

(** The anonymous object type of [destinationBuffers]; its fields carry
    the prefix [buf_] to keep them apart from those of [PerClassAmount]. *)
Record DestinationBuffers : Type := mkDestinationBuffers {
  buf_hub : num;
  buf_economy : num;
  buf_premiumEconomy : num;
  buf_firstBusiness : num
}.

Record DatasetCharacteristics : Type := mkDatasetCharacteristics {
  topology : NetworkTopology;
  economics : RouteEconomics;
  economyLoadFactor : EconomyLoadFactorConfig;
  demandEstimates : PerClassAmount;
  destinationBuffers : DestinationBuffers;
  purchaseThresholdPercents : PerClassAmount;
  confidence : num;
  warnings : list string
}.

(** [SANITY_BOUNDS] *)
Definition economyLoadFactor_min : num := Fin 0.50.
Definition economyLoadFactor_max : num := Fin 0.90.
Definition purchaseThreshold_min : num := Fin 0.05.
Definition purchaseThreshold_max : num := Fin 0.90.
Definition demandEstimate_min (k : KitClass) : num :=
  match k with
  | K_first => Fin 2 | K_business => Fin 5
  | K_premiumEconomy => Fin 3 | K_economy => Fin 30
  end.
Definition demandEstimate_max (k : KitClass) : num :=
  match k with
  | K_first => Fin 100 | K_business => Fin 200
  | K_premiumEconomy => Fin 150 | K_economy => Fin 600
  end.

Definition zeroAmount : PerClassAmount := pc_const (Fin 0).

(** [arr.reduce((a, b) => a + b, 0)] *)
Definition sum (xs : list num) : num := fold_left add xs (Fin 0).

Section WithSqrt.

(** [Math.sqrt] has no rational counterpart; the calibrator is
    parametrised by it and nothing below depends on its values. *)
Variable Math_sqrt : num -> num.

Variable airports : JsMap Airport.
Variable aircraft : JsMap Aircraft.
Variable flightPlans : list FlightPlan.

(** [[...this.airports.values()].filter(a => !a.isHub)] *)
Definition spokes : list Airport :=
  List.filter (fun a => negb (isHub a)) (Map_values airports).

(** One pass of the inner [for (const kitClass of KIT_CLASSES)] loop of
    [analyzeTopology], on the pair (avgSpokeCapacity, minSpokeCapacity). *)
Definition spokeCapacityStep (n : num) (spoke : Airport)
    (acc : PerClassAmount * PerClassAmount) (kitClass : KitClass)
    : PerClassAmount * PerClassAmount :=
  let '(avg, mn) := acc in
  (pc_set avg kitClass (pc_get avg kitClass + pc_get (capacity spoke) kitClass / n),
   pc_set mn kitClass (Math_min (pc_get mn kitClass) (pc_get (capacity spoke) kitClass))).

Definition spokeCapacities (sp : list Airport) : PerClassAmount * PerClassAmount :=
  fold_left
    (fun acc spoke => fold_left (spokeCapacityStep (of_nat (length sp)) spoke) KIT_CLASSES acc)
    sp (zeroAmount, pc_const PInf).

(** [flightsPerWeekday] after the loop over the flight plans. *)
Definition flightsPerWeekday : list nat :=
  fold_left
    (fun acc plan =>
       imap (fun d c => if truthy_at (weekdays plan) (Z.of_nat d) then S c else c) acc)
    flightPlans (replicate 7 0%nat).

Definition capacityRatioOf (hubCap avg : PerClassAmount) : PerClassAmount :=
  fold_left
    (fun acc kitClass =>
       pc_set acc kitClass
         (if pc_get avg kitClass >? Fin 0
          then pc_get hubCap kitClass / pc_get avg kitClass
          else Fin 1))
    KIT_CLASSES zeroAmount.

Definition analyzeTopology : Completion NetworkTopology :=
  let hub := Map_get airports "HUB1" in
  let spokes := spokes in
  match hub with
  | None => Throw (Error "HUB1 not found in airports data")
  | Some hub =>
      let '(avgSpokeCapacity, minSpokeCapacity) := spokeCapacities spokes in
      let avgFlightsPerDay := sum (map of_nat flightsPerWeekday) / Fin 7 in
      let capacityRatio := capacityRatioOf (capacity hub) avgSpokeCapacity in
      Return
        {| hubCode := "HUB1";
           spokeCount := length spokes;
           totalFlightsPerDay := avgFlightsPerDay;
           avgFlightsPerSpoke :=
             avgFlightsPerDay / Math_max (Fin 1) (of_nat (length spokes)) / Fin 2;
           hubCapacity := capacity hub;
           avgSpokeCapacity := avgSpokeCapacity;
           minSpokeCapacity := minSpokeCapacity;
           capacityRatio := capacityRatio |}
  end.

(** [x ?? d] after an optional chain. *)
Definition orElse (x : option num) (d : num) : num :=
  match x with Some v => v | None => d end.

Definition calculateAvgTransportCost (avgDistance : num) : num :=
  let hub := Map_get airports "HUB1" in
  let spokes := spokes in
  let avgLoadingCost :=
    orElse (h ← hub; c ← loadingCost h; Some (economy c)) (Fin 2.0) in
  let aircraftArray := Map_values aircraft in
  let avgFuelRate :=
    if (0 <? length aircraftArray)%nat
    then fold_left (fun s a => s + costPerKgPerKm a) aircraftArray (Fin 0)
         / of_nat (length aircraftArray)
    else Fin 0.001 in
  let avgFuelCost := avgDistance * avgFuelRate * Fin 1.5 in
  let avgProcessingCost :=
    if (0 <? length spokes)%nat
    then fold_left
           (fun s sp => s + orElse (c ← processingCost sp; Some (economy c)) (Fin 4.0))
           spokes (Fin 0)
         / of_nat (length spokes)
    else Fin 4.0 in
  avgLoadingCost + avgFuelCost + avgProcessingCost.

Definition analyzeEconomics (topology : NetworkTopology) : RouteEconomics :=
  let distances :=
    List.filter (fun d => d >? Fin 0) (map distanceKm flightPlans) in
  if (length distances =? 0)%nat then
    {| avgDistance := Fin 3000;
       minDistance := Fin 500;
       maxDistance := Fin 6000;
       distanceStdDev := Fin 1500;
       avgPenaltyPerEconomyKit := Fin 4.5;
       avgTransportCost := Fin 4.0;
       penaltyCostRatio := Fin 1.125 |}
  else
    let avgDistance := sum distances / of_nat (length distances) in
    let minDistance := fold_left Math_min distances PInf in
    let maxDistance := fold_left Math_max distances NInf in
    let variance :=
      fold_left (fun s d => s + (d - avgDistance) * (d - avgDistance)) distances (Fin 0)
      / of_nat (length distances) in
    let distanceStdDev := Math_sqrt variance in
    let avgPenaltyPerEconomyKit := Fin 0.003 * avgDistance * Fin 50 in
    let avgTransportCost := calculateAvgTransportCost avgDistance in
    {| avgDistance := avgDistance;
       minDistance := minDistance;
       maxDistance := maxDistance;
       distanceStdDev := distanceStdDev;
       avgPenaltyPerEconomyKit := avgPenaltyPerEconomyKit;
       avgTransportCost := avgTransportCost;
       penaltyCostRatio := avgPenaltyPerEconomyKit / avgTransportCost |}.

(** The local [economicOptimal] of [calculateEconomyLoadFactor]:
    [R >= 1.0 ? 1.0 : 0.5 + 0.5 * R]. *)
Definition economicOptimal (R : num) : num :=
  if R >=? Fin 1.0 then Fin 1.0 else Fin 0.5 + Fin 0.5 * R.

Definition calculateEconomyLoadFactor
    (economics : RouteEconomics) (topology : NetworkTopology)
    : EconomyLoadFactorConfig :=
  let R := penaltyCostRatio economics in
  let economicOptimal := economicOptimal R in
  let capacityFactor :=
    Math_min (Fin 1.0) (economy (capacityRatio topology) / Fin 15) in
  let baseline :=
    Fin 0.55 + (economicOptimal - Fin 0.5) * Fin 0.35 + capacityFactor * Fin 0.10 in
  let baseline :=
    Math_max economyLoadFactor_min (Math_min economyLoadFactor_max baseline) in
  let baseline := Math_round (baseline * Fin 100) / Fin 100 in
  let avgDailyDemandPerSpoke :=
    (totalFlightsPerDay topology / of_nat (spokeCount topology)) * Fin 200 in
  let daysBuffer :=
    economy (avgSpokeCapacity topology) / Math_max (Fin 1) avgDailyDemandPerSpoke in
  let warningThreshold := if daysBuffer <? Fin 1.5 then Fin 0.50 else Fin 0.60 in
  let dangerThreshold := if daysBuffer <? Fin 1.5 then Fin 0.70 else Fin 0.80 in
  {| baseline := baseline;
     warningThreshold := warningThreshold;
     dangerThreshold := dangerThreshold;
     minFactor := Fin 0.50;
     maxFactor := Math_min (baseline + Fin 0.10) (Fin 0.90) |}.

Definition PASSENGER_LOAD_FACTOR : num := Fin 0.80.

Definition estimateDemand : PerClassAmount :=
  let aircraftArray := Map_values aircraft in
  if (length aircraftArray =? 0)%nat then
    mkPerClass (Fin 10) (Fin 50) (Fin 25) (Fin 200)
  else
    let n := of_nat (length aircraftArray) in
    let avgSeats :=
      fold_left
        (fun avg a =>
           mkPerClass
             (first avg + first (seats a) / n)
             (business avg + business (seats a) / n)
             (premiumEconomy avg + premiumEconomy (seats a) / n)
             (economy avg + economy (seats a) / n))
        aircraftArray zeroAmount in
    let estimate k :=
      Math_max (demandEstimate_min k)
        (Math_min (demandEstimate_max k)
           (Math_ceil (pc_get avgSeats k * PASSENGER_LOAD_FACTOR))) in
    mkPerClass (estimate K_first) (estimate K_business)
               (estimate K_premiumEconomy) (estimate K_economy).

Definition calculateDestinationBuffers (topology : NetworkTopology)
    : DestinationBuffers :=
  let hub := Fin 0.95 in
  let economyRatio := economy (capacityRatio topology) in
  let economy :=
    Math_max (Fin 0.65)
      (Math_min (Fin 0.80) (Fin 0.65 + (Fin 20 - economyRatio) * Fin 0.01)) in
  let premiumEconomy :=
    Math_max (Fin 0.75)
      (Math_min (Fin 0.85)
         (Fin 0.75 + (Fin 20 - premiumEconomy (capacityRatio topology)) * Fin 0.005)) in
  let firstBusiness :=
    Math_max (Fin 0.80)
      (Math_min (Fin 0.90)
         (Fin 0.80 + (Fin 20 - first (capacityRatio topology)) * Fin 0.005)) in
  {| buf_hub := hub;
     buf_economy := economy;
     buf_premiumEconomy := premiumEconomy;
     buf_firstBusiness := firstBusiness |}.

Definition LEAD_TIMES : PerClassAmount :=
  mkPerClass (Fin 48) (Fin 36) (Fin 24) (Fin 12).

Definition calculatePurchaseThresholds
    (topology : NetworkTopology) (demandEstimates : PerClassAmount)
    : PerClassAmount :=
  fold_left
    (fun thresholds kitClass =>
       let demandPerHour :=
         (totalFlightsPerDay topology / Fin 24) * pc_get demandEstimates kitClass in
       let demandDuringLeadTime := demandPerHour * pc_get LEAD_TIMES kitClass in
       let safetyMultiplier := Fin 1.5 in
       let rawThreshold :=
         (demandDuringLeadTime * safetyMultiplier)
         / pc_get (hubCapacity topology) kitClass in
       pc_set thresholds kitClass
         (Math_max purchaseThreshold_min (Math_min purchaseThreshold_max rawThreshold)))
    KIT_CLASSES zeroAmount.

Definition calculateConfidence
    (topology : NetworkTopology) (economics : RouteEconomics) : num :=
  let confidence := Fin 1.0 in
  let confidence :=
    if ((spokeCount topology <? 5)%nat || (100 <? spokeCount topology)%nat)%bool
    then confidence - Fin 0.1 else confidence in
  let confidence :=
    if distanceStdDev economics >? avgDistance economics * Fin 0.5
    then confidence - Fin 0.1 else confidence in
  let confidence :=
    if (length aircraft =? 0)%nat then confidence - Fin 0.2 else confidence in
  let confidence :=
    if (length flightPlans <? 50)%nat then confidence - Fin 0.2 else confidence in
  Math_max (Fin 0.3) confidence.

(** The three [warnings.push] of [calibrate], in order. *)
Definition collectWarnings
    (topology : NetworkTopology) (economics : RouteEconomics) : list string :=
  let warnings := [] in
  let warnings :=
    if (spokeCount topology <? 5)%nat
    then warnings ++ ["Small network detected: only " +:+ pretty (spokeCount topology)
                      +:+ " spokes"]
    else warnings in
  let warnings :=
    if (100 <? spokeCount topology)%nat
    then warnings ++ ["Large network detected: " +:+ pretty (spokeCount topology)
                      +:+ " spokes"]
    else warnings in
  let warnings :=
    if distanceStdDev economics >? avgDistance economics * Fin 0.6
    then warnings ++ ["High distance variance - may need route-specific adjustments"]
    else warnings in
  warnings.

Definition calibrate : Completion DatasetCharacteristics :=
  match analyzeTopology with
  | Throw e => Throw e
  | Return topology =>
      let economics := analyzeEconomics topology in
      let economyLoadFactor := calculateEconomyLoadFactor economics topology in
      let demandEstimates := estimateDemand in
      let destinationBuffers := calculateDestinationBuffers topology in
      let purchaseThresholdPercents :=
        calculatePurchaseThresholds topology demandEstimates in
      let warnings := collectWarnings topology economics in
      let confidence := calculateConfidence topology economics in
      Return
        {| topology := topology;
           economics := economics;
           economyLoadFactor := economyLoadFactor;
           demandEstimates := demandEstimates;
           destinationBuffers := destinationBuffers;
           purchaseThresholdPercents := purchaseThresholdPercents;
           confidence := confidence;
           warnings := warnings |}
  end.

End WithSqrt.

End Calibrator.

(** [Record<keyof PerClassAmount, A>]: one value of type [A] per class. *)
Record ByClass (A : Type) : Type := mkByClass {
  c_first : A;
  c_business : A;
  c_premiumEconomy : A;
  c_economy : A
}.
Arguments mkByClass {A}.
Arguments c_first {A}.
Arguments c_business {A}.
Arguments c_premiumEconomy {A}.
Arguments c_economy {A}.

Definition bc_get {A : Type} (r : ByClass A) (k : KitClass) : A :=
  match k with
  | K_first => c_first r
  | K_business => c_business r
  | K_premiumEconomy => c_premiumEconomy r
  | K_economy => c_economy r
  end.

Definition bc_set {A : Type} (r : ByClass A) (k : KitClass) (v : A) : ByClass A :=
  match k with
  | K_first => mkByClass v (c_business r) (c_premiumEconomy r) (c_economy r)
  | K_business => mkByClass (c_first r) v (c_premiumEconomy r) (c_economy r)
  | K_premiumEconomy => mkByClass (c_first r) (c_business r) v (c_economy r)
  | K_economy => mkByClass (c_first r) (c_business r) (c_premiumEconomy r) v
  end.

(* ===================================================================== *)
(** ** forecasting.ts: DemandForecaster                                   *)
(* ===================================================================== *)

Module Forecaster.

Local Open Scope js_scope.

Record DemandStats : Type := mkDemandStats {
  count : nat;
  sum : PerClassAmount;
  sumSq : PerClassAmount;
  min : PerClassAmount;
  max : PerClassAmount
}.

Record DemandForecaster : Type := mkDemandForecaster {
  flightPlans : list FlightPlan;
  observedDemands : ByClass (list num);
  cachedAverages : option PerClassAmount;
  characteristics : option Calibrator.DatasetCharacteristics;
  demandStats : DemandStats
}.

(** [new DemandForecaster(flightPlans, characteristics?)] *)
Definition new (flightPlans : list FlightPlan)
    (characteristics : option Calibrator.DatasetCharacteristics) : DemandForecaster :=
  {| flightPlans := flightPlans;
     observedDemands := mkByClass [] [] [] [];
     cachedAverages := None;
     characteristics := characteristics;
     demandStats :=
       {| count := 0;
          sum := pc_const (Fin 0);
          sumSq := pc_const (Fin 0);
          min := pc_const PInf;
          max := pc_const (Fin 0) |} |}.

Definition setCharacteristics (this : DemandForecaster)
    (c : Calibrator.DatasetCharacteristics) : DemandForecaster :=
  {| flightPlans := flightPlans this;
     observedDemands := observedDemands this;
     cachedAverages := cachedAverages this;
     characteristics := Some c;
     demandStats := demandStats this |}.

(** [arr.push(count); if (arr.length > 100) arr.shift();] *)
Definition pushBounded (arr : list num) (count : num) : list num :=
  let arr := arr ++ [count] in
  if (100 <? length arr)%nat then tail arr else arr.

(** First loop of [recordObservedDemand]: the per-class windows. *)
Definition recordWindows (obs : ByClass (list num)) (passengers : PerClassAmount)
    : ByClass (list num) :=
  fold_left
    (fun obs kitClass =>
       let count := pc_get passengers kitClass in
       if count >? Fin 0
       then bc_set obs kitClass (pushBounded (bc_get obs kitClass) count)
       else obs)
    KIT_CLASSES obs.

(** Second loop of [recordObservedDemand]: the aggregate statistics,
    after [this.demandStats.count++]. *)
Definition recordStats (stats : DemandStats) (passengers : PerClassAmount)
    : DemandStats :=
  fold_left
    (fun st kitClass =>
       let val := pc_get passengers kitClass in
       {| count := count st;
          sum := pc_set (sum st) kitClass (pc_get (sum st) kitClass + val);
          sumSq := pc_set (sumSq st) kitClass (pc_get (sumSq st) kitClass + val * val);
          min := pc_set (min st) kitClass (Math_min (pc_get (min st) kitClass) val);
          max := pc_set (max st) kitClass (Math_max (pc_get (max st) kitClass) val) |})
    KIT_CLASSES
    {| count := S (count stats);
       sum := sum stats; sumSq := sumSq stats; min := min stats; max := max stats |}.

Definition recordObservedDemand (this : DemandForecaster) (passengers : PerClassAmount)
    : DemandForecaster :=
  {| flightPlans := flightPlans this;
     observedDemands := recordWindows (observedDemands this) passengers;
     cachedAverages := None;
     characteristics := characteristics this;
     demandStats := recordStats (demandStats this) passengers |}.

Definition getObservedMean (this : DemandForecaster) (kitClass : KitClass) : num :=
  if (count (demandStats this) =? 0)%nat then Fin 0
  else pc_get (sum (demandStats this)) kitClass / of_nat (count (demandStats this)).

Definition getObservedVariance (this : DemandForecaster) (kitClass : KitClass) : num :=
  if (count (demandStats this) <? 2)%nat then Fin 0
  else
    let mean := getObservedMean this kitClass in
    let meanSq :=
      pc_get (sumSq (demandStats this)) kitClass / of_nat (count (demandStats this)) in
    meanSq - mean * mean.

Definition defaultEstimates : PerClassAmount :=
  mkPerClass (Fin 10) (Fin 50) (Fin 25) (Fin 200).

(** [this.characteristics?.demandEstimates ?? { first: 10, ... }] *)
Definition initialEstimates (this : DemandForecaster) : PerClassAmount :=
  match characteristics this with
  | Some c => Calibrator.demandEstimates c
  | None => defaultEstimates
  end.

(** The loop of [shouldRecalibrate] returns [true] at the first class
    whose ratio leaves [0.75, 1.25]; classes estimated at 0 are skipped. *)
Definition shouldRecalibrate (this : DemandForecaster) : bool :=
  if (count (demandStats this) <? 50)%nat then false
  else
    let estimates := initialEstimates this in
    existsb
      (fun kitClass =>
         let observed := getObservedMean this kitClass in
         let estimated := pc_get estimates kitClass in
         if estimated === Fin 0 then false
         else
           let ratio := observed / estimated in
           (ratio <? Fin 0.75) || (ratio >? Fin 1.25))
      KIT_CLASSES.

Definition getUpdatedDemandEstimates (this : DemandForecaster) : PerClassAmount :=
  if (count (demandStats this) <? 20)%nat then initialEstimates this
  else
    let initial := initialEstimates this in
    fold_left
      (fun updated kitClass =>
         let observed := getObservedMean this kitClass * Fin 1.3 in
         pc_set updated kitClass
           (Math_ceil (observed * Fin 0.7 + pc_get initial kitClass * Fin 0.3)))
      KIT_CLASSES (pc_const (Fin 0)).

Definition calculateAverage (arr : list num) : num :=
  if (length arr =? 0)%nat then Fin 0
  else fold_left add arr (Fin 0) / of_nat (length arr).

Definition getTypicalDemandEstimate (this : DemandForecaster) (kitClass : KitClass)
    : num :=
  match characteristics this with
  | Some c => pc_get (Calibrator.demandEstimates c) kitClass
  | None =>
      match kitClass with
      | K_first => Fin 10
      | K_business => Fin 50
      | K_premiumEconomy => Fin 25
      | K_economy => Fin 200
      end
  end.

(** [getDynamicDemandEstimate] fills the cache of averages on demand, so
    it returns the forecaster along with the estimate. *)
Definition getDynamicDemandEstimate (this : DemandForecaster) (kitClass : KitClass)
    : num * DemandForecaster :=
  let observations := bc_get (observedDemands this) kitClass in
  if (5 <=? length observations)%nat then
    let cache :=
      match cachedAverages this with
      | Some c => c
      | None =>
          mkPerClass
            (calculateAverage (c_first (observedDemands this)))
            (calculateAverage (c_business (observedDemands this)))
            (calculateAverage (c_premiumEconomy (observedDemands this)))
            (calculateAverage (c_economy (observedDemands this)))
      end in
    (Math_ceil (pc_get cache kitClass * Fin 1.3),
     {| flightPlans := flightPlans this;
        observedDemands := observedDemands this;
        cachedAverages := Some cache;
        characteristics := characteristics this;
        demandStats := demandStats this |})
  else (getTypicalDemandEstimate this kitClass, this).

(** [departsInWindow && departsAfterNow] for a (day, hour) stamp. *)
Definition inWindow (at_ : DayHour) (currentDay currentHour targetDay targetHour : Z)
    : bool :=
  let departsInWindow :=
    (day at_ <? targetDay)%Z
    || ((day at_ =? targetDay)%Z && (hour at_ <=? targetHour)%Z) in
  let departsAfterNow :=
    (day at_ >? currentDay)%Z
    || ((day at_ =? currentDay)%Z && (hour at_ >=? currentHour)%Z) in
  departsInWindow && departsAfterNow.

(** The loop over [knownFlights.values()] of [calculateDemandForAirport]. *)
Definition knownDemand (airportCode : string) (currentDay currentHour withinHours : Z)
    (kitClass : KitClass) (knownFlights : JsMap FlightEvent) (demand : num) : num :=
  let targetDay := (currentDay + (currentHour + withinHours) / 24)%Z in
  let targetHour := Z.rem (currentHour + withinHours) 24 in
  fold_left
    (fun demand flight =>
       if decide (originAirport flight = airportCode) then
         if inWindow (departure flight) currentDay currentHour targetDay targetHour
         then demand + pc_get (passengers flight) kitClass
         else demand
       else demand)
    (Map_values knownFlights) demand.

(** The inner loop over the flight plans, for one checked hour; [sel]
    tells whether a plan is scheduled at this airport on (day, hour). *)
Definition planHour (sel : FlightPlan -> Z -> Z -> bool) (kitClass : KitClass)
    (checkDay checkHour : Z) (acc : num * DemandForecaster) : num * DemandForecaster :=
  fold_left
    (fun '(demand, this) plan =>
       if sel plan checkHour (Z.rem checkDay 7) then
         let '(estimate, this) := getDynamicDemandEstimate this kitClass in
         (demand + estimate, this)
       else (demand, this))
    (flightPlans (snd acc)) acc.

(** [for (let h = 0; h < withinHours; h++)] with the hour and day carry. *)
Fixpoint planLoop (sel : FlightPlan -> Z -> Z -> bool) (kitClass : KitClass)
    (n : nat) (checkDay checkHour : Z) (acc : num * DemandForecaster)
    : num * DemandForecaster :=
  match n with
  | O => acc
  | S n' =>
      let acc := planHour sel kitClass checkDay checkHour acc in
      let checkHour := (checkHour + 1)%Z in
      if (checkHour >=? 24)%Z
      then planLoop sel kitClass n' (checkDay + 1)%Z 0%Z acc
      else planLoop sel kitClass n' checkDay checkHour acc
  end.

Definition departsAt (airportCode : string) (plan : FlightPlan)
    (checkHour weekdayIndex : Z) : bool :=
  bool_decide (departCode plan = airportCode)
  && (scheduledHour plan =? checkHour)%Z
  && truthy_at (weekdays plan) weekdayIndex.

Definition arrivesAt (airportCode : string) (plan : FlightPlan)
    (checkHour weekdayIndex : Z) : bool :=
  bool_decide (arrivalCode plan = airportCode)
  && (scheduledArrivalHour plan =? checkHour)%Z
  && truthy_at (weekdays plan) weekdayIndex.

Definition calculateDemandForAirport (this : DemandForecaster)
    (airportCode : string) (currentDay currentHour withinHours : Z)
    (kitClass : KitClass) (knownFlights : JsMap FlightEvent)
    : num * DemandForecaster :=
  let demand :=
    knownDemand airportCode currentDay currentHour withinHours kitClass
      knownFlights (Fin 0) in
  planLoop (departsAt airportCode) kitClass (Z.to_nat withinHours)
    currentDay currentHour (demand, this).

(** The loop over [knownFlights.values()] of
    [calculateInboundDemandForAirport]: arrivals instead of departures. *)
Definition knownInboundDemand (airportCode : string)
    (currentDay currentHour withinHours : Z)
    (kitClass : KitClass) (knownFlights : JsMap FlightEvent) (demand : num) : num :=
  let targetDay := (currentDay + (currentHour + withinHours) / 24)%Z in
  let targetHour := Z.rem (currentHour + withinHours) 24 in
  fold_left
    (fun demand flight =>
       if decide (destinationAirport flight = airportCode) then
         if inWindow (arrival flight) currentDay currentHour targetDay targetHour
         then demand + pc_get (passengers flight) kitClass
         else demand
       else demand)
    (Map_values knownFlights) demand.

Definition calculateInboundDemandForAirport (this : DemandForecaster)
    (airportCode : string) (currentDay currentHour withinHours : Z)
    (kitClass : KitClass) (knownFlights : JsMap FlightEvent)
    : num * DemandForecaster :=
  let demand :=
    knownInboundDemand airportCode currentDay currentHour withinHours kitClass
      knownFlights (Fin 0) in
  planLoop (arrivesAt airportCode) kitClass (Z.to_nat withinHours)
    currentDay currentHour (demand, this).

(** [calculateTotalDemand]: one [calculateDemandForAirport] per class, in
    the order of [KIT_CLASSES], on the same forecaster. *)
Definition calculateTotalDemand (this : DemandForecaster)
    (airportCode : string) (currentDay currentHour withinHours : Z)
    (knownFlights : JsMap FlightEvent) : PerClassAmount * DemandForecaster :=
  fold_left
    (fun '(demand, this) kitClass =>
       let '(v, this) :=
         calculateDemandForAirport this airportCode currentDay currentHour
           withinHours kitClass knownFlights in
       (pc_set demand kitClass v, this))
    KIT_CLASSES (pc_const (Fin 0), this).

(** The body run for a matching plan in [calculateScheduledDemand]:
    [for (const kitClass of KIT_CLASSES) demand[kitClass] += estimate]. *)
Definition addEstimates (acc : PerClassAmount * DemandForecaster)
    : PerClassAmount * DemandForecaster :=
  fold_left
    (fun '(demand, this) kitClass =>
       let '(estimate, this) := getDynamicDemandEstimate this kitClass in
       (pc_set demand kitClass (pc_get demand kitClass + estimate), this))
    KIT_CLASSES acc.

(** The loop over the flight plans of [calculateScheduledDemand], for one
    checked hour. *)
Definition scheduledHourStep (airportCode : string) (checkDay checkHour : Z)
    (acc : PerClassAmount * DemandForecaster) : PerClassAmount * DemandForecaster :=
  fold_left
    (fun acc plan =>
       if departsAt airportCode plan checkHour (Z.rem checkDay 7)
       then addEstimates acc
       else acc)
    (flightPlans (snd acc)) acc.

Fixpoint scheduledLoop (airportCode : string) (n : nat) (checkDay checkHour : Z)
    (acc : PerClassAmount * DemandForecaster) : PerClassAmount * DemandForecaster :=
  match n with
  | O => acc
  | S n' =>
      let acc := scheduledHourStep airportCode checkDay checkHour acc in
      let checkHour := (checkHour + 1)%Z in
      if (checkHour >=? 24)%Z
      then scheduledLoop airportCode n' (checkDay + 1)%Z 0%Z acc
      else scheduledLoop airportCode n' checkDay checkHour acc
  end.

Definition calculateScheduledDemand (this : DemandForecaster)
    (airportCode : string) (currentDay currentHour withinHours : Z)
    : PerClassAmount * DemandForecaster :=
  scheduledLoop airportCode (Z.to_nat withinHours) currentDay currentHour
    (pc_const (Fin 0), this).

(** [getFlightDistance]: the loop returns at the first plan of the route. *)
Definition getFlightDistance (this : DemandForecaster) (origin destination : string)
    : num :=
  match
    List.find
      (fun plan =>
         bool_decide (departCode plan = origin)
         && bool_decide (arrivalCode plan = destination))
      (flightPlans this)
  with
  | Some plan => distanceKm plan
  | None => Fin 0
  end.

Definition getAverageFlightDistance (this : DemandForecaster) : num :=
  if (length (flightPlans this) =? 0)%nat then Fin 2800
  else
    let '(totalDistance, count) :=
      fold_left
        (fun '(totalDistance, count) plan =>
           if distanceKm plan >? Fin 0
           then (totalDistance + distanceKm plan, S count)
           else (totalDistance, count))
        (flightPlans this) (Fin 0, 0%nat) in
    if (0 <? count)%nat then totalDistance / of_nat count else Fin 2800.

End Forecaster.

(* ===================================================================== *)
(** ** Strings and the two regular expressions of [parseReason]           *)
(* ===================================================================== *)

Module Str.

Local Open Scope string_scope.

(** [s.startsWith(p)] *)
Fixpoint startsWith (p s : string) : bool :=
  match p, s with
  | EmptyString, _ => true
  | String a p', String b s' => if Ascii.eqb a b then startsWith p' s' else false
  | String _ _, EmptyString => false
  end.

(** [s.includes(sub)] *)
Fixpoint includes (s sub : string) : bool :=
  startsWith sub s
  || match s with
     | EmptyString => false
     | String _ s' => includes s' sub
     end.

(** The class [\w]: ASCII letters, digits and the underscore. *)
Definition isWordChar (c : ascii) : bool :=
  let n := nat_of_ascii c in
  ((48 <=? n) && (n <=? 57) || (65 <=? n) && (n <=? 90)
   || (n =? 95) || (97 <=? n) && (n <=? 122))%nat.

(** The longest prefix of word characters: a greedy [\w*]. *)
Fixpoint takeWord (s : string) : string :=
  match s with
  | EmptyString => EmptyString
  | String c s' => if isWordChar c then String c (takeWord s') else EmptyString
  end.

Fixpoint dropChars (n : nat) (s : string) : string :=
  match n, s with
  | O, _ => s
  | S _, EmptyString => EmptyString
  | S n', String _ s' => dropChars n' s'
  end.

(** [reason.match(/Airport (\w+)/)?.[1]]: the leftmost position where
    the literal is followed by at least one word character. *)
Fixpoint matchAirport (reason : string) : option string :=
  let here :=
    if startsWith "Airport " reason
    then match takeWord (dropChars 8 reason) with
         | EmptyString => None
         | w => Some w
         end
    else None in
  match here with
  | Some w => Some w
  | None =>
      match reason with
      | EmptyString => None
      | String _ rest => matchAirport rest
      end
  end.

(** ASCII lower-casing; without the [u] flag the [i] flag never identifies
    a non-ASCII character with an ASCII one. *)
Definition toLower (c : ascii) : ascii :=
  let n := nat_of_ascii c in
  if ((65 <=? n) && (n <=? 90))%nat then ascii_of_nat (n + 32) else c.

(** [p] matches at the start of [s] regardless of case. *)
Fixpoint startsWithCI (p s : string) : bool :=
  match p, s with
  | EmptyString, _ => true
  | String a p', String b s' =>
      if Ascii.eqb (toLower a) (toLower b) then startsWithCI p' s' else false
  | String _ _, EmptyString => false
  end.

(** [reason.match(/(First|Business|Premium Economy|Economy)/i)], followed
    by the mapping of the lower-cased match to a key of [PerClassAmount]. *)
Fixpoint matchClass (reason : string) : option KitClass :=
  let here :=
    if startsWithCI "First" reason then Some K_first
    else if startsWithCI "Business" reason then Some K_business
    else if startsWithCI "Premium Economy" reason then Some K_premiumEconomy
    else if startsWithCI "Economy" reason then Some K_economy
    else None in
  match here with
  | Some k => Some k
  | None =>
      match reason with
      | EmptyString => None
      | String _ rest => matchClass rest
      end
  end.

End Str.

(* ===================================================================== *)
(** ** calibrator.ts: AdaptiveEngine                                      *)
(* ===================================================================== *)

Module Adaptive.

Local Open Scope js_scope.

Inductive StrategyMode : Type := aggressive | balanced | conservative.

Inductive PenaltyType : Type :=
| INVENTORY_EXCEEDS_CAPACITY
| FLIGHT_UNFULFILLED
| NEGATIVE_INVENTORY.

(** [kitClass] is one of the four keys [parseReason] can produce. *)
Record PenaltyRecord : Type := mkPenaltyRecord {
  day : Z;
  hour : Z;
  type : PenaltyType;
  amount : num;
  airportCode : option string;
  kitClass : option KitClass
}.

Record AirportPerformance : Type := mkAirportPerformance {
  overflowCount : nat;
  unfulfilledCount : nat;
  lastOverflowDay : Z;
  riskScore : num
}.

(** The fields of [ClassPenaltyStats]; the two counters carry the prefix
    [cls_] to keep them apart from those of [AirportPerformance]. *)
Record ClassPenaltyStats : Type := mkClassPenaltyStats {
  cls_unfulfilledCount : nat;
  unfulfilledCost : num;
  cls_overflowCount : nat;
  overflowCost : num
}.

Record DailySnapshot : Type := mkDailySnapshot {
  snap_day : Z;
  economyUnfulfilled : num;
  totalOverflow : num
}.

(** An element of the [penalties] argument of [recordPenalties]. *)
Record Penalty : Type := mkPenalty {
  code : string;
  penalty : num;
  reason : string
}.

(** The engine's fields; [loadingConfig] is never assigned or read and is
    left out. *)
Record AdaptiveEngine : Type := mkAdaptiveEngine {
  penaltyHistory : list PenaltyRecord;
  roundPenalties : list num;
  strategyMode : StrategyMode;
  airportPerformance : gmap string AirportPerformance;
  bufferMultiplier : num;
  economyBufferBoost : num;
  classPenaltyStats : ByClass ClassPenaltyStats;
  dailySnapshots : list DailySnapshot;
  loadFactorAdjustments : PerClassAmount;
  lastAdjustmentDay : Z
}.

Definition HISTORY_WINDOW : nat := 72.
Definition TREND_WINDOW : nat := 72.

Definition noPenalties : ClassPenaltyStats :=
  mkClassPenaltyStats 0 (Fin 0) 0 (Fin 0).

(** [new AdaptiveEngine()] *)
Definition new : AdaptiveEngine :=
  {| penaltyHistory := [];
     roundPenalties := [];
     strategyMode := balanced;
     airportPerformance := ∅;
     bufferMultiplier := Fin 1.0;
     economyBufferBoost := Fin 0;
     classPenaltyStats := mkByClass noPenalties noPenalties noPenalties noPenalties;
     dailySnapshots := [];
     loadFactorAdjustments := pc_const (Fin 0);
     lastAdjustmentDay := (-1)%Z |}.

Definition classifyPenalty (code : string) : PenaltyType :=
  if decide (code = "INVENTORY_EXCEEDS_CAPACITY") then INVENTORY_EXCEEDS_CAPACITY
  else if decide (code = "NEGATIVE_INVENTORY") then NEGATIVE_INVENTORY
  else FLIGHT_UNFULFILLED.

Definition parseReason (reason : string) : option string * option KitClass :=
  (Str.matchAirport reason, Str.matchClass reason).

(** The risk-score update of [updateAirportPerformance] on the entry
    [perf] (the stored one, or the fresh one of a first event). *)
Definition updatePerf (perf : AirportPerformance) (record : PenaltyRecord)
    : AirportPerformance :=
  let perf :=
    match type record with
    | INVENTORY_EXCEEDS_CAPACITY =>
        {| overflowCount := S (overflowCount perf);
           unfulfilledCount := unfulfilledCount perf;
           lastOverflowDay := day record;
           riskScore := Math_min (Fin 1.0) (riskScore perf + Fin 0.1) |}
    | FLIGHT_UNFULFILLED =>
        {| overflowCount := overflowCount perf;
           unfulfilledCount := S (unfulfilledCount perf);
           lastOverflowDay := lastOverflowDay perf;
           riskScore := Math_max (Fin 0.1) (riskScore perf - Fin 0.02) |}
    | NEGATIVE_INVENTORY => perf
    end in
  {| overflowCount := overflowCount perf;
     unfulfilledCount := unfulfilledCount perf;
     lastOverflowDay := lastOverflowDay perf;
     riskScore := riskScore perf * Fin 0.99 |}.

Definition freshPerf : AirportPerformance :=
  {| overflowCount := 0; unfulfilledCount := 0;
     lastOverflowDay := (-1)%Z; riskScore := Fin 0.5 |}.

(** [updateAirportPerformance(record)] on the performance map, for a
    record whose airport code is [code]. *)
Definition updateAirportPerformance (code : string) (record : PenaltyRecord)
    (m : gmap string AirportPerformance) : gmap string AirportPerformance :=
  let perf :=
    match m !! code with
    | Some perf => perf
    | None => freshPerf
    end in
  <[code := updatePerf perf record]> m.

Definition updateClassPenaltyStats (code : string) (penalty : num)
    (kitClass : option KitClass) (stats : ByClass ClassPenaltyStats)
    : ByClass ClassPenaltyStats :=
  let targetClass :=
    match kitClass with
    | Some k => Some k
    | None =>
        if Str.includes code "ECONOMY" then Some K_economy
        else if Str.includes code "BUSINESS" then Some K_business
        else if Str.includes code "PREMIUM" then Some K_premiumEconomy
        else if Str.includes code "FIRST" then Some K_first
        else None
    end in
  match targetClass with
  | None => stats
  | Some targetClass =>
      let s := bc_get stats targetClass in
      if Str.includes code "UNFULFILLED" then
        bc_set stats targetClass
          {| cls_unfulfilledCount := S (cls_unfulfilledCount s);
             unfulfilledCost := unfulfilledCost s + penalty;
             cls_overflowCount := cls_overflowCount s;
             overflowCost := overflowCost s |}
      else if Str.includes code "CAPACITY" || Str.includes code "OVERFLOW" then
        bc_set stats targetClass
          {| cls_unfulfilledCount := cls_unfulfilledCount s;
             unfulfilledCost := unfulfilledCost s;
             cls_overflowCount := S (cls_overflowCount s);
             overflowCost := overflowCost s + penalty |}
      else stats
  end.

(** [Object.values(this.classPenaltyStats).reduce((sum, s) => sum + s.overflowCost, 0)] *)
Definition totalOverflowCost (stats : ByClass ClassPenaltyStats) : num :=
  fold_left (fun sum s => sum + overflowCost s)
    [c_first stats; c_business stats; c_premiumEconomy stats; c_economy stats]
    (Fin 0).

(** [while (arr.length > n) arr.shift()]: the last [n] elements remain. *)
Definition trimTo {A : Type} (n : nat) (arr : list A) : list A :=
  drop (length arr - n) arr.

(** The body of the [for (const p of penalties)] loop of
    [recordPenalties], on (roundTotal, engine). *)
Definition recordOne (day hour : Z) (acc : num * AdaptiveEngine) (p : Penalty)
    : num * AdaptiveEngine :=
  let '(roundTotal, this) := acc in
  let roundTotal := roundTotal + penalty p in
  let '(airport, cls) := parseReason (reason p) in
  let record :=
    {| day := day; hour := hour; type := classifyPenalty (code p);
       amount := penalty p; airportCode := airport; kitClass := cls |} in
  let perfs :=
    match airportCode record with
    | Some c =>
        if decide (c = EmptyString) then airportPerformance this
        else updateAirportPerformance c record (airportPerformance this)
    | None => airportPerformance this
    end in
  (roundTotal,
   {| penaltyHistory := penaltyHistory this ++ [record];
      roundPenalties := roundPenalties this;
      strategyMode := strategyMode this;
      airportPerformance := perfs;
      bufferMultiplier := bufferMultiplier this;
      economyBufferBoost := economyBufferBoost this;
      classPenaltyStats :=
        updateClassPenaltyStats (code p) (penalty p) (kitClass record)
          (classPenaltyStats this);
      dailySnapshots := dailySnapshots this;
      loadFactorAdjustments := loadFactorAdjustments this;
      lastAdjustmentDay := lastAdjustmentDay this |}).

Definition takeDailySnapshot (this : AdaptiveEngine) (day : Z) : list DailySnapshot :=
  dailySnapshots this
  ++ [{| snap_day := day;
         economyUnfulfilled := unfulfilledCost (c_economy (classPenaltyStats this));
         totalOverflow := totalOverflowCost (classPenaltyStats this) |}].

(** [recordPenalties(penalties, day, hour)]; the trailing call of
    [analyzeAndAdapt] has an empty body (its code is commented out). *)
Definition recordPenalties (this : AdaptiveEngine) (penalties : list Penalty)
    (day hour : Z) : AdaptiveEngine :=
  let '(roundTotal, this) := fold_left (recordOne day hour) penalties (Fin 0, this) in
  {| penaltyHistory := trimTo (HISTORY_WINDOW * 24) (penaltyHistory this);
     roundPenalties := trimTo TREND_WINDOW (roundPenalties this ++ [roundTotal]);
     strategyMode := strategyMode this;
     airportPerformance := airportPerformance this;
     bufferMultiplier := bufferMultiplier this;
     economyBufferBoost := economyBufferBoost this;
     classPenaltyStats := classPenaltyStats this;
     dailySnapshots :=
       if ((hour =? 0)%Z && (day >? 0)%Z)%bool
       then takeDailySnapshot this (day - 1)%Z
       else dailySnapshots this;
     loadFactorAdjustments := loadFactorAdjustments this;
     lastAdjustmentDay := lastAdjustmentDay this |}.

Definition getBufferPercent (this : AdaptiveEngine) (destinationAirport : string)
    (kitClass : KitClass) (baseBuffer : num) : num :=
  let buffer := baseBuffer in
  let buffer := buffer * bufferMultiplier this in
  let buffer :=
    if decide (kitClass = K_economy) then buffer - economyBufferBoost this
    else buffer in
  let buffer :=
    match airportPerformance this !! destinationAirport with
    | Some perf =>
        if riskScore perf >? Fin 0.7
        then buffer - (riskScore perf - Fin 0.7) * Fin 0.1
        else buffer
    | None => buffer
    end in
  Math_max (Fin 0.5) (Math_min (Fin 0.95) buffer).

Definition getAirportRiskScore (this : AdaptiveEngine) (airportCode : string) : num :=
  match airportPerformance this !! airportCode with
  | Some perf => riskScore perf
  | None => Fin 0.5
  end.

Definition isHotAirport (this : AdaptiveEngine) (airportCode : string)
    (currentDay : Z) : bool :=
  match airportPerformance this !! airportCode with
  | None => false
  | Some perf =>
      (lastOverflowDay perf >=? currentDay - 2)%Z && (3 <? overflowCount perf)%nat
  end.

Definition getTotalOverflowCost (this : AdaptiveEngine) : num :=
  totalOverflowCost (classPenaltyStats this).

Definition MAX_DAILY_ADJUSTMENT : num := Fin 0.02.
Definition MAX_TOTAL_ADJUSTMENT : num := Fin 0.10.
Definition UNFULFILLED_THRESHOLD : num := Fin 500000.
Definition OVERFLOW_THRESHOLD : num := Fin 10000.

Definition setEconomyAdjustment (this : AdaptiveEngine) (v : num) (d : Z)
    : AdaptiveEngine :=
  {| penaltyHistory := penaltyHistory this;
     roundPenalties := roundPenalties this;
     strategyMode := strategyMode this;
     airportPerformance := airportPerformance this;
     bufferMultiplier := bufferMultiplier this;
     economyBufferBoost := economyBufferBoost this;
     classPenaltyStats := classPenaltyStats this;
     dailySnapshots := dailySnapshots this;
     loadFactorAdjustments := pc_set (loadFactorAdjustments this) K_economy v;
     lastAdjustmentDay := d |}.

(** [suggestLoadFactorAdjustment(currentDay)]: the returned number and
    the engine after the call ([console.log] is not modelled). *)
Definition suggestLoadFactorAdjustment (this : AdaptiveEngine) (currentDay : Z)
    : num * AdaptiveEngine :=
  if (currentDay <? 3)%Z then (Fin 0, this)
  else if (currentDay =? lastAdjustmentDay this)%Z
  then (economy (loadFactorAdjustments this), this)
  else
    let economyUnfulfilledRate :=
      unfulfilledCost (c_economy (classPenaltyStats this)) / of_Z currentDay in
    let overflowRate := getTotalOverflowCost this / of_Z currentDay in
    let currentAdjustment := economy (loadFactorAdjustments this) in
    if Math_abs currentAdjustment >=? MAX_TOTAL_ADJUSTMENT
    then (currentAdjustment, this)
    else
      let adjustment :=
        if (economyUnfulfilledRate >? UNFULFILLED_THRESHOLD)
           && (overflowRate <? OVERFLOW_THRESHOLD)
        then MAX_DAILY_ADJUSTMENT
        else if overflowRate >? OVERFLOW_THRESHOLD * Fin 5
        then neg MAX_DAILY_ADJUSTMENT
        else Fin 0 in
      let newTotal := currentAdjustment + adjustment in
      let adjustment :=
        if newTotal >? MAX_TOTAL_ADJUSTMENT
        then MAX_TOTAL_ADJUSTMENT - currentAdjustment
        else if newTotal <? neg MAX_TOTAL_ADJUSTMENT
        then neg MAX_TOTAL_ADJUSTMENT - currentAdjustment
        else adjustment in
      let this :=
        if negb (adjustment === Fin 0)
        then setEconomyAdjustment this
               (economy (loadFactorAdjustments this) + adjustment) currentDay
        else this in
      (economy (loadFactorAdjustments this), this).

Definition getLoadFactorAdjustment (this : AdaptiveEngine) (kitClass : KitClass) : num :=
  pc_get (loadFactorAdjustments this) kitClass.

(** The two public calls the feedback loop makes on the engine. *)
Inductive Call : Type :=
| CallRecordPenalties (penalties : list Penalty) (day hour : Z)
| CallSuggest (currentDay : Z).

Definition dayOf (c : Call) : Z :=
  match c with
  | CallRecordPenalties _ d _ => d
  | CallSuggest d => d
  end.

(** One call: the engine afterwards and, for a suggestion, its result. *)
Definition step (this : AdaptiveEngine) (c : Call) : AdaptiveEngine * option num :=
  match c with
  | CallRecordPenalties ps d h => (recordPenalties this ps d h, None)
  | CallSuggest d =>
      let '(v, this) := suggestLoadFactorAdjustment this d in (this, Some v)
  end.

Definition run (this : AdaptiveEngine) (calls : list Call) : AdaptiveEngine :=
  fold_left (fun e c => fst (step e c)) calls this.

Definition getStrategyMode (this : AdaptiveEngine) : StrategyMode :=
  strategyMode this.

Definition getPurchaseMultiplier (_kitClass : KitClass) : num := Fin 1.0.

End Adaptive.

(* ===================================================================== *)
(** ** calibrator.ts: RuntimeCalibrator                                   *)
(* ===================================================================== *)

Module Runtime.

Local Open Scope js_scope.

Record ObservedDemand : Type := mkObservedDemand {
  count : nat;
  sum : PerClassAmount;
  sumSq : PerClassAmount
}.

Record RuntimeCalibrator : Type := mkRuntimeCalibrator {
  initialCharacteristics : Calibrator.DatasetCharacteristics;
  observedDemand : ObservedDemand;
  adjustmentHistory : list num;
  cumulativeAdjustment : num
}.

(** [new RuntimeCalibrator(initial)] *)
Definition new (initial : Calibrator.DatasetCharacteristics) : RuntimeCalibrator :=
  {| initialCharacteristics := initial;
     observedDemand :=
       {| count := 0; sum := pc_const (Fin 0); sumSq := pc_const (Fin 0) |};
     adjustmentHistory := [];
     cumulativeAdjustment := Fin 0 |}.

Definition recordObservation (this : RuntimeCalibrator) (passengers : PerClassAmount)
    : RuntimeCalibrator :=
  {| initialCharacteristics := initialCharacteristics this;
     observedDemand :=
       fold_left
         (fun od kitClass =>
            {| count := count od;
               sum := pc_set (sum od) kitClass
                        (pc_get (sum od) kitClass + pc_get passengers kitClass);
               sumSq := pc_set (sumSq od) kitClass
                          (pc_get (sumSq od) kitClass
                           + pc_get passengers kitClass * pc_get passengers kitClass) |})
         KIT_CLASSES
         {| count := S (count (observedDemand this));
            sum := sum (observedDemand this);
            sumSq := sumSq (observedDemand this) |};
     adjustmentHistory := adjustmentHistory this;
     cumulativeAdjustment := cumulativeAdjustment this |}.

Definition getObservedMean (this : RuntimeCalibrator) (kitClass : KitClass) : num :=
  if (count (observedDemand this) =? 0)%nat then Fin 0
  else pc_get (sum (observedDemand this)) kitClass / of_nat (count (observedDemand this)).

Definition shouldRecalibrate (this : RuntimeCalibrator) : bool :=
  if (count (observedDemand this) <? 50)%nat then false
  else
    existsb
      (fun kitClass =>
         let observed := getObservedMean this kitClass in
         let estimated :=
           pc_get (Calibrator.demandEstimates (initialCharacteristics this)) kitClass in
         let ratio := observed / Math_max (Fin 1) estimated in
         (ratio <? Fin 0.75) || (ratio >? Fin 1.25))
      KIT_CLASSES.

Definition getUpdatedDemandEstimates (this : RuntimeCalibrator) : PerClassAmount :=
  if (count (observedDemand this) <? 20)%nat
  then Calibrator.demandEstimates (initialCharacteristics this)
  else
    fold_left
      (fun updated kitClass =>
         let observed := getObservedMean this kitClass * Fin 1.3 in
         let initial :=
           pc_get (Calibrator.demandEstimates (initialCharacteristics this)) kitClass in
         pc_set updated kitClass (Math_ceil (observed * Fin 0.7 + initial * Fin 0.3)))
      KIT_CLASSES (pc_const (Fin 0)).

Definition MAX_DAILY_ADJUSTMENT : num := Fin 0.02.
Definition MAX_TOTAL_ADJUSTMENT : num := Fin 0.10.

(** [suggestLoadFactorAdjustment(unfulfilledCost, overflowCost, currentDay)]:
    the returned step and the calibrator after the call. *)
Definition suggestLoadFactorAdjustment (this : RuntimeCalibrator)
    (unfulfilledCost overflowCost : num) (currentDay : Z)
    : num * RuntimeCalibrator :=
  if (currentDay <? 3)%Z then (Fin 0, this)
  else
    let unfulfilledRate := unfulfilledCost / of_Z currentDay in
    let overflowRate := overflowCost / of_Z currentDay in
    if Math_abs (cumulativeAdjustment this) >=? MAX_TOTAL_ADJUSTMENT
    then (Fin 0, this)
    else
      let adjustment :=
        if (unfulfilledRate >? Fin 500000) && (overflowRate <? Fin 10000)
        then Fin 0.02
        else if overflowRate >? Fin 50000
        then neg (Fin 0.02)
        else Fin 0 in
      let adjustment :=
        Math_max (neg MAX_DAILY_ADJUSTMENT) (Math_min MAX_DAILY_ADJUSTMENT adjustment) in
      let adjustment :=
        if cumulativeAdjustment this + adjustment >? MAX_TOTAL_ADJUSTMENT
        then MAX_TOTAL_ADJUSTMENT - cumulativeAdjustment this
        else if cumulativeAdjustment this + adjustment <? neg MAX_TOTAL_ADJUSTMENT
        then neg MAX_TOTAL_ADJUSTMENT - cumulativeAdjustment this
        else adjustment in
      let this :=
        if negb (adjustment === Fin 0)
        then {| initialCharacteristics := initialCharacteristics this;
                observedDemand := observedDemand this;
                adjustmentHistory := adjustmentHistory this ++ [adjustment];
                cumulativeAdjustment := cumulativeAdjustment this + adjustment |}
        else this in
      (adjustment, this).

Definition getCurrentEconomyLoadFactor (this : RuntimeCalibrator) : num :=
  let config := Calibrator.economyLoadFactor (initialCharacteristics this) in
  let baseline := Calibrator.baseline config in
  Math_max (Calibrator.minFactor config)
    (Math_min (Calibrator.maxFactor config) (baseline + cumulativeAdjustment this)).

Definition getCumulativeAdjustment (this : RuntimeCalibrator) : num :=
  cumulativeAdjustment this.

End Runtime.

(* ===================================================================== *)
(** ** Engine types: purchase configuration scaled to the hub           *)
(* ===================================================================== *)

Module EngineTypes.

Local Open Scope js_scope.

(** [PurchaseConfig]; its [Record<string, number>] fields are keyed by
    the four kit classes. *)
Record PurchaseConfig : Type := mkPurchaseConfig {
  thresholds : PerClassAmount;
  emergencyThresholds : PerClassAmount;
  maxPerOrder : PerClassAmount;
  maxTotalPurchase : PerClassAmount;
  apiLimits : PerClassAmount;
  purchaseInterval : num;
  demandBuffer : num;
  forecastHours : num
}.

Definition calculateDynamicPurchaseConfig (hubCapacity : PerClassAmount)
    : PurchaseConfig :=
  {| thresholds :=
       mkPerClass
         (Math_floor (first hubCapacity * Fin 0.10))
         (Math_floor (business hubCapacity * Fin 0.33))
         (Math_floor (premiumEconomy hubCapacity * Fin 0.40))
         (Math_floor (economy hubCapacity * Fin 0.70));
     emergencyThresholds :=
       mkPerClass
         (Math_max (Fin 50) (Math_floor (first hubCapacity * Fin 0.02)))
         (Math_max (Fin 200) (Math_floor (business hubCapacity * Fin 0.03)))
         (Math_max (Fin 50) (Math_floor (premiumEconomy hubCapacity * Fin 0.02)))
         (Math_max (Fin 1000) (Math_floor (economy hubCapacity * Fin 0.05)));
     maxPerOrder :=
       mkPerClass
         (Math_max (Fin 100) (Math_floor (first hubCapacity * Fin 0.05)))
         (Math_max (Fin 500) (Math_floor (business hubCapacity * Fin 0.15)))
         (Math_max (Fin 100) (Math_floor (premiumEconomy hubCapacity * Fin 0.10)))
         (Math_max (Fin 2000) (Math_floor (economy hubCapacity * Fin 0.15)));
     maxTotalPurchase :=
       mkPerClass
         (first hubCapacity * Fin 3)
         (business hubCapacity * Fin 3)
         (premiumEconomy hubCapacity * Fin 3)
         (economy hubCapacity * Fin 3);
     apiLimits := mkPerClass (Fin 42000) (Fin 42000) (Fin 3000) (Fin 42000);
     purchaseInterval := Fin 6;
     demandBuffer := Fin 1.0;
     forecastHours := Fin 48 |}.

End EngineTypes.

(* ===================================================================== *)
(** ** forecasting.ts: the demand statistics on binary64 numbers          *)
(* ===================================================================== *)

Module F64.

Import PrimFloat.
Local Open Scope float_scope.
#[local] Set Warnings "-inexact-float".

(** A whole number below 2^63 in absolute value as a binary64 number. *)
Definition of_Z (z : Z) : float :=
  if (z <? 0)%Z then - of_uint63 (Uint63.of_Z (- z)) else of_uint63 (Uint63.of_Z z).

Definition of_nat (n : nat) : float := of_Z (Z.of_nat n).

(** [Math.ceil]: a number with a non-negative binary exponent is whole
    already; otherwise the mantissa is divided by the power of two. *)
Definition Math_ceil (x : float) : float :=
  match FloatOps.Prim2SF x with
  | SpecFloat.S754_finite negative m e =>
      if (0 <=? e)%Z then x
      else
        let q := (Z.pos m / 2 ^ (- e))%Z in
        let r := (Z.pos m mod 2 ^ (- e))%Z in
        if negative then - of_Z q else of_Z (if (r =? 0)%Z then q else (q + 1)%Z)
  | _ => x
  end.

(** The part of [demandStats] that belongs to one kit class. *)
Record ClassStats : Type := mkClassStats {
  count : nat;
  sum : float;
  sumSq : float
}.

Definition new : ClassStats := {| count := 0; sum := 0; sumSq := 0 |}.

(** [recordObservedDemand], for the value [val] of the class. *)
Definition recordObservedDemand (stats : ClassStats) (val : float) : ClassStats :=
  {| count := S (count stats);
     sum := sum stats + val;
     sumSq := sumSq stats + val * val |}.

Definition recordAll (obs : list float) : ClassStats :=
  fold_left recordObservedDemand obs new.

Definition getObservedMean (stats : ClassStats) : float :=
  if (count stats =? 0)%nat then 0 else sum stats / of_nat (count stats).

Definition getObservedVariance (stats : ClassStats) : float :=
  if (count stats <? 2)%nat then 0
  else
    let mean := getObservedMean stats in
    let meanSq := sumSq stats / of_nat (count stats) in
    meanSq - mean * mean.

(** One class of [getUpdatedDemandEstimates], [initial] being the
    calibrated or default estimate of the class. *)
Definition getUpdatedDemandEstimate (stats : ClassStats) (initial : float) : float :=
  if (count stats <? 20)%nat then initial
  else
    let observed := getObservedMean stats * 1.3 in
    Math_ceil (observed * 0.7 + initial * 0.3).

End F64.

(* ===================================================================== *)
(** ** Vocabulary of the properties                                       *)
(* ===================================================================== *)

Module CalibratorSpec.

Import Calibrator.

(** All four quantities are finite numbers. *)
Definition finiteAmount (p : PerClassAmount) : Prop :=
  forall k, is_finite (pc_get p k).

(** An optional cost record, when present, holds finite numbers. *)
Definition finiteOpt (o : option PerClassAmount) : Prop :=
  match o with Some p => finiteAmount p | None => True end.

(** The airport's capacity and costs are finite. *)
Definition finiteAirport (a : Airport) : Prop :=
  finiteAmount (capacity a) /\ finiteOpt (loadingCost a) /\ finiteOpt (processingCost a).

(** The aircraft's seat counts and fuel rate are finite. *)
Definition finiteAircraft (a : Aircraft) : Prop :=
  finiteAmount (seats a) /\ is_finite (costPerKgPerKm a).

(** Every number of the reference data is finite. *)
Definition finiteInputs (airports : JsMap Airport) (aircraft : JsMap Aircraft)
    (plans : list FlightPlan) : Prop :=
  Forall finiteAirport (Map_values airports)
  /\ Forall finiteAircraft (Map_values aircraft)
  /\ Forall (fun p => is_finite (distanceKm p)) plans.

(** A cost of at most 10^9 in absolute value. *)
Definition boundedCost (x : num) : Prop := between (-1000000000) 1000000000 x.

(** The economy cost of an optional cost record, when present, is
    bounded. *)
Definition boundedCostOpt (o : option PerClassAmount) : Prop :=
  match o with Some p => boundedCost (economy p) | None => True end.

(** The numbers that enter the penalty/cost ratio stay in a range that
    binary64 averages without overflow or underflow: the economy loading
    and processing costs and the fuel rates are at most 10^9 in absolute
    value, and every positive distance lies between 0.001 and 10^9. *)
Definition rangedInputs (airports : JsMap Airport) (aircraft : JsMap Aircraft)
    (plans : list FlightPlan) : Prop :=
  Forall (fun a => boundedCostOpt (loadingCost a) /\ boundedCostOpt (processingCost a))
    (Map_values airports)
  /\ Forall (fun a => boundedCost (costPerKgPerKm a)) (Map_values aircraft)
  /\ Forall
       (fun p =>
          (distanceKm p >? Fin 0)%js = true ->
          between 0.001 1000000000 (distanceKm p))
       plans.

(** The number of (flight plan, weekday) pairs on which a plan flies. *)
Definition activeFlightDays (plans : list FlightPlan) : nat :=
  list_sum (flightsPerWeekday plans).

(** The documented bounds of the calibrated outputs. *)
Definition withinBounds (r : DatasetCharacteristics) : Prop :=
  between 0.50 0.90 (baseline (economyLoadFactor r))
  /\ (forall k, between 0.05 0.90 (pc_get (purchaseThresholdPercents r) k))
  /\ between 0.65 0.80 (buf_economy (destinationBuffers r))
  /\ between 0.75 0.85 (buf_premiumEconomy (destinationBuffers r))
  /\ between 0.80 0.90 (buf_firstBusiness (destinationBuffers r)).

End CalibratorSpec.

Module ForecasterSpec.

Import Forecaster.
Local Open Scope string_scope.
Local Open Scope list_scope.

(** The forecaster after [recordObservedDemand] was called on each
    element of [obs] in turn. *)
Definition recordAll (this : DemandForecaster) (obs : list PerClassAmount)
    : DemandForecaster :=
  fold_left recordObservedDemand obs this.

(** The values recorded for one class. *)
Definition column (k : KitClass) (obs : list PerClassAmount) : list num :=
  map (fun p => pc_get p k) obs.

(** [arr.reduce((a, b) => a + b, 0) / arr.length]: the mean E[X]. *)
Definition listMean (xs : list num) : num :=
  (fold_left add xs (Fin 0) / of_nat (length xs))%js.

(** The population variance E[X²] − (E[X])² of a list of numbers. *)
Definition populationVariance (xs : list num) : num :=
  (listMean (map (fun x => x * x) xs) - listMean xs * listMean xs)%js.

(** The mean on rationals. *)
Definition Qmean (qs : list Q) : Q :=
  (fold_left Qplus qs 0 / inject_Z (Z.of_nat (length qs)))%Q.

(** E[X²] − (E[X])² on rationals. *)
Definition QpopulationVariance (qs : list Q) : Q :=
  (Qmean (map (fun q => q * q) qs) - Qmean qs * Qmean qs)%Q.

(** Whole passenger counts between 0 and [bound]. *)
Definition countsUpTo (bound : Z) (counts : list Z) : Prop :=
  Forall (fun c => (0 <= c <= bound)%Z) counts.

(** The blend [mean * 1.3 * 0.7 + initial * 0.3] on rationals. *)
Definition Qblend (mean initial : Q) : Q :=
  (mean * 1.3 * 0.7 + initial * 0.3)%Q.

(** Hours elapsed since day 0, hour 0. *)
Definition absHour (t : DayHour) : Z := day t * 24 + hour t.

(** The flight leaves [airportCode] in the closed window
    [now, now + horizon]. *)
Definition departsInClosedWindow (airportCode : string)
    (currentDay currentHour withinHours : Z) (flight : FlightEvent) : bool :=
  bool_decide (originAirport flight = airportCode)
  && (currentDay * 24 + currentHour <=? absHour (departure flight))%Z
  && (absHour (departure flight) <=? currentDay * 24 + currentHour + withinHours)%Z.

(** The flight leaves [airportCode] in the half-open window
    (now, now + horizon]. *)
Definition departsInHalfOpenWindow (airportCode : string)
    (currentDay currentHour withinHours : Z) (flight : FlightEvent) : bool :=
  bool_decide (originAirport flight = airportCode)
  && (currentDay * 24 + currentHour <? absHour (departure flight))%Z
  && (absHour (departure flight) <=? currentDay * 24 + currentHour + withinHours)%Z.

(** The passenger counts of the known flights selected by [counted],
    summed in the order of the map. *)
Definition countedPassengers (counted : FlightEvent -> bool) (kitClass : KitClass)
    (knownFlights : JsMap FlightEvent) : num :=
  fold_left add
    (map (fun f => pc_get (passengers f) kitClass)
       (List.filter counted (Map_values knownFlights)))
    (Fin 0).

(** An hour of the day. *)
Definition validHour (h : Z) : Prop := 0 <= h < 24.

End ForecasterSpec.

Module AdaptiveSpec.

Import Adaptive.

(** The stored economy adjustment is a rational within ±0.10. *)
Definition adjustmentBounded (e : AdaptiveEngine) : Prop :=
  exists q, economy (loadFactorAdjustments e) = Fin q /\ (-0.10 <= q <= 0.10)%Q.

(** A risk score is a rational in (0, 1]. *)
Definition scoreInRange (perf : AirportPerformance) : Prop :=
  exists q, riskScore perf = Fin q /\ (0 < q <= 1)%Q.

(** The score the source computes from a score [q] on an event. *)
Definition nextScore (t : PenaltyType) (q : Q) : Q :=
  (match t with
   | INVENTORY_EXCEEDS_CAPACITY => Qmin 1 (q + 0.1)
   | FLIGHT_UNFULFILLED => Qmax 0.1 (q - 0.02)
   | NEGATIVE_INVENTORY => q
   end * 0.99)%Q.

(** The penalty is attributed to [airport]: its reason names it. *)
Definition attributedTo (airport : string) (c : Call) : Prop :=
  match c with
  | CallRecordPenalties penalties _ _ =>
      exists p, In p penalties /\ Str.matchAirport (reason p) = Some airport
  | CallSuggest _ => False
  end.

End AdaptiveSpec.

(* ===================================================================== *)
(** ** Vocabulary of the further properties                               *)
(* ===================================================================== *)

Module ForecasterMoreSpec.

Import Forecaster ForecasterSpec.
Local Open Scope string_scope.
Local Open Scope list_scope.

(** The flight lands at [airportCode] in the closed window
    [now, now + horizon]. *)
Definition arrivesInClosedWindow (airportCode : string)
    (currentDay currentHour withinHours : Z) (flight : FlightEvent) : bool :=
  bool_decide (destinationAirport flight = airportCode)
  && (currentDay * 24 + currentHour <=? absHour (arrival flight))%Z
  && (absHour (arrival flight) <=? currentDay * 24 + currentHour + withinHours)%Z.

(** The entries of the map whose flight satisfies [keep]. *)
Definition keepFlights (keep : FlightEvent -> bool) (knownFlights : JsMap FlightEvent)
    : JsMap FlightEvent :=
  List.filter (fun entry => keep (snd entry)) knownFlights.

(** The last [n] elements of a list. *)
Definition lastN {A : Type} (n : nat) (l : list A) : list A :=
  drop (length l - n) l.

(** The positive values among those recorded for a class. *)
Definition positives (xs : list num) : list num :=
  List.filter (fun x => (x >? Fin 0)%js) xs.

(** The averages [getDynamicDemandEstimate] stores in its cache. *)
Definition windowAverages (this : DemandForecaster) : PerClassAmount :=
  mkPerClass
    (calculateAverage (c_first (observedDemands this)))
    (calculateAverage (c_business (observedDemands this)))
    (calculateAverage (c_premiumEconomy (observedDemands this)))
    (calculateAverage (c_economy (observedDemands this))).

(** The cache is empty or holds the averages of the current windows. *)
Definition cacheCoherent (this : DemandForecaster) : Prop :=
  match cachedAverages this with
  | None => True
  | Some c => c = windowAverages this
  end.

(** Two forecasters that differ at most in the cache. *)
Definition sameButCache (a b : DemandForecaster) : Prop :=
  flightPlans a = flightPlans b
  /\ observedDemands a = observedDemands b
  /\ characteristics a = characteristics b
  /\ demandStats a = demandStats b.

(** The estimate as a function of the windows and the calibration alone:
    [ceil(average * 1.3)] from 5 observations on, the calibrated or
    default estimate below. *)
Definition dynamicEstimate (this : DemandForecaster) (kitClass : KitClass) : num :=
  if (5 <=? length (bc_get (observedDemands this) kitClass))%nat
  then Math_ceil (calculateAverage (bc_get (observedDemands this) kitClass) * Fin 1.3)%js
  else getTypicalDemandEstimate this kitClass.

(** The (day, hour) reached [i] hours after (day, hour). *)
Definition slotDay (currentDay currentHour : Z) (i : nat) : Z :=
  currentDay + (currentHour + Z.of_nat i) / 24.
Definition slotHour (currentHour : Z) (i : nat) : Z :=
  (currentHour + Z.of_nat i) mod 24.

(** The number of pairs (hour offset [i < n], plan) such that the plan is
    selected at the slot [i] hours after now, on that slot's weekday. *)
Definition planHits (sel : FlightPlan -> Z -> Z -> bool) (plans : list FlightPlan)
    (currentDay currentHour : Z) (n : nat) : nat :=
  list_sum
    (map
       (fun i =>
          length
            (List.filter
               (fun plan =>
                  sel plan (slotHour currentHour i)
                    (Z.rem (slotDay currentDay currentHour i) 7))
               plans))
       (seq 0 n)).

(** The same count, following the hour and day carry of the loop. *)
Fixpoint loopHits (sel : FlightPlan -> Z -> Z -> bool) (plans : list FlightPlan)
    (n : nat) (checkDay checkHour : Z) : nat :=
  match n with
  | O => O
  | S n' =>
      (length (List.filter (fun plan => sel plan checkHour (Z.rem checkDay 7)) plans)
       + (if (checkHour + 1 >=? 24)%Z
          then loopHits sel plans n' (checkDay + 1)%Z 0%Z
          else loopHits sel plans n' checkDay (checkHour + 1)%Z))%nat
  end.

(** The calls a live feed makes on the forecaster's estimate: recording
    an observation and asking for the estimate of a class. *)
Inductive EstimateCall : Type :=
| CallRecord (passengers : PerClassAmount)
| CallEstimate (kitClass : KitClass).

Definition estimateStep (this : DemandForecaster) (c : EstimateCall)
    : DemandForecaster :=
  match c with
  | CallRecord p => recordObservedDemand this p
  | CallEstimate k => snd (getDynamicDemandEstimate this k)
  end.

Definition estimateRun (this : DemandForecaster) (calls : list EstimateCall)
    : DemandForecaster :=
  fold_left estimateStep calls this.

(** The observations among the calls, in order. *)
Definition recordsOf (calls : list EstimateCall) : list PerClassAmount :=
  flat_map (fun c => match c with CallRecord p => [p] | CallEstimate _ => [] end) calls.

End ForecasterMoreSpec.
(* ===================================================================== *)
(** ** Vocabulary of the statements about RuntimeCalibrator               *)
(* ===================================================================== *)

Module RuntimeSpec.

Import Runtime.
Local Open Scope js_scope.

(** The two mutating calls of a [RuntimeCalibrator]. *)
Inductive RuntimeCall : Type :=
| Observe (passengers : PerClassAmount)
| Suggest (unfulfilledCost overflowCost : num) (currentDay : Z).

Definition runtimeStep (this : RuntimeCalibrator) (c : RuntimeCall) : RuntimeCalibrator :=
  match c with
  | Observe p => recordObservation this p
  | Suggest u o d => snd (suggestLoadFactorAdjustment this u o d)
  end.

Definition runtimeRun (this : RuntimeCalibrator) (calls : list RuntimeCall)
    : RuntimeCalibrator :=
  fold_left runtimeStep calls this.

(** The cumulative adjustment is a number within ±0.10 and the history
    adds up to it. *)
Definition adjustmentConsistent (this : RuntimeCalibrator) : Prop :=
  exists q,
    cumulativeAdjustment this = Fin q
    /\ (-0.10 <= q <= 0.10)%Q
    /\ fold_left add (adjustmentHistory this) (Fin 0) ≈ Fin q.

(** Every class is estimated at 1 passenger or more. *)
Definition estimatesAtLeastOne (c : Calibrator.DatasetCharacteristics) : Prop :=
  forall k, exists q, pc_get (Calibrator.demandEstimates c) k = Fin q /\ (1 <= q)%Q.

(** The calibrator and the forecaster hold the same statistics. *)
Definition sameStatistics (r : RuntimeCalibrator) (f : Forecaster.DemandForecaster)
    : Prop :=
  count (observedDemand r) = Forecaster.count (Forecaster.demandStats f)
  /\ (forall k,
        pc_get (sum (observedDemand r)) k
        = pc_get (Forecaster.sum (Forecaster.demandStats f)) k)
  /\ Forecaster.characteristics f = Some (initialCharacteristics r).

End RuntimeSpec.
(* ===================================================================== *)
(** ** Vocabulary of the further statements about AdaptiveEngine          *)
(* ===================================================================== *)

Module AdaptiveMoreSpec.

Import Adaptive.
Local Open Scope string_scope.
Local Open Scope list_scope.

(** The number of [recordPenalties] calls in a sequence. *)
Definition recordCalls (calls : list Call) : nat :=
  length
    (List.filter
       (fun c => match c with CallRecordPenalties _ _ _ => true | CallSuggest _ => false end)
       calls).

(** The number of penalties passed to [recordPenalties] in a sequence. *)
Definition recordedPenalties (calls : list Call) : nat :=
  list_sum
    (map (fun c =>
            match c with
            | CallRecordPenalties ps _ _ => length ps
            | CallSuggest _ => 0%nat
            end) calls).

(** [clamp(q)] to the range of buffers, [0.50, 0.95]. *)
Definition clampBuffer (q : Q) : Q := Qmax 0.5 (Qmin 0.95 q).

(** The penalty is an overflow whose reason names [airport]. *)
Definition overflowAt (airport : string) (p : Penalty) : bool :=
  match classifyPenalty (code p), fst (parseReason (reason p)) with
  | INVENTORY_EXCEEDS_CAPACITY, Some c => bool_decide (c = airport)
  | _, _ => false
  end.

(** The days of the overflow penalties attributed to [airport], in the
    order they were recorded. *)
Definition overflowDays (airport : string) (calls : list Call) : list Z :=
  flat_map
    (fun c =>
       match c with
       | CallRecordPenalties ps d _ => map (fun _ => d) (List.filter (overflowAt airport) ps)
       | CallSuggest _ => []
       end) calls.

(** The stored entry of an airport agrees with the overflow days seen. *)
Definition countsOverflows (m : gmap string AirportPerformance) (airport : string)
    (days : list Z) : Prop :=
  match m !! airport with
  | None => days = []
  | Some perf =>
      overflowCount perf = length days /\ lastOverflowDay perf = List.last days (-1)%Z
  end.

(** Every character of [w] is a word character. *)
Fixpoint wordChars (w : string) : bool :=
  match w with
  | EmptyString => true
  | String c w' => Str.isWordChar c && wordChars w'
  end.

(** [rest] is empty or begins with a character that ends a word. *)
Definition endsWord (rest : string) : bool :=
  match rest with
  | EmptyString => true
  | String c _ => negb (Str.isWordChar c)
  end.

(** No character of [s] is [c]. *)
Fixpoint lacksChar (c : ascii) (s : string) : bool :=
  match s with
  | EmptyString => true
  | String a s' => negb (Ascii.eqb a c) && lacksChar c s'
  end.

(** The string with [f] applied to each character. *)
Fixpoint mapChars (f : ascii -> ascii) (s : string) : string :=
  match s with
  | EmptyString => EmptyString
  | String c s' => String (f c) (mapChars f s')
  end.

(** ASCII upper-casing. *)
Definition toUpper (c : ascii) : ascii :=
  let n := nat_of_ascii c in
  if ((97 <=? n) && (n <=? 122))%nat then ascii_of_nat (n - 32) else c.

(** [s.toLowerCase()] and [s.toUpperCase()] on ASCII text. *)
Definition lowerCase (s : string) : string := mapChars Str.toLower s.
Definition upperCase (s : string) : string := mapChars toUpper s.

End AdaptiveMoreSpec.
(* ===================================================================== *)
(** ** Vocabulary of the statements about the purchase configuration      *)
(* ===================================================================== *)

Module EngineTypesSpec.

(** The whole hub capacity from which the emergency threshold of a class
    no longer exceeds its regular threshold: the least whole [c] with
    [0.10 c >= 50], [0.33 c >= 200], [0.40 c >= 50] and [0.70 c >= 1000]. *)
Definition minimumCapacity (k : KitClass) : Q :=
  match k with
  | K_first => 500
  | K_business => 607
  | K_premiumEconomy => 125
  | K_economy => 1429
  end.

End EngineTypesSpec.
(* ===================================================================== *)
(** ** Vocabulary of the statement about the calibration confidence       *)
(* ===================================================================== *)

Module CalibratorMoreSpec.

(** A positive number or +Infinity. *)
Definition positiveOrInf (x : num) : Prop :=
  match x with
  | Fin q => (0 < q)%Q
  | PInf => True
  | _ => False
  end.

(** A number that is not negative, or +Infinity. *)
Definition nonNegativeOrInf (x : num) : Prop :=
  match x with
  | Fin q => (0 <= q)%Q
  | PInf => True
  | _ => False
  end.

End CalibratorMoreSpec.

(* ===================================================================== *)
(** ** Facts about JavaScript numbers                                     *)
(* ===================================================================== *)

Module JSFacts.

#[local] Arguments Qfloor : simpl never.
#[local] Arguments Qceiling : simpl never.

(** Decides a boolean comparison against its proposition. *)
Ltac by_compare :=
  match goal with
  | |- context [Qcompare ?a ?b] => destruct (Qcompare_spec a b)
  end; split; intros; try lra; try discriminate; reflexivity.

Lemma Qltb_true (a b : Q) : Qltb a b = true <-> (a < b)%Q.
Proof. unfold Qltb. by_compare. Qed.

Lemma Qleb_true (a b : Q) : Qleb a b = true <-> (a <= b)%Q.
Proof. unfold Qleb. by_compare. Qed.

Lemma Qltb_false (a b : Q) : Qltb a b = false <-> (b <= a)%Q.
Proof. unfold Qltb. by_compare. Qed.

Lemma Qleb_false (a b : Q) : Qleb a b = false <-> (b < a)%Q.
Proof. unfold Qleb. by_compare. Qed.

(** Case analysis on every rational comparison in sight. *)
Ltac qcases :=
  unfold Qltb, Qleb, Qeqb in *;
  repeat match goal with
         | |- context [Qcompare ?a ?b] => destruct (Qcompare_spec a b)
         | H : context [Qcompare ?a ?b] |- _ => destruct (Qcompare_spec a b)
         end.

Lemma num_eq_refl (x : num) : (x ≈ x)%js.
Proof. destruct x; simpl; auto. reflexivity. Qed.

(** Clamping a number that is not NaN lands in the clamping interval. *)
Lemma clamp_between (lo hi : Q) (x : num) :
  (lo <= hi)%Q -> is_nan x = false ->
  between lo hi (Math_max (Fin lo) (Math_min (Fin hi) x)).
Proof.
  intros Hle Hx. destruct x as [q| | |]; try discriminate; simpl.
  - unfold Qleb. destruct (Qcompare_spec hi q); simpl; unfold Qleb.
    + destruct (Qcompare_spec lo hi); simpl; lra.
    + destruct (Qcompare_spec lo hi); simpl; lra.
    + destruct (Qcompare_spec lo q); simpl; lra.
  - unfold Qleb. destruct (Qcompare_spec lo hi); simpl; lra.
  - lra.
Qed.

Lemma finite_inv (x : num) : is_finite x -> exists q, x = Fin q.
Proof. destruct x; simpl; intros H; try contradiction. eauto. Qed.

(** Rounding to two decimals keeps a number inside [0.50, 0.90]. *)
Lemma round2_between (x : num) :
  between 0.5 0.9 x -> between 0.5 0.9 (Math_round (x * Fin 100) / Fin 100)%js.
Proof.
  destruct x as [q| | |]; try contradiction. intros [Hlo Hhi]. simpl.
  assert (H1 : (50 <= Qfloor (q * 100 + (1 # 2)))%Z).
  { change 50%Z with (Qfloor (50 + (1 # 2))). apply Qfloor_resp_le. lra. }
  assert (H2 : (Qfloor (q * 100 + (1 # 2)) <= 90)%Z).
  { change 90%Z with (Qfloor (90 + (1 # 2))). apply Qfloor_resp_le. lra. }
  rewrite Zle_Qle in H1, H2.
  change (inject_Z 50) with 50%Q in H1. change (inject_Z 90) with 90%Q in H2.
  revert H1 H2. generalize (inject_Z (Qfloor (q * 100 + (1 # 2)))).
  intros r H1 H2. unfold Qdiv. change (/ 100)%Q with (1 # 100)%Q. lra.
Qed.

Lemma of_nat_pos (n : nat) : (0 < n)%nat -> (0 < inject_Z (Z.of_nat n))%Q.
Proof.
  intros H. change 0%Q with (inject_Z 0). rewrite <- Zlt_Qlt. lia.
Qed.

Lemma div_of_nat (q : Q) (n : nat) :
  (0 < n)%nat -> (Fin q / of_nat n)%js = Fin (q / inject_Z (Z.of_nat n)).
Proof.
  intros H. apply of_nat_pos in H. unfold of_nat, of_Z, div.
  destruct (Qcompare_spec (inject_Z (Z.of_nat n)) 0); try reflexivity; lra.
Qed.

Lemma div_of_nat_finite (x : num) (n : nat) :
  is_finite x -> (0 < n)%nat -> is_finite (x / of_nat n)%js.
Proof.
  intros Hx Hn. destruct (finite_inv _ Hx) as [q ->].
  rewrite div_of_nat by assumption. exact I.
Qed.

(** Sums of finite numbers are the finite sums of their values. *)
Lemma fold_add_Fin (qs : list Q) (a : Q) :
  fold_left add (map Fin qs) (Fin a) = Fin (fold_left Qplus qs a).
Proof.
  revert a. induction qs as [|q qs IH]; intros a; simpl; [reflexivity|apply IH].
Qed.

End JSFacts.

(* ===================================================================== *)
(** ** NetworkCalibrator: failure mode, fallback scenario, load factor    *)
(* ===================================================================== *)

Module CalibratorFacts.

Import Calibrator JSFacts.
Local Open Scope string_scope.

Section WithSqrt.

Variable Math_sqrt : num -> num.

Lemma analyzeTopology_throws airports plans :
  Map_get airports "HUB1" = None ->
  analyzeTopology airports plans = Throw (Error "HUB1 not found in airports data").
Proof. intros H. unfold analyzeTopology. rewrite H. reflexivity. Qed.

Lemma analyzeTopology_returns airports plans hub :
  Map_get airports "HUB1" = Some hub ->
  exists t, analyzeTopology airports plans = Return t
            /\ hubCode t = "HUB1"
            /\ hubCapacity t = capacity hub
            /\ spokeCount t = length (spokes airports)
            /\ capacityRatio t
               = capacityRatioOf (capacity hub) (fst (spokeCapacities (spokes airports)))
            /\ totalFlightsPerDay t
               = (sum (map of_nat (flightsPerWeekday plans)) / Fin 7)%js.
Proof.
  intros H. unfold analyzeTopology. rewrite H.
  destruct (spokeCapacities (spokes airports)) as [avg mn] eqn:E.
  eexists. split; [reflexivity|]. simpl. auto 6.
Qed.

(** C1, as amended: [calibrate] finds the hub under the key ["HUB1"] of
    the airports map, whatever the [isHub] flags say.  It throws
    [Error("HUB1 not found in airports data")] exactly when the map has
    no entry for that key, and then returns nothing; in every other case
    it returns a result whose hub capacity is that of the ["HUB1"]
    entry. *)
Theorem calibrate_throws_iff_no_HUB1 airports aircraft plans :
  match Map_get airports "HUB1", calibrate Math_sqrt airports aircraft plans with
  | None, Throw e => e = Error "HUB1 not found in airports data"
  | Some hub, Return r =>
      hubCode (topology r) = "HUB1" /\ hubCapacity (topology r) = capacity hub
  | _, _ => False
  end.
Proof.
  unfold calibrate.
  destruct (Map_get airports "HUB1") as [hub|] eqn:E.
  - destruct (analyzeTopology_returns airports plans hub E) as (t & -> & Hh & Hc & _).
    simpl. split; assumption.
  - rewrite (analyzeTopology_throws _ _ E). reflexivity.
Qed.

(** C3, as amended: with no flight plan, no aircraft and the hub alone,
    stored under the key ["HUB1"] with capacity 1000/3000/1500/20000,
    [calibrate] returns; the demand estimates are the fallback
    10/50/25/200, the confidence is at most 0.6 and not below 0.4 (three
    penalties: small network, no aircraft, few flight plans), and one
    warning is recorded. *)
Theorem calibrate_hub_only (name : string) (lc pc : option PerClassAmount) :
  let hub :=
    mkAirport name true
      (mkPerClass (Fin 1000) (Fin 3000) (Fin 1500) (Fin 20000)) lc pc in
  exists r,
    calibrate Math_sqrt [("HUB1", hub)] [] [] = Return r
    /\ demandEstimates r = mkPerClass (Fin 10) (Fin 50) (Fin 25) (Fin 200)
    /\ (confidence r <=? Fin 0.6)%js = true
    /\ between 0.4 0.6 (confidence r)
    /\ warnings r = ["Small network detected: only 0 spokes"]
    /\ warnings r <> [].
Proof.
  intros hub. eexists. split; [reflexivity|]. simpl.
  repeat split; try reflexivity; try discriminate.
Qed.

(** C4: the economic-optimal component is 1 from a ratio of 1 upwards,
    0.5 at ratio 0 and [0.5 + 0.5 R] for [0 <= R < 1]; it is the value
    [calculateEconomyLoadFactor] blends into the baseline. *)
Theorem economicOptimal_piecewise (R : Q) :
  ((1 <= R)%Q -> (economicOptimal (Fin R) ≈ Fin 1)%js)
  /\ ((R == 0)%Q -> (economicOptimal (Fin R) ≈ Fin 0.5)%js)
  /\ ((0 <= R < 1)%Q -> (economicOptimal (Fin R) ≈ Fin (0.5 + 0.5 * R))%js)
  /\ (economicOptimal PInf ≈ Fin 1)%js
  /\ (forall e t,
        penaltyCostRatio e = Fin R ->
        baseline (calculateEconomyLoadFactor e t)
        = (Math_round
             (Math_max economyLoadFactor_min
                (Math_min economyLoadFactor_max
                   (Fin 0.55 + (economicOptimal (Fin R) - Fin 0.5) * Fin 0.35
                    + Math_min (Fin 1.0) (economy (capacityRatio t) / Fin 15) * Fin 0.10))
              * Fin 100) / Fin 100)%js).
Proof.
  unfold economicOptimal, ge, le. split; [|split; [|split; [|split]]].
  - intros H. unfold Qleb. destruct (Qcompare_spec 1.0 R); simpl; lra.
  - intros H. unfold Qleb. destruct (Qcompare_spec 1.0 R); simpl; lra.
  - intros H. unfold Qleb. destruct (Qcompare_spec 1.0 R); simpl; lra.
  - simpl. reflexivity.
  - intros e t HR. unfold calculateEconomyLoadFactor. rewrite HR. reflexivity.
Qed.

Lemma economicOptimal_piecewise_witness :
  (economicOptimal (Fin 2) ≈ Fin 1)%js
  /\ (economicOptimal (Fin 0) ≈ Fin 0.5)%js
  /\ (economicOptimal (Fin 0.25) ≈ Fin (0.5 + 0.5 * 0.25))%js.
Proof.
  split; [|split].
  - apply (proj1 (economicOptimal_piecewise 2)). lra.
  - apply (proj1 (proj2 (economicOptimal_piecewise 0))). reflexivity.
  - apply (proj1 (proj2 (proj2 (economicOptimal_piecewise 0.25)))). lra.
Defined.

End WithSqrt.

(** C1, as stated, fails: an airport flagged as hub under another key does
    not keep [calibrate] from throwing. *)
Lemma calibrate_hub_flag_counterexample :
  ~ (forall Math_sqrt airports aircraft plans,
        (exists r, calibrate Math_sqrt airports aircraft plans = Return r)
        <-> (exists a, In a (Map_values airports) /\ isHub a = true)).
Proof.
  intros claim.
  pose (hub := mkAirport "HUB2" true (pc_const (Fin 1000)) None None).
  destruct (proj2 (claim (fun x => x) [("HUB2", hub)] [] [])) as [r Hr].
  - exists hub. split; [left; reflexivity | reflexivity].
  - discriminate Hr.
Qed.

(** C3, as stated, fails: the scenario's hub, flagged as hub but stored
    under its own code ["HUB2"], makes [calibrate] throw. *)
Lemma calibrate_hub_only_key_counterexample :
  ~ (forall Math_sqrt (key : string) (hub : Airport),
        isHub hub = true ->
        capacity hub = mkPerClass (Fin 1000) (Fin 3000) (Fin 1500) (Fin 20000) ->
        exists r, calibrate Math_sqrt [(key, hub)] [] [] = Return r).
Proof.
  intros claim.
  pose (hub := mkAirport "HUB2" true
                 (mkPerClass (Fin 1000) (Fin 3000) (Fin 1500) (Fin 20000)) None None).
  destruct (claim (fun x => x) "HUB2" hub eq_refl eq_refl) as [r Hr].
  discriminate Hr.
Qed.

End CalibratorFacts.

(* ===================================================================== *)
(** ** NetworkCalibrator: sanity bounds of the calibrated parameters      *)
(* ===================================================================== *)

Module CalibratorBounds.

Import Calibrator CalibratorSpec JSFacts.
Local Open Scope string_scope.

Lemma finiteAmount_fields (p : PerClassAmount) :
  finiteAmount p ->
  exists a b c d, p = mkPerClass (Fin a) (Fin b) (Fin c) (Fin d).
Proof.
  intros H. destruct p as [a b c d].
  destruct (finite_inv _ (H K_first)) as [a' Ha].
  destruct (finite_inv _ (H K_business)) as [b' Hb].
  destruct (finite_inv _ (H K_premiumEconomy)) as [c' Hc].
  destruct (finite_inv _ (H K_economy)) as [d' Hd].
  simpl in *. subst. eauto.
Qed.

(** A running sum of finite terms is finite. *)
Lemma fold_add_finite {A : Type} (f : A -> num) (l : list A) (s0 : num) :
  is_finite s0 -> Forall (fun a => is_finite (f a)) l ->
  is_finite (fold_left (fun s a => (s + f a)%js) l s0).
Proof.
  revert s0. induction l as [|a l IH]; intros s0 H0 Hl; simpl; [exact H0|].
  inversion Hl as [|? ? Ha Hl']; subst. apply IH; [|assumption].
  destruct (finite_inv _ H0) as [q ->]. destruct (finite_inv _ Ha) as [r ->].
  exact I.
Qed.

(** A running sum of positive finite terms is positive. *)
Lemma fold_add_pos (l : list num) (q0 : Q) :
  (0 <= q0)%Q ->
  Forall (fun x => exists d, x = Fin d /\ (0 < d)%Q) l ->
  exists s, fold_left add l (Fin q0) = Fin s
            /\ (q0 <= s)%Q /\ (l <> [] -> (0 < s)%Q).
Proof.
  revert q0. induction l as [|x l IH]; intros q0 H0 Hl; simpl.
  - exists q0. repeat split; try lra; try congruence.
  - inversion Hl as [|? ? (d & -> & Hd) Hl']; subst.
    destruct (IH (q0 + d)%Q ltac:(lra) Hl') as (s & Hs & Hle & _).
    exists s. simpl. rewrite Hs. repeat split; try lra.
Qed.

Lemma sum_of_nat (l : list nat) (q0 : Q) :
  exists s, fold_left add (map of_nat l) (Fin q0) = Fin s
            /\ (s == q0 + inject_Z (Z.of_nat (list_sum l)))%Q.
Proof.
  revert q0. induction l as [|n l IH]; intros q0; simpl.
  - exists q0. split; [reflexivity|]. change (inject_Z (Z.of_nat 0)) with 0%Q. lra.
  - destruct (IH (q0 + inject_Z (Z.of_nat n))%Q) as (s & Hs & Heq).
    exists s. split; [exact Hs|]. rewrite Heq.
    rewrite Nat2Z.inj_add, inject_Z_plus. lra.
Qed.

Lemma spokeStep_finite (n : nat) (spoke : Airport)
    (acc : PerClassAmount * PerClassAmount) :
  (0 < n)%nat -> finiteAmount (capacity spoke) -> finiteAmount (fst acc) ->
  finiteAmount (fst (fold_left (spokeCapacityStep (of_nat n) spoke) KIT_CLASSES acc)).
Proof.
  intros Hn Hc Ha. destruct acc as [avg mn]. simpl in Ha.
  destruct (finiteAmount_fields _ Hc) as (c1 & c2 & c3 & c4 & Ec).
  destruct (finiteAmount_fields _ Ha) as (a1 & a2 & a3 & a4 & ->).
  cbn [fold_left KIT_CLASSES spokeCapacityStep pc_get pc_set fst
       first business premiumEconomy economy].
  rewrite Ec. cbn [first business premiumEconomy economy].
  rewrite !div_of_nat by assumption.
  intros k; destruct k; exact I.
Qed.

Lemma spokeCapacities_finite (sp : list Airport) :
  Forall (fun a => finiteAmount (capacity a)) sp ->
  finiteAmount (fst (spokeCapacities sp)).
Proof.
  intros H. unfold spokeCapacities.
  destruct sp as [|a0 sp0] eqn:E; [intros k; destruct k; exact I|].
  rewrite <- E in *. assert (Hn : (0 < length sp)%nat) by (subst; simpl; lia).
  clear E. revert Hn. generalize (length sp) as n. intros n Hn.
  assert (H0 : finiteAmount (fst (zeroAmount, pc_const PInf)))
    by (intros k; destruct k; exact I).
  revert H0. generalize (zeroAmount, pc_const PInf) as acc.
  induction H as [|a l Ha Hl IH]; intros acc H0; simpl; [exact H0|].
  apply IH. apply spokeStep_finite; assumption.
Qed.

Lemma capacityRatioOf_finite (hubCap avg : PerClassAmount) :
  finiteAmount hubCap -> finiteAmount avg -> finiteAmount (capacityRatioOf hubCap avg).
Proof.
  intros Hh Ha.
  destruct (finiteAmount_fields _ Hh) as (h1 & h2 & h3 & h4 & ->).
  destruct (finiteAmount_fields _ Ha) as (a1 & a2 & a3 & a4 & ->).
  unfold capacityRatioOf. simpl. unfold gt, lt.
  intros k; destruct k; simpl; qcases; simpl; try exact I; lra.
Qed.

Lemma avgSeats_finite (n : nat) (l : list Aircraft) (acc : PerClassAmount) :
  (0 < n)%nat -> Forall finiteAircraft l -> finiteAmount acc ->
  finiteAmount
    (fold_left
       (fun avg a =>
          mkPerClass
            (first avg + first (seats a) / of_nat n)
            (business avg + business (seats a) / of_nat n)
            (premiumEconomy avg + premiumEconomy (seats a) / of_nat n)
            (economy avg + economy (seats a) / of_nat n))%js
       l acc).
Proof.
  intros Hn Hl. revert acc.
  induction Hl as [|a l [Ha _] Hl IH]; intros acc Hacc; simpl; [exact Hacc|].
  apply IH.
  destruct (finiteAmount_fields _ Ha) as (c1 & c2 & c3 & c4 & ->).
  destruct (finiteAmount_fields _ Hacc) as (a1 & a2 & a3 & a4 & ->).
  cbn [first business premiumEconomy economy].
  rewrite !div_of_nat by assumption.
  intros k; destruct k; exact I.
Qed.

(** The demand estimates are finite and at least 2 in every class. *)
Lemma estimateDemand_positive (aircraft : JsMap Aircraft) (k : KitClass) :
  Forall finiteAircraft (Map_values aircraft) ->
  exists e, pc_get (estimateDemand aircraft) k = Fin e /\ (2 <= e)%Q.
Proof.
  intros H. unfold estimateDemand.
  destruct (length (Map_values aircraft) =? 0)%nat eqn:E.
  - destruct k; simpl; eexists; (split; [reflexivity|lra]).
  - apply Nat.eqb_neq in E.
    pose proof (avgSeats_finite (length (Map_values aircraft)) _ zeroAmount
                  ltac:(lia) H ltac:(intros j; destruct j; exact I)) as Hfin.
    destruct (finiteAmount_fields _ Hfin) as (s1 & s2 & s3 & s4 & Es).
    rewrite Es.
    destruct k; cbn [pc_get first business premiumEconomy economy
                     demandEstimate_min demandEstimate_max PASSENGER_LOAD_FACTOR mul
                     Math_ceil of_Z];
      match goal with
      | |- exists e, Math_max (Fin ?lo) (Math_min (Fin ?hi) ?x) = Fin e /\ _ =>
          pose proof (clamp_between lo hi x ltac:(lra) eq_refl) as Hb;
          destruct (Math_max (Fin lo) (Math_min (Fin hi) x)) as [e| | |];
          try contradiction; exists e; split; [reflexivity|]; simpl in Hb; lra
      end.
Qed.

Lemma orElse_finite (o : option PerClassAmount) (d : Q) :
  finiteOpt o -> is_finite (orElse (c ← o; Some (economy c)) (Fin d)).
Proof. destruct o as [p|]; simpl; [|auto]. intros H. apply (H K_economy). Qed.

Lemma Map_get_values {V : Type} (m : JsMap V) (key : string) (v : V) :
  Map_get m key = Some v -> In v (Map_values m).
Proof.
  induction m as [|[k' v'] m IH]; simpl; [discriminate|].
  destruct (decide (k' = key)); intros H; [left; congruence | right; auto].
Qed.

Lemma calculateAvgTransportCost_finite airports aircraft (a : Q) :
  Forall finiteAirport (Map_values airports) ->
  Forall finiteAircraft (Map_values aircraft) ->
  is_finite (calculateAvgTransportCost airports aircraft (Fin a)).
Proof.
  intros Hair Hcraft. unfold calculateAvgTransportCost.
  assert (H1 : is_finite
                 (orElse (h ← Map_get airports "HUB1"; c ← loadingCost h;
                          Some (economy c)) (Fin 2.0))).
  { destruct (Map_get airports "HUB1") as [hub|] eqn:E; [|exact I].
    apply Map_get_values in E. rewrite List.Forall_forall in Hair.
    destruct (Hair _ E) as (_ & Hl & _). apply (orElse_finite _ 2.0 Hl). }
  assert (H2 : is_finite
                 (if (0 <? length (Map_values aircraft))%nat
                  then (fold_left (fun s a => s + costPerKgPerKm a)
                          (Map_values aircraft) (Fin 0)
                        / of_nat (length (Map_values aircraft)))%js
                  else Fin 0.001)).
  { destruct (0 <? length (Map_values aircraft))%nat eqn:E; [|exact I].
    apply Nat.ltb_lt in E. apply div_of_nat_finite; [|exact E].
    apply fold_add_finite; [exact I|].
    eapply List.Forall_impl; [|exact Hcraft]. intros x [_ Hx]. exact Hx. }
  assert (H3 : is_finite
                 (if (0 <? length (spokes airports))%nat
                  then (fold_left
                          (fun s sp =>
                             s + orElse (c ← processingCost sp; Some (economy c)) (Fin 4.0))
                          (spokes airports) (Fin 0)
                        / of_nat (length (spokes airports)))%js
                  else Fin 4.0)).
  { destruct (0 <? length (spokes airports))%nat eqn:E; [|exact I].
    apply Nat.ltb_lt in E. apply div_of_nat_finite; [|exact E].
    apply fold_add_finite; [exact I|].
    rewrite List.Forall_forall in *. intros x Hx. unfold spokes in Hx.
    apply filter_In in Hx. destruct Hx as [Hx _].
    destruct (Hair _ Hx) as (_ & _ & Hp). apply (orElse_finite _ 4.0 Hp). }
  destruct (finite_inv _ H1) as [q1 ->].
  destruct (finite_inv _ H2) as [q2 ->].
  destruct (finite_inv _ H3) as [q3 ->]. exact I.
Qed.

Section Bounds.

Variable Math_sqrt : num -> num.

(** The penalty/cost ratio of a finite dataset is never NaN. *)
Lemma penaltyCostRatio_not_nan airports aircraft plans t :
  finiteInputs airports aircraft plans ->
  is_nan (penaltyCostRatio (analyzeEconomics Math_sqrt airports aircraft plans t))
  = false.
Proof.
  intros (Hair & Hcraft & Hplans). unfold analyzeEconomics.
  set (distances := List.filter (fun d => (d >? Fin 0)%js) (map distanceKm plans)).
  destruct (length distances =? 0)%nat eqn:E; [reflexivity|].
  apply Nat.eqb_neq in E. cbn [penaltyCostRatio].
  assert (Hd : Forall (fun x => exists d, x = Fin d /\ (0 < d)%Q) distances).
  { apply List.Forall_forall. intros x Hx. apply filter_In in Hx.
    destruct Hx as [Hx Hpos]. apply in_map_iff in Hx.
    destruct Hx as (p & <- & Hp). rewrite List.Forall_forall in Hplans.
    destruct (finite_inv _ (Hplans p Hp)) as [d Ed]. rewrite Ed in *.
    exists d. split; [reflexivity|]. apply Qltb_true. exact Hpos. }
  destruct (fold_add_pos distances 0 ltac:(lra) Hd) as (sm & Hs & _ & Hpos).
  assert (Hne : distances <> []) by (intros ->; apply E; reflexivity).
  specialize (Hpos Hne). unfold sum. rewrite Hs.
  rewrite div_of_nat by lia.
  set (avg := (sm / inject_Z (Z.of_nat (length distances)))%Q).
  assert (Havg : (0 < avg)%Q).
  { unfold avg. apply Qlt_shift_div_l; [apply of_nat_pos; lia | lra]. }
  pose proof (calculateAvgTransportCost_finite airports aircraft avg Hair Hcraft) as Hc.
  destruct (finite_inv _ Hc) as [c ->].
  cbn [mul div]. destruct (Qcompare_spec c 0); try reflexivity.
  unfold scale_inf. destruct (Qcompare_spec (0.003 * avg * 50) 0); try reflexivity.
  lra.
Qed.

Lemma between_weaken (lo hi lo' hi' : Q) (x : num) :
  (lo' <= lo)%Q -> (hi <= hi')%Q -> between lo hi x -> between lo' hi' x.
Proof. destruct x; simpl; auto. intros; lra. Qed.

Lemma baseline_between (e : RouteEconomics) (t : NetworkTopology) :
  is_nan (penaltyCostRatio e) = false ->
  is_finite (economy (capacityRatio t)) ->
  between 0.50 0.90 (baseline (calculateEconomyLoadFactor e t)).
Proof.
  intros HR Hc. unfold calculateEconomyLoadFactor. cbn [baseline].
  eapply between_weaken; [| |apply round2_between]; [lra|lra|].
  eapply between_weaken; [| |apply clamp_between]; [lra|lra|lra|].
  destruct (finite_inv _ Hc) as [c ->].
  assert (Hcf : exists f, Math_min (Fin 1.0) (Fin c / Fin 15)%js = Fin f).
  { simpl. destruct (Qleb 1.0 (c / 15)); eauto. }
  destruct Hcf as [f ->].
  unfold economicOptimal.
  destruct (penaltyCostRatio e) as [q| | |]; try discriminate; simpl.
  - destruct (Qleb 1.0 q); reflexivity.
  - reflexivity.
  - reflexivity.
Qed.

Lemma buffers_between (t : NetworkTopology) :
  finiteAmount (capacityRatio t) ->
  between 0.65 0.80 (buf_economy (calculateDestinationBuffers t))
  /\ between 0.75 0.85 (buf_premiumEconomy (calculateDestinationBuffers t))
  /\ between 0.80 0.90 (buf_firstBusiness (calculateDestinationBuffers t)).
Proof.
  intros H. destruct (finiteAmount_fields _ H) as (a & b & c & d & E).
  unfold calculateDestinationBuffers. rewrite E.
  cbn [buf_economy buf_premiumEconomy buf_firstBusiness
       first business premiumEconomy economy].
  repeat split; apply clamp_between; try lra; reflexivity.
Qed.

Lemma thresholds_get (t : NetworkTopology) (de : PerClassAmount) (k : KitClass) :
  pc_get (calculatePurchaseThresholds t de) k
  = Math_max purchaseThreshold_min
      (Math_min purchaseThreshold_max
         (((totalFlightsPerDay t / Fin 24) * pc_get de k * pc_get LEAD_TIMES k
           * Fin 1.5) / pc_get (hubCapacity t) k))%js.
Proof. destruct k; reflexivity. Qed.

Lemma thresholds_between (t : NetworkTopology) (de : PerClassAmount) (k : KitClass)
    (f e h : Q) :
  totalFlightsPerDay t = Fin f -> (0 <= f)%Q ->
  pc_get de k = Fin e -> (0 < e)%Q ->
  pc_get (hubCapacity t) k = Fin h ->
  (~ (h == 0)%Q \/ (0 < f)%Q) ->
  between 0.05 0.90 (pc_get (calculatePurchaseThresholds t de) k).
Proof.
  intros Hf Hf0 He He0 Hh Hnz. rewrite thresholds_get, Hf, He, Hh.
  apply clamp_between; [lra|].
  assert (Hl : exists l, pc_get LEAD_TIMES k = Fin l /\ (0 < l)%Q).
  { destruct k; simpl; eexists; (split; [reflexivity|lra]). }
  destruct Hl as (l & -> & Hl).
  change (Fin f / Fin 24)%js with (Fin (f / 24)). cbn [mul]. unfold div.
  assert (Hnum : (0 <= f / 24 * e * l * 1.5)%Q
                 /\ ((0 < f)%Q -> (0 < f / 24 * e * l * 1.5)%Q)).
  { unfold Qdiv. change (/ 24)%Q with (1 # 24)%Q. split.
    - repeat apply Qmult_le_0_compat; lra.
    - intros Hpos. repeat apply Qmult_lt_0_compat; lra. }
  revert Hnum. generalize (f / 24 * e * l * 1.5)%Q. intros n [Hn0 Hnpos].
  destruct (Qcompare_spec h 0) as [Hz|Hz|Hz]; try reflexivity.
  destruct Hnz as [Hnz|Hpos]; [contradiction|]. specialize (Hnpos Hpos).
  unfold scale_inf. destruct (Qcompare_spec n 0); try reflexivity; lra.
Qed.

Lemma totalFlights_value (plans : list FlightPlan) :
  exists f, (sum (map of_nat (flightsPerWeekday plans)) / Fin 7)%js = Fin f
            /\ (0 <= f)%Q
            /\ ((0 < activeFlightDays plans)%nat -> (0 < f)%Q).
Proof.
  destruct (sum_of_nat (flightsPerWeekday plans) 0) as (sm & Hs & Heq).
  unfold sum. rewrite Hs. exists (sm / 7)%Q. split; [reflexivity|].
  fold (activeFlightDays plans) in Heq.
  assert (H0 : (0 <= inject_Z (Z.of_nat (activeFlightDays plans)))%Q).
  { change 0%Q with (inject_Z 0). rewrite <- Zle_Qle. lia. }
  unfold Qdiv. change (/ 7)%Q with (1 # 7)%Q. split; [lra|].
  intros Hpos. apply of_nat_pos in Hpos. lra.
Qed.


End Bounds.



End CalibratorBounds.

(* ===================================================================== *)
(** ** DemandForecaster: observations, statistics, updated estimates      *)
(* ===================================================================== *)

Module ForecasterFacts.

Import Forecaster ForecasterSpec JSFacts.
Local Open Scope string_scope.
Local Open Scope list_scope.

Lemma pc_get_const (v : num) (k : KitClass) : pc_get (pc_const v) k = v.
Proof. destruct k; reflexivity. Qed.

Lemma recordStats_count st p : count (recordStats st p) = S (count st).
Proof. reflexivity. Qed.

Lemma recordStats_sum st p k :
  pc_get (sum (recordStats st p)) k = (pc_get (sum st) k + pc_get p k)%js.
Proof. destruct k; reflexivity. Qed.

Lemma recordStats_sumSq st p k :
  pc_get (sumSq (recordStats st p)) k
  = (pc_get (sumSq st) k + pc_get p k * pc_get p k)%js.
Proof. destruct k; reflexivity. Qed.

Lemma recordStats_min st p k :
  pc_get (min (recordStats st p)) k = Math_min (pc_get (min st) k) (pc_get p k).
Proof. destruct k; reflexivity. Qed.

Lemma recordStats_max st p k :
  pc_get (max (recordStats st p)) k = Math_max (pc_get (max st) k) (pc_get p k).
Proof. destruct k; reflexivity. Qed.

Lemma recordWindows_get obs p k :
  bc_get (recordWindows obs p) k
  = if (pc_get p k >? Fin 0)%js
    then pushBounded (bc_get obs k) (pc_get p k)
    else bc_get obs k.
Proof.
  unfold recordWindows. destruct obs as [o1 o2 o3 o4], p as [p1 p2 p3 p4].
  destruct k;
    cbn [fold_left KIT_CLASSES pc_get first business premiumEconomy economy];
    destruct (p1 >? Fin 0)%js, (p2 >? Fin 0)%js, (p3 >? Fin 0)%js, (p4 >? Fin 0)%js;
    reflexivity.
Qed.

Lemma recordAll_cons this p obs :
  recordAll this (p :: obs) = recordAll (recordObservedDemand this p) obs.
Proof. reflexivity. Qed.

Lemma recordAll_characteristics this obs :
  characteristics (recordAll this obs) = characteristics this.
Proof.
  revert this. induction obs as [|p obs IH]; intros this; [reflexivity|].
  rewrite recordAll_cons, IH. reflexivity.
Qed.

Lemma recordAll_count this obs :
  count (demandStats (recordAll this obs))
  = (count (demandStats this) + length obs)%nat.
Proof.
  revert this. induction obs as [|p obs IH]; intros this; [simpl; lia|].
  rewrite recordAll_cons, IH. simpl. lia.
Qed.

Lemma recordAll_sum this obs k :
  pc_get (sum (demandStats (recordAll this obs))) k
  = fold_left add (column k obs) (pc_get (sum (demandStats this)) k).
Proof.
  revert this. induction obs as [|p obs IH]; intros this; [reflexivity|].
  rewrite recordAll_cons, IH. cbn [demandStats recordObservedDemand].
  rewrite recordStats_sum. reflexivity.
Qed.

Lemma recordAll_sumSq this obs k :
  pc_get (sumSq (demandStats (recordAll this obs))) k
  = fold_left add (map (fun x => x * x)%js (column k obs))
      (pc_get (sumSq (demandStats this)) k).
Proof.
  revert this. induction obs as [|p obs IH]; intros this; [reflexivity|].
  rewrite recordAll_cons, IH. cbn [demandStats recordObservedDemand].
  rewrite recordStats_sumSq. reflexivity.
Qed.

(** After recording [obs] on a fresh forecaster, the observed mean of a
    class is the mean of the values recorded for it. *)
Lemma getObservedMean_recordAll plans chars obs k :
  obs <> [] ->
  getObservedMean (recordAll (new plans chars) obs) k = listMean (column k obs).
Proof.
  intros Hne. unfold getObservedMean, listMean.
  rewrite recordAll_count, recordAll_sum.
  change (pc_get (sum (demandStats (new plans chars))) k)
    with (pc_get (pc_const (Fin 0)) k).
  rewrite pc_get_const. unfold column. rewrite length_map.
  destruct obs as [|p obs]; [congruence|]. reflexivity.
Qed.

Lemma listMean_Fin (qs : list Q) :
  qs <> [] -> listMean (map Fin qs) = Fin (Qmean qs).
Proof.
  intros Hne. unfold listMean, Qmean. rewrite fold_add_Fin, length_map.
  apply div_of_nat. destruct qs; [congruence|simpl; lia].
Qed.

Lemma of_Z_column (counts : list Z) : map of_Z counts = map Fin (map inject_Z counts).
Proof. rewrite List.map_map. reflexivity. Qed.

(** The variance of the recorded values, computed as the source does. *)
Lemma getObservedVariance_recordAll plans chars obs k :
  (2 <= length obs)%nat ->
  getObservedVariance (recordAll (new plans chars) obs) k
  = populationVariance (column k obs).
Proof.
  intros H. unfold getObservedVariance. rewrite recordAll_count.
  change (count (demandStats (new plans chars))) with 0%nat. rewrite Nat.add_0_l.
  destruct (Nat.ltb_spec (length obs) 2) as [Hlt|_]; [lia|].
  rewrite getObservedMean_recordAll by (intros ->; simpl in H; lia).
  rewrite recordAll_sumSq.
  change (pc_get (sumSq (demandStats (new plans chars))) k)
    with (pc_get (pc_const (Fin 0)) k).
  rewrite pc_get_const.
  unfold populationVariance, listMean, column. rewrite !length_map.
  reflexivity.
Qed.




Lemma initialEstimates_recordAll plans chars obs :
  initialEstimates (recordAll (new plans chars) obs)
  = match chars with
    | Some c => Calibrator.demandEstimates c
    | None => defaultEstimates
    end.
Proof. unfold initialEstimates. rewrite recordAll_characteristics. reflexivity. Qed.

Lemma getUpdatedDemandEstimates_get this k :
  (20 <= count (demandStats this))%nat ->
  pc_get (getUpdatedDemandEstimates this) k
  = Math_ceil (getObservedMean this k * Fin 1.3 * Fin 0.7
               + pc_get (initialEstimates this) k * Fin 0.3)%js.
Proof.
  intros H. unfold getUpdatedDemandEstimates.
  destruct (Nat.ltb_spec (count (demandStats this)) 20) as [Hlt|_]; [lia|].
  destruct k; reflexivity.
Qed.

Lemma column_constant (k : KitClass) (v : num) (obs : list PerClassAmount) :
  Forall (fun p => pc_get p k = v) obs -> column k obs = repeat v (length obs).
Proof.
  induction 1 as [|p obs Hp _ IH]; simpl; [reflexivity|]. rewrite Hp, IH. reflexivity.
Qed.



Lemma pushBounded_length (arr : list num) (c : num) :
  (length arr <= 100)%nat -> (length (pushBounded arr c) <= 100)%nat.
Proof.
  intros H. unfold pushBounded. rewrite length_app. simpl length.
  destruct (Nat.ltb_spec 100 (length arr + 1)) as [Hgt|Hle];
    [|rewrite length_app; simpl; lia].
  destruct arr as [|a arr]; simpl in *; [lia|]. rewrite length_app. simpl. lia.
Qed.

Lemma pushBounded_cases (arr : list num) (c : num) :
  pushBounded arr c
  = if (length arr <? 100)%nat then arr ++ [c] else tail arr ++ [c].
Proof.
  unfold pushBounded. rewrite length_app. simpl length.
  destruct (Nat.ltb_spec 100 (length arr + 1)) as [Hgt|Hle];
    destruct (Nat.ltb_spec (length arr) 100) as [Hlt|Hge]; try lia; try reflexivity.
  destruct arr as [|a arr]; [simpl in *; lia|reflexivity].
Qed.

(** C9, as amended: [recordObservedDemand] appends a class's count to the
    class's window only when the count is positive (a count of 0 leaves
    the window as it is); an appended count evicts the oldest entry once
    the window holds 100, so a window of at most 100 entries stays so.
    The aggregate count, sum, sum of squares, minimum and maximum take
    every count, and the cached averages are dropped. *)
Theorem recordObservedDemand_effect this p k :
  let this' := recordObservedDemand this p in
  let window := bc_get (observedDemands this) k in
  bc_get (observedDemands this') k
  = (if (pc_get p k >? Fin 0)%js
     then (if (length window <? 100)%nat
           then window ++ [pc_get p k]
           else tail window ++ [pc_get p k])
     else window)
  /\ ((length window <= 100)%nat ->
      (length (bc_get (observedDemands this') k) <= 100)%nat)
  /\ count (demandStats this') = S (count (demandStats this))
  /\ pc_get (sum (demandStats this')) k
     = (pc_get (sum (demandStats this)) k + pc_get p k)%js
  /\ pc_get (sumSq (demandStats this')) k
     = (pc_get (sumSq (demandStats this)) k + pc_get p k * pc_get p k)%js
  /\ pc_get (min (demandStats this')) k
     = Math_min (pc_get (min (demandStats this)) k) (pc_get p k)
  /\ pc_get (max (demandStats this')) k
     = Math_max (pc_get (max (demandStats this)) k) (pc_get p k)
  /\ cachedAverages this' = None.
Proof.
  intros this' window. unfold this'. cbn [observedDemands demandStats cachedAverages
                                          recordObservedDemand].
  rewrite recordWindows_get, recordStats_sum, recordStats_sumSq,
    recordStats_min, recordStats_max. fold window.
  split; [|split]; [| |repeat split].
  - rewrite pushBounded_cases. reflexivity.
  - intros H. destruct (pc_get p k >? Fin 0)%js; [|exact H].
    apply pushBounded_length. exact H.
Qed.

Lemma recordObservedDemand_effect_witness :
  let p := mkPerClass (Fin 1) (Fin 2) (Fin 0) (Fin 4) in
  bc_get (observedDemands (recordObservedDemand (new [] None) p)) K_economy = [Fin 4]
  /\ bc_get (observedDemands (recordObservedDemand (new [] None) p)) K_premiumEconomy = []
  /\ (length (bc_get (observedDemands (recordObservedDemand (new [] None) p)) K_economy)
      <= 100)%nat.
Proof.
  intros p. split; [|split].
  - apply (proj1 (recordObservedDemand_effect (new [] None) p K_economy)).
  - apply (proj1 (recordObservedDemand_effect (new [] None) p K_premiumEconomy)).
  - apply (proj1 (proj2 (recordObservedDemand_effect (new [] None) p K_economy))).
    simpl. lia.
Defined.

(** C9, as stated, fails: a count of 0 is not appended to the window. *)
Lemma recordObservedDemand_zero_counterexample :
  ~ (forall this p k,
        bc_get (observedDemands (recordObservedDemand this p)) k
        = pushBounded (bc_get (observedDemands this) k) (pc_get p k)).
Proof.
  intros claim.
  specialize (claim (new [] None) (mkPerClass (Fin 0) (Fin 2) (Fin 3) (Fin 4)) K_first).
  discriminate claim.
Qed.

(** *** The window of known flights *)

Lemma fold_conditional_add {A : Type} (sel : A -> bool) (g : A -> num)
    (l : list A) (a : num) :
  fold_left (fun acc x => if sel x then (acc + g x)%js else acc) l a
  = fold_left add (map g (List.filter sel l)) a.
Proof.
  revert a. induction l as [|x l IH]; intros a; simpl; [reflexivity|].
  destruct (sel x); simpl; apply IH.
Qed.

Lemma inWindow_closed (t : DayHour) (currentDay currentHour withinHours : Z) :
  validHour (hour t) -> validHour currentHour -> 0 <= withinHours ->
  inWindow t currentDay currentHour
    (currentDay + (currentHour + withinHours) / 24)
    (Z.rem (currentHour + withinHours) 24)
  = (currentDay * 24 + currentHour <=? absHour t)%Z
    && (absHour t <=? currentDay * 24 + currentHour + withinHours)%Z.
Proof.
  unfold validHour, inWindow, absHour. intros Ht Hc Hw.
  rewrite Z.rem_mod_nonneg by lia.
  pose proof (Z.div_mod (currentHour + withinHours) 24 ltac:(lia)) as Hdm.
  pose proof (Z.mod_pos_bound (currentHour + withinHours) 24 ltac:(lia)) as Hm.
  set (q := (currentHour + withinHours) / 24) in *.
  set (r := (currentHour + withinHours) mod 24) in *.
  destruct (Z.ltb_spec (day t) (currentDay + q));
    destruct (Z.eqb_spec (day t) (currentDay + q));
    destruct (Z.leb_spec (hour t) r);
    destruct (Z.gtb_spec (day t) currentDay);
    destruct (Z.eqb_spec (day t) currentDay);
    destruct (Z.geb_spec (hour t) currentHour);
    destruct (Z.leb_spec (currentDay * 24 + currentHour) (day t * 24 + hour t));
    destruct (Z.leb_spec (day t * 24 + hour t)
                (currentDay * 24 + currentHour + withinHours));
    simpl; try reflexivity; lia.
Qed.

Lemma knownDemand_counted (airportCode : string)
    (currentDay currentHour withinHours : Z) (kitClass : KitClass)
    (knownFlights : JsMap FlightEvent) (demand : num) :
  validHour currentHour -> 0 <= withinHours ->
  Forall (fun f => validHour (hour (departure f))) (Map_values knownFlights) ->
  knownDemand airportCode currentDay currentHour withinHours kitClass knownFlights demand
  = fold_left add
      (map (fun f => pc_get (passengers f) kitClass)
         (List.filter
            (departsInClosedWindow airportCode currentDay currentHour withinHours)
            (Map_values knownFlights)))
      demand.
Proof.
  intros Hc Hw Hall. unfold knownDemand. revert demand.
  induction Hall as [|f l Hf _ IH]; intros demand; [reflexivity|].
  assert (Hsel :
            departsInClosedWindow airportCode currentDay currentHour withinHours f
            = bool_decide (originAirport f = airportCode)
              && inWindow (departure f) currentDay currentHour
                   (currentDay + (currentHour + withinHours) / 24)
                   (Z.rem (currentHour + withinHours) 24)).
  { unfold departsInClosedWindow.
    rewrite <- andb_assoc, <- inWindow_closed by assumption. reflexivity. }
  cbn [fold_left List.filter]. rewrite Hsel.
  destruct (decide (originAirport f = airportCode)) as [He|Hne].
  - rewrite (bool_decide_eq_true_2 _ He). cbn [andb].
    destruct (inWindow _ _ _ _ _); cbn [map fold_left]; apply IH.
  - rewrite (bool_decide_eq_false_2 _ Hne). cbn [andb]. apply IH.
Qed.

Lemma planLoop_no_plans sel kitClass n checkDay checkHour acc :
  flightPlans (snd acc) = [] ->
  planLoop sel kitClass n checkDay checkHour acc = acc.
Proof.
  intros H. revert checkDay checkHour.
  induction n as [|n IH]; intros checkDay checkHour; [reflexivity|].
  cbn [planLoop]. unfold planHour. rewrite H. cbn [fold_left].
  destruct (checkHour + 1 >=? 24)%Z; apply IH.
Qed.

(** C5, as amended: a known flight's passenger count is counted exactly
    when the flight departs from the airport with a departure (day, hour)
    in the closed interval [now, now + horizon]: at or after the current
    (day, hour), so a flight leaving at the current hour is counted, and
    at or before (day, hour) plus the horizon.  The estimates of the
    flight plan come on top; without flight plans the demand is the sum
    of the counted flights. *)
Theorem calculateDemandForAirport_closed_window (this : DemandForecaster)
    (airportCode : string) (currentDay currentHour withinHours : Z)
    (kitClass : KitClass) (knownFlights : JsMap FlightEvent) :
  validHour currentHour -> 0 <= withinHours ->
  Forall (fun f => validHour (hour (departure f))) (Map_values knownFlights) ->
  let counted :=
    countedPassengers
      (departsInClosedWindow airportCode currentDay currentHour withinHours)
      kitClass knownFlights in
  calculateDemandForAirport this airportCode currentDay currentHour withinHours
    kitClass knownFlights
  = planLoop (departsAt airportCode) kitClass (Z.to_nat withinHours)
      currentDay currentHour (counted, this)
  /\ (flightPlans this = [] ->
      calculateDemandForAirport this airportCode currentDay currentHour withinHours
        kitClass knownFlights
      = (counted, this)).
Proof.
  intros Hc Hw Hall counted.
  assert (Heq : calculateDemandForAirport this airportCode currentDay currentHour
                  withinHours kitClass knownFlights
                = planLoop (departsAt airportCode) kitClass (Z.to_nat withinHours)
                    currentDay currentHour (counted, this)).
  { unfold calculateDemandForAirport.
    rewrite knownDemand_counted by assumption. reflexivity. }
  split; [exact Heq|].
  intros Hplans. rewrite Heq. apply planLoop_no_plans. exact Hplans.
Qed.

Lemma calculateDemandForAirport_closed_window_witness :
  let flight :=
    mkFlightEvent "AAA" "BBB" (mkDayHour 1 5) (mkDayHour 1 9)
      (mkPerClass (Fin 1) (Fin 2) (Fin 3) (Fin 7)) in
  calculateDemandForAirport (new [] None) "AAA" 1 5 4 K_economy [("F1", flight)]
  = (countedPassengers (departsInClosedWindow "AAA" 1 5 4) K_economy [("F1", flight)],
     new [] None).
Proof.
  intros flight.
  apply (proj2 (calculateDemandForAirport_closed_window (new [] None) "AAA" 1 5 4
                  K_economy [("F1", flight)]
                  ltac:(unfold validHour; lia) ltac:(lia)
                  ltac:(repeat constructor; unfold validHour; simpl; lia))).
  reflexivity.
Defined.

(** C5, as stated, fails: a flight that departs at the current (day,
    hour) is counted, although it is not strictly after now. *)
Lemma calculateDemandForAirport_half_open_counterexample :
  ~ (forall this airportCode currentDay currentHour withinHours kitClass knownFlights,
        validHour currentHour -> 0 <= withinHours ->
        Forall (fun f => validHour (hour (departure f))) (Map_values knownFlights) ->
        flightPlans this = [] ->
        fst (calculateDemandForAirport this airportCode currentDay currentHour
               withinHours kitClass knownFlights)
        = countedPassengers
            (departsInHalfOpenWindow airportCode currentDay currentHour withinHours)
            kitClass knownFlights).
Proof.
  intros claim.
  pose (flight :=
          mkFlightEvent "AAA" "BBB" (mkDayHour 1 5) (mkDayHour 1 9)
            (mkPerClass (Fin 1) (Fin 2) (Fin 3) (Fin 7))).
  specialize (claim (new [] None) "AAA" 1 5 4 K_economy [("F1", flight)]
                ltac:(unfold validHour; lia) ltac:(lia)
                ltac:(repeat constructor; unfold validHour; simpl; lia) eq_refl).
  vm_compute in claim. discriminate claim.
Qed.

End ForecasterFacts.
(* ===================================================================== *)
(** ** The demand statistics on binary64 numbers: where rounding decides  *)
(* ===================================================================== *)

Module F64Facts.

Import ForecasterSpec.
Import PrimFloat.



End F64Facts.

(* ===================================================================== *)
(** ** AdaptiveEngine: risk scores and the load-factor controller         *)
(* ===================================================================== *)

Module AdaptiveFacts.

Import Adaptive AdaptiveSpec JSFacts.
Import Stdlib.Sorting.Sorted.
Local Open Scope string_scope.
Local Open Scope list_scope.

Lemma economy_setEconomyAdjustment e v d :
  economy (loadFactorAdjustments (setEconomyAdjustment e v d)) = v.
Proof. reflexivity. Qed.

(** The two outcomes of [suggestLoadFactorAdjustment]: nothing changes
    (warm-up, same day as the last adjustment, limit reached, no signal),
    or the economy adjustment moves by a non-zero step of at most 0.02
    that keeps it within ±0.10, and the day is remembered. *)
Lemma suggest_cases (e : AdaptiveEngine) (d : Z) (q : Q) :
  economy (loadFactorAdjustments e) = Fin q -> (-0.10 <= q <= 0.10)%Q ->
  (suggestLoadFactorAdjustment e d = (Fin 0, e) /\ d < 3)
  \/ (suggestLoadFactorAdjustment e d = (Fin q, e) /\ 3 <= d)
  \/ (exists q',
        suggestLoadFactorAdjustment e d
        = (Fin q', setEconomyAdjustment e (Fin q') d)
        /\ 3 <= d /\ d <> lastAdjustmentDay e
        /\ (-0.10 <= q' <= 0.10)%Q /\ (-0.02 <= q' - q <= 0.02)%Q
        /\ ~ (q' == q)%Q).
Proof.
  intros Hq Hb. unfold suggestLoadFactorAdjustment.
  destruct (Z.ltb_spec d 3) as [Hlt|Hge]; [left; auto|].
  destruct (Z.eqb_spec d (lastAdjustmentDay e)) as [Heq|Hne];
    [right; left; rewrite Hq; auto|].
  rewrite Hq.
  unfold MAX_TOTAL_ADJUSTMENT, MAX_DAILY_ADJUSTMENT.
  cbn [Math_abs ge le].
  destruct (Qleb 0.10 (Qabs q)) eqn:Habs; [right; left; auto|].
  apply Qleb_false in Habs.
  assert (Hq' : (-0.10 < q < 0.10)%Q).
  { revert Habs. apply Qabs_case; intros; lra. }
  assert (Hsolve :
            forall adj : Q,
              (adj == 0.02 \/ adj == - 0.02 \/ adj == 0)%Q ->
              (let newTotal := (Fin q + Fin adj)%js in
               let adjustment :=
                 if (newTotal >? Fin 0.10)%js then (Fin 0.10 - Fin q)%js
                 else if (newTotal <? neg (Fin 0.10))%js
                      then (neg (Fin 0.10) - Fin q)%js
                      else Fin adj in
               let this :=
                 if negb (adjustment === Fin 0)%js
                 then setEconomyAdjustment e (Fin q + adjustment)%js d
                 else e in
               (economy (loadFactorAdjustments this), this)) = (Fin q, e)
              \/ (exists q',
                    (let newTotal := (Fin q + Fin adj)%js in
                     let adjustment :=
                       if (newTotal >? Fin 0.10)%js then (Fin 0.10 - Fin q)%js
                       else if (newTotal <? neg (Fin 0.10))%js
                            then (neg (Fin 0.10) - Fin q)%js
                            else Fin adj in
                     let this :=
                       if negb (adjustment === Fin 0)%js
                       then setEconomyAdjustment e (Fin q + adjustment)%js d
                       else e in
                     (economy (loadFactorAdjustments this), this))
                    = (Fin q', setEconomyAdjustment e (Fin q') d)
                    /\ (-0.10 <= q' <= 0.10)%Q /\ (-0.02 <= q' - q <= 0.02)%Q
                    /\ ~ (q' == q)%Q)).
  { intros adj Hadj. cbv zeta. cbn [add gt lt neg sub]. unfold Qltb.
    repeat match goal with
           | |- context [Qcompare ?a ?b] =>
               destruct (Qcompare_spec a b); cbn [strict_eq add]; unfold Qeqb
           end;
      cbn [negb]; rewrite ?economy_setEconomyAdjustment, ?Hq; cbn [add];
      first [ left; reflexivity
            | right; eexists; split; [reflexivity|]; repeat split; lra
            | exfalso; lra ]. }
  assert (Hfinal :
            forall r,
              r = (Fin q, e)
              \/ (exists q', r = (Fin q', setEconomyAdjustment e (Fin q') d)
                             /\ (-0.10 <= q' <= 0.10)%Q /\ (-0.02 <= q' - q <= 0.02)%Q
                             /\ ~ (q' == q)%Q) ->
              (r = (Fin 0, e) /\ d < 3)
              \/ (r = (Fin q, e) /\ 3 <= d)
              \/ (exists q',
                    r = (Fin q', setEconomyAdjustment e (Fin q') d)
                    /\ 3 <= d /\ d <> lastAdjustmentDay e
                    /\ (-0.10 <= q' <= 0.10)%Q /\ (-0.02 <= q' - q <= 0.02)%Q
                    /\ ~ (q' == q)%Q)).
  { intros r [Hr|(q' & Hr & H1 & H2 & H3)].
    - right; left; auto.
    - right; right. exists q'. auto 8. }
  match goal with
  | |- context [if ?b then Fin 0.02 else _] => destruct b
  end.
  - apply Hfinal. apply (Hsolve 0.02%Q). left. reflexivity.
  - match goal with
    | |- context [if ?b then neg (Fin 0.02) else _] => destruct b
    end.
    + apply Hfinal. apply (Hsolve (- 0.02)%Q). right. left. reflexivity.
    + apply Hfinal. apply (Hsolve 0%Q). right. right. reflexivity.
Qed.

Lemma recordOne_keeps day hour acc p :
  loadFactorAdjustments (snd (recordOne day hour acc p))
  = loadFactorAdjustments (snd acc)
  /\ lastAdjustmentDay (snd (recordOne day hour acc p)) = lastAdjustmentDay (snd acc).
Proof.
  destruct acc as [total e]. unfold recordOne.
  destruct (parseReason (reason p)) as [airport cls]. split; reflexivity.
Qed.

Lemma recordPenalties_keeps e ps day hour :
  loadFactorAdjustments (recordPenalties e ps day hour) = loadFactorAdjustments e
  /\ lastAdjustmentDay (recordPenalties e ps day hour) = lastAdjustmentDay e.
Proof.
  unfold recordPenalties.
  assert (H : forall acc,
             loadFactorAdjustments (snd (fold_left (recordOne day hour) ps acc))
             = loadFactorAdjustments (snd acc)
             /\ lastAdjustmentDay (snd (fold_left (recordOne day hour) ps acc))
                = lastAdjustmentDay (snd acc)).
  { induction ps as [|p ps IH]; intros acc; [split; reflexivity|].
    cbn [fold_left]. destruct (IH (recordOne day hour acc p)) as [H1 H2].
    destruct (recordOne_keeps day hour acc p) as [H3 H4].
    split; congruence. }
  specialize (H (Fin 0, e)).
  destruct (fold_left (recordOne day hour) ps (Fin 0, e)) as [total e'].
  exact H.
Qed.

Lemma run_cons e c cs : run e (c :: cs) = run (fst (step e c)) cs.
Proof. reflexivity. Qed.

Lemma step_suggest e d :
  fst (step e (CallSuggest d)) = snd (suggestLoadFactorAdjustment e d).
Proof. unfold step. destruct (suggestLoadFactorAdjustment e d). reflexivity. Qed.

Lemma step_bounded e c : adjustmentBounded e -> adjustmentBounded (fst (step e c)).
Proof.
  intros (q & Hq & Hb). destruct c as [ps day hour|d].
  - cbn [step fst]. exists q.
    rewrite (proj1 (recordPenalties_keeps e ps day hour)). auto.
  - rewrite step_suggest.
    destruct (suggest_cases e d q Hq Hb)
      as [[-> _]|[[-> _]|(q' & -> & _ & _ & Hb' & _)]]; cbn [snd].
    + exists q; auto.
    + exists q; auto.
    + exists q'. auto.
Qed.

Lemma run_bounded e cs : adjustmentBounded e -> adjustmentBounded (run e cs).
Proof.
  revert e. induction cs as [|c cs IH]; intros e H; [exact H|].
  rewrite run_cons. apply IH, step_bounded, H.
Qed.

Lemma new_bounded : adjustmentBounded new.
Proof. exists 0%Q. split; [reflexivity|lra]. Qed.

(** While the day stays the day of the last adjustment, nothing touches
    the adjustment. *)
Lemma run_same_day e cs d :
  3 <= d -> lastAdjustmentDay e = d -> Forall (fun c => dayOf c = d) cs ->
  loadFactorAdjustments (run e cs) = loadFactorAdjustments e
  /\ lastAdjustmentDay (run e cs) = d.
Proof.
  intros Hd. revert e. induction cs as [|c cs IH]; intros e Hlast Hall;
    [split; [reflexivity|exact Hlast]|].
  apply Forall_cons_iff in Hall. destruct Hall as [Hc Hcs]. rewrite run_cons.
  destruct c as [ps day hour|d'].
  - cbn [step fst]. destruct (recordPenalties_keeps e ps day hour) as [H1 H2].
    destruct (IH (recordPenalties e ps day hour)) as [H3 H4];
      [congruence|assumption|]. split; congruence.
  - cbn [dayOf] in Hc. rewrite step_suggest.
    unfold suggestLoadFactorAdjustment.
    destruct (Z.ltb_spec d' 3); [lia|].
    destruct (Z.eqb_spec d' (lastAdjustmentDay e)); [|congruence].
    cbn [snd]. apply IH; assumption.
Qed.

Lemma sorted_between (a b : Z) (m t : list Z) :
  StronglySorted Z.le (a :: m ++ b :: t) -> Forall (fun x => a <= x <= b) m.
Proof.
  intros H. inversion H as [|? ? Hrest Ha]; subst.
  apply Forall_app in Ha. destruct Ha as [Ham _].
  clear H. induction m as [|x m IH]; [constructor|].
  inversion Hrest as [|? ? Hrest' Hx]; subst.
  inversion Ham as [|? ? Hax Ham']; subst.
  constructor.
  - split; [exact Hax|]. apply Forall_app in Hx. destruct Hx as [_ Hx].
    inversion Hx; assumption.
  - apply IH; assumption.
Qed.

Lemma StronglySorted_app_r (l1 l2 : list Z) :
  StronglySorted Z.le (l1 ++ l2) -> StronglySorted Z.le l2.
Proof.
  induction l1 as [|x l1 IH]; [auto|]. intros H. inversion H; subst. auto.
Qed.

(** C2: along any sequence of [recordPenalties] and
    [suggestLoadFactorAdjustment] calls with non-decreasing days, a
    suggestion made before day 3 returns 0; the returned cumulative
    economy adjustment is at most 0.10 in absolute value; one call moves
    the stored adjustment by at most 0.02; and once a call has applied an
    adjustment on a day, a further call on that day returns the same
    value and leaves the engine as it is. *)
Theorem suggestLoadFactorAdjustment_bounded (calls pre post : list Call) (d : Z) :
  Sorted Z.le (map dayOf calls) ->
  calls = pre ++ CallSuggest d :: post ->
  let e := run new pre in
  let v := fst (suggestLoadFactorAdjustment e d) in
  let e' := snd (suggestLoadFactorAdjustment e d) in
  (d < 3 -> v = Fin 0)
  /\ (exists q, v = Fin q /\ (Qabs q <= 0.10)%Q)
  /\ (exists q q',
        economy (loadFactorAdjustments e) = Fin q
        /\ economy (loadFactorAdjustments e') = Fin q'
        /\ (Qabs (q' - q) <= 0.02)%Q)
  /\ (forall mid post',
        post = mid ++ CallSuggest d :: post' ->
        ~ (economy (loadFactorAdjustments e') ≈ economy (loadFactorAdjustments e))%js ->
        suggestLoadFactorAdjustment (run e' mid) d = (v, run e' mid)).
Proof.
  intros Hsorted Hcalls e v e'.
  destruct (run_bounded new pre new_bounded) as (q & Hq & Hb). fold e in Hq.
  assert (Habs : forall x : Q, (-0.10 <= x <= 0.10)%Q -> (Qabs x <= 0.10)%Q).
  { intros x Hx. apply Qabs_case; intros; lra. }
  assert (Habs2 : forall x : Q, (-0.02 <= x <= 0.02)%Q -> (Qabs x <= 0.02)%Q).
  { intros x Hx. apply Qabs_case; intros; lra. }
  unfold v, e'.
  destruct (suggest_cases e d q Hq Hb)
    as [[-> Hd]|[[-> Hd]|(q' & -> & Hd & Hne & Hb' & Hstep & Hdiff)]]; cbn [fst snd].
  - split; [reflexivity|]. split; [exists 0%Q; split; [reflexivity|apply Habs; lra]|].
    split; [exists q, q; repeat split; auto; apply Habs2; lra|].
    intros mid post' _ Hchanged. exfalso. apply Hchanged, num_eq_refl.
  - split; [intros; lia|]. split; [exists q; split; [reflexivity|apply Habs; lra]|].
    split; [exists q, q; repeat split; auto; apply Habs2; lra|].
    intros mid post' _ Hchanged. exfalso. apply Hchanged, num_eq_refl.
  - split; [intros; lia|]. split; [exists q'; split; [reflexivity|apply Habs; lra]|].
    split; [exists q, q'; repeat split; auto|].
    intros mid post' Hpost _.
    assert (Hmid : Forall (fun c => dayOf c = d) mid).
    { subst calls post. rewrite map_app in Hsorted. cbn [map] in Hsorted.
      rewrite map_app in Hsorted. cbn [map dayOf] in Hsorted.
      apply Sorted_StronglySorted in Hsorted; [|intros x y z; apply Z.le_trans].
      apply StronglySorted_app_r, sorted_between in Hsorted.
      apply List.Forall_forall. intros c Hc.
      rewrite List.Forall_forall in Hsorted.
      specialize (Hsorted (dayOf c) (in_map dayOf _ _ Hc)). lia. }
    destruct (run_same_day (setEconomyAdjustment e (Fin q') d) mid d Hd eq_refl Hmid)
      as [Hadj Hlast].
    unfold suggestLoadFactorAdjustment.
    destruct (Z.ltb_spec d 3); [lia|].
    rewrite Hlast, Z.eqb_refl, Hadj. reflexivity.
Qed.

Lemma suggestLoadFactorAdjustment_bounded_witness :
  let shortfall :=
    mkPenalty "FLIGHT_UNFULFILLED" (Fin 3000000) "Airport SPK1 Economy kits" in
  let pre := [CallRecordPenalties [shortfall] 3 0] in
  let e := run new pre in
  (exists q, fst (suggestLoadFactorAdjustment e 3) = Fin q /\ (Qabs q <= 0.10)%Q)
  /\ suggestLoadFactorAdjustment
       (run (snd (suggestLoadFactorAdjustment e 3)) [CallSuggest 3]) 3
     = (fst (suggestLoadFactorAdjustment e 3),
        run (snd (suggestLoadFactorAdjustment e 3)) [CallSuggest 3]).
Proof.
  intros shortfall pre e.
  pose proof (suggestLoadFactorAdjustment_bounded
                (pre ++ CallSuggest 3 :: [CallSuggest 3] ++ CallSuggest 3 :: [])
                pre ([CallSuggest 3] ++ CallSuggest 3 :: []) 3
                ltac:(repeat constructor; cbn; lia) eq_refl) as H.
  split.
  - exact (proj1 (proj2 H)).
  - apply (proj2 (proj2 (proj2 H)) [CallSuggest 3] [] eq_refl).
    vm_compute. intros Heq. discriminate Heq.
Defined.

(** *** Risk scores *)

Lemma Qmin_cases (a b : Q) :
  ((a <= b)%Q /\ Qmin a b == a) \/ ((b <= a)%Q /\ Qmin a b == b).
Proof.
  destruct (Qlt_le_dec b a) as [H|H].
  - right. split; [lra|]. apply Q.min_r. lra.
  - left. split; [exact H|]. apply Q.min_l. exact H.
Qed.

Lemma Qmax_cases (a b : Q) :
  ((a <= b)%Q /\ Qmax a b == b) \/ ((b <= a)%Q /\ Qmax a b == a).
Proof.
  destruct (Qlt_le_dec b a) as [H|H].
  - right. split; [lra|]. apply Q.max_l. lra.
  - left. split; [exact H|]. apply Q.max_r. exact H.
Qed.

Lemma updatePerf_score perf record q :
  riskScore perf = Fin q ->
  (riskScore (updatePerf perf record) ≈ Fin (nextScore (type record) q))%js.
Proof.
  intros Hq. unfold updatePerf, nextScore.
  destruct (type record); cbn [riskScore]; rewrite ?Hq;
    cbn [add sub neg Math_min Math_max le mul num_eq]; unfold Qleb.
  - destruct (Qmin_cases 1 (q + 0.1)) as [[H1 Hm]|[H1 Hm]];
      destruct (Qcompare_spec 1.0 (q + 0.1)) as [H|H|H]; cbn [mul num_eq];
      rewrite Hm; lra.
  - destruct (Qmax_cases 0.1 (q - 0.02)) as [[H1 Hm]|[H1 Hm]];
      match goal with
      | |- context [Qcompare ?a ?b] => destruct (Qcompare_spec a b) as [H|H|H]
      end; cbn [mul num_eq]; rewrite Hm; lra.
  - reflexivity.
Qed.

Lemma nextScore_range t q : (0 < q <= 1)%Q -> (0 < nextScore t q <= 1)%Q.
Proof.
  intros H. unfold nextScore. destruct t.
  - destruct (Qmin_cases 1 (q + 0.1)) as [[H1 Hm]|[H1 Hm]]; rewrite Hm; lra.
  - destruct (Qmax_cases 0.1 (q - 0.02)) as [[H1 Hm]|[H1 Hm]]; rewrite Hm; lra.
  - lra.
Qed.

Lemma updatePerf_range perf record : scoreInRange perf -> scoreInRange (updatePerf perf record).
Proof.
  intros (q & Hq & Hr). pose proof (updatePerf_score perf record q Hq) as Hs.
  pose proof (nextScore_range (type record) q Hr) as Hn.
  unfold scoreInRange.
  destruct (riskScore (updatePerf perf record)) as [r| | |]; try contradiction.
  exists r. split; [reflexivity|]. cbn [num_eq] in Hs. rewrite Hs. exact Hn.
Qed.

Lemma freshPerf_range : scoreInRange freshPerf.
Proof. exists 0.5%Q. split; [reflexivity|lra]. Qed.

Lemma updateAirportPerformance_range code record (m : gmap string AirportPerformance) :
  map_Forall (fun _ perf => scoreInRange perf) m ->
  map_Forall (fun _ perf => scoreInRange perf) (updateAirportPerformance code record m).
Proof.
  intros H. unfold updateAirportPerformance. apply map_Forall_insert_2; [|exact H].
  apply updatePerf_range. destruct (m !! code) as [perf|] eqn:E.
  - apply (H _ _ E).
  - apply freshPerf_range.
Qed.

Lemma recordOne_perf day hour acc p :
  airportPerformance (snd (recordOne day hour acc p))
  = match Str.matchAirport (reason p) with
    | Some c =>
        if decide (c = EmptyString) then airportPerformance (snd acc)
        else updateAirportPerformance c
               (mkPenaltyRecord day hour (classifyPenalty (code p)) (penalty p)
                  (Str.matchAirport (reason p)) (Str.matchClass (reason p)))
               (airportPerformance (snd acc))
    | None => airportPerformance (snd acc)
    end.
Proof. destruct acc as [total e]. reflexivity. Qed.

Lemma recordPenalties_perf e ps day hour :
  airportPerformance (recordPenalties e ps day hour)
  = airportPerformance (snd (fold_left (recordOne day hour) ps (Fin 0, e))).
Proof.
  unfold recordPenalties.
  destruct (fold_left (recordOne day hour) ps (Fin 0, e)) as [total e']. reflexivity.
Qed.

Lemma fold_recordOne_range day hour ps acc :
  map_Forall (fun _ perf => scoreInRange perf) (airportPerformance (snd acc)) ->
  map_Forall (fun _ perf => scoreInRange perf)
    (airportPerformance (snd (fold_left (recordOne day hour) ps acc))).
Proof.
  revert acc. induction ps as [|p ps IH]; intros acc H; [exact H|].
  cbn [fold_left]. apply IH. rewrite recordOne_perf.
  destruct (Str.matchAirport (reason p)) as [c|]; [|exact H].
  destruct (decide (c = EmptyString)); [exact H|].
  apply updateAirportPerformance_range, H.
Qed.

Lemma fold_recordOne_untouched day hour ps acc (airport : string) :
  (forall p, In p ps -> Str.matchAirport (reason p) <> Some airport) ->
  airportPerformance (snd (fold_left (recordOne day hour) ps acc)) !! airport
  = airportPerformance (snd acc) !! airport.
Proof.
  revert acc. induction ps as [|p ps IH]; intros acc H; [reflexivity|].
  cbn [fold_left]. rewrite IH by (intros p' Hp'; apply H; right; exact Hp').
  rewrite recordOne_perf. specialize (H p (or_introl eq_refl)).
  destruct (Str.matchAirport (reason p)) as [c|]; [|reflexivity].
  destruct (decide (c = EmptyString)); [reflexivity|].
  unfold updateAirportPerformance. apply lookup_insert_ne. congruence.
Qed.

Lemma step_perf_suggest e d :
  airportPerformance (fst (step e (CallSuggest d))) = airportPerformance e.
Proof.
  rewrite step_suggest. unfold suggestLoadFactorAdjustment.
  repeat match goal with
         | |- context [if ?b then _ else _] => destruct b
         end; reflexivity.
Qed.

(** C10: after any sequence of calls on a fresh engine every stored risk
    score is a number in (0, 1]; an update turns a score [q] into
    [min(1, q + 0.1) * 0.99] on an overflow, [max(0.1, q - 0.02) * 0.99]
    on an unfulfilled flight and [q * 0.99] otherwise; and
    [getAirportRiskScore] is 0.5 for an airport code no penalty was
    attributed to. *)
Theorem riskScore_invariant (calls : list Call) :
  let e := run new calls in
  (forall airport perf,
      airportPerformance e !! airport = Some perf ->
      exists q, riskScore perf = Fin q /\ (0 < q <= 1)%Q)
  /\ (forall perf record q,
        riskScore perf = Fin q ->
        (riskScore (updatePerf perf record) ≈ Fin (nextScore (type record) q))%js)
  /\ (forall airport,
        (forall c, In c calls -> ~ attributedTo airport c) ->
        getAirportRiskScore e airport = Fin 0.5).
Proof.
  intros e. split; [|split].
  - assert (H : forall e0 cs,
               map_Forall (fun _ perf => scoreInRange perf) (airportPerformance e0) ->
               map_Forall (fun _ perf => scoreInRange perf)
                 (airportPerformance (run e0 cs))).
    { intros e0 cs. revert e0. induction cs as [|c cs IH]; intros e0 H0; [exact H0|].
      rewrite run_cons. apply IH. destruct c as [ps day hour|d].
      - cbn [step fst]. rewrite recordPenalties_perf.
        apply fold_recordOne_range. exact H0.
      - rewrite step_perf_suggest. exact H0. }
    intros airport perf Hperf.
    apply (H new calls (map_Forall_empty _) airport perf Hperf).
  - apply updatePerf_score.
  - intros airport Hnot. unfold getAirportRiskScore.
    assert (H : forall e0 cs,
               (forall c, In c cs -> ~ attributedTo airport c) ->
               airportPerformance (run e0 cs) !! airport
               = airportPerformance e0 !! airport).
    { intros e0 cs. revert e0. induction cs as [|c cs IH]; intros e0 Hcs; [reflexivity|].
      rewrite run_cons, IH by (intros c' Hc'; apply Hcs; right; exact Hc').
      specialize (Hcs c (or_introl eq_refl)). destruct c as [ps day hour|d].
      - cbn [step fst]. rewrite recordPenalties_perf.
        apply fold_recordOne_untouched. intros p Hp Hm. apply Hcs.
        exists p. auto.
      - rewrite step_perf_suggest. reflexivity. }
    unfold e. rewrite (H new calls Hnot). reflexivity.
Qed.

Lemma riskScore_invariant_witness :
  let overflow :=
    mkPenalty "INVENTORY_EXCEEDS_CAPACITY" (Fin 1000) "Airport SPK1 Economy kits" in
  let e := run new [CallRecordPenalties [overflow; overflow] 1 2] in
  (exists perf,
      airportPerformance e !! "SPK1" = Some perf
      /\ exists q, riskScore perf = Fin q /\ (0 < q <= 1)%Q)
  /\ getAirportRiskScore e "SPK2" = Fin 0.5.
Proof.
  intros overflow e.
  pose proof (riskScore_invariant [CallRecordPenalties [overflow; overflow] 1 2]) as H.
  split.
  - eexists. split; [vm_compute; reflexivity|].
    eapply (proj1 H "SPK1"). vm_compute. reflexivity.
  - apply (proj2 (proj2 H) "SPK2").
    intros c [<-|[]] (p & [<-|[<-|[]]] & Hm); vm_compute in Hm; discriminate Hm.
Defined.

End AdaptiveFacts.

(* ===================================================================== *)
(** ** DemandForecaster: inbound demand, lookups, windows and the cache   *)
(* ===================================================================== *)

Module ForecasterMore.

Import Forecaster ForecasterSpec ForecasterMoreSpec JSFacts.
Local Open Scope string_scope.
Local Open Scope list_scope.

Lemma knownInboundDemand_counted (airportCode : string)
    (currentDay currentHour withinHours : Z) (kitClass : KitClass)
    (knownFlights : JsMap FlightEvent) (demand : num) :
  validHour currentHour -> 0 <= withinHours ->
  Forall (fun f => validHour (hour (arrival f))) (Map_values knownFlights) ->
  knownInboundDemand airportCode currentDay currentHour withinHours kitClass
    knownFlights demand
  = fold_left add
      (map (fun f => pc_get (passengers f) kitClass)
         (List.filter
            (arrivesInClosedWindow airportCode currentDay currentHour withinHours)
            (Map_values knownFlights)))
      demand.
Proof.
  intros Hc Hw Hall. unfold knownInboundDemand. revert demand.
  induction Hall as [|f l Hf _ IH]; intros demand; [reflexivity|].
  assert (Hsel :
            arrivesInClosedWindow airportCode currentDay currentHour withinHours f
            = bool_decide (destinationAirport f = airportCode)
              && inWindow (arrival f) currentDay currentHour
                   (currentDay + (currentHour + withinHours) / 24)
                   (Z.rem (currentHour + withinHours) 24)).
  { unfold arrivesInClosedWindow.
    rewrite <- andb_assoc, <- ForecasterFacts.inWindow_closed by assumption.
    reflexivity. }
  cbn [fold_left List.filter]. rewrite Hsel.
  destruct (decide (destinationAirport f = airportCode)) as [He|Hne].
  - rewrite (bool_decide_eq_true_2 _ He). cbn [andb].
    destruct (inWindow _ _ _ _ _); cbn [map fold_left]; apply IH.
  - rewrite (bool_decide_eq_false_2 _ Hne). cbn [andb]. apply IH.
Qed.

(** X1: [calculateInboundDemandForAirport] counts a known flight exactly
    when it lands at the airport with an arrival (day, hour) in the
    closed interval [now, now + horizon]; without flight plans the
    inbound demand is the sum of the counted flights. *)
Theorem calculateInboundDemandForAirport_closed_window (this : DemandForecaster)
    (airportCode : string) (currentDay currentHour withinHours : Z)
    (kitClass : KitClass) (knownFlights : JsMap FlightEvent) :
  validHour currentHour -> 0 <= withinHours ->
  Forall (fun f => validHour (hour (arrival f))) (Map_values knownFlights) ->
  let counted :=
    countedPassengers
      (arrivesInClosedWindow airportCode currentDay currentHour withinHours)
      kitClass knownFlights in
  calculateInboundDemandForAirport this airportCode currentDay currentHour
    withinHours kitClass knownFlights
  = planLoop (arrivesAt airportCode) kitClass (Z.to_nat withinHours)
      currentDay currentHour (counted, this)
  /\ (flightPlans this = [] ->
      calculateInboundDemandForAirport this airportCode currentDay currentHour
        withinHours kitClass knownFlights
      = (counted, this)).
Proof.
  intros Hc Hw Hall counted.
  assert (Heq : calculateInboundDemandForAirport this airportCode currentDay
                  currentHour withinHours kitClass knownFlights
                = planLoop (arrivesAt airportCode) kitClass (Z.to_nat withinHours)
                    currentDay currentHour (counted, this)).
  { unfold calculateInboundDemandForAirport.
    rewrite knownInboundDemand_counted by assumption. reflexivity. }
  split; [exact Heq|].
  intros Hplans. rewrite Heq. apply ForecasterFacts.planLoop_no_plans. exact Hplans.
Qed.

Lemma calculateInboundDemandForAirport_closed_window_witness :
  let flight :=
    mkFlightEvent "AAA" "BBB" (mkDayHour 1 5) (mkDayHour 1 9)
      (mkPerClass (Fin 1) (Fin 2) (Fin 3) (Fin 7)) in
  calculateInboundDemandForAirport (new [] None) "BBB" 1 5 4 K_economy [("F1", flight)]
  = (countedPassengers (arrivesInClosedWindow "BBB" 1 5 4) K_economy [("F1", flight)],
     new [] None).
Proof.
  intros flight.
  apply (proj2 (calculateInboundDemandForAirport_closed_window (new [] None) "BBB" 1 5 4
                  K_economy [("F1", flight)]
                  ltac:(unfold validHour; lia) ltac:(lia)
                  ltac:(repeat constructor; unfold validHour; simpl; lia))).
  reflexivity.
Defined.

Lemma fold_skip_unselected {A : Type} (keep : A -> bool) (f : num -> A -> num)
    (l : list A) (a : num) :
  (forall x acc, keep x = false -> f acc x = acc) ->
  fold_left f l a = fold_left f (List.filter keep l) a.
Proof.
  intros H. revert a. induction l as [|x l IH]; intros a; [reflexivity|].
  cbn [fold_left List.filter]. destruct (keep x) eqn:E.
  - cbn [fold_left]. apply IH.
  - rewrite (H x a E). apply IH.
Qed.

Lemma Map_values_keepFlights keep knownFlights :
  Map_values (keepFlights keep knownFlights)
  = List.filter keep (Map_values knownFlights).
Proof.
  unfold Map_values, keepFlights.
  induction knownFlights as [|[id f] l IH]; [reflexivity|].
  cbn [List.filter map snd]. destruct (keep f); cbn [map snd]; rewrite IH; reflexivity.
Qed.

(** X2: a known flight only counts for the airport it leaves (outbound)
    and for the airport it lands at (inbound): dropping from the map
    every flight with another origin does not change the outbound demand
    of an airport, and dropping every flight with another destination
    does not change its inbound demand. *)
Theorem known_flights_of_other_airports_ignored (this : DemandForecaster)
    (airportCode : string) (currentDay currentHour withinHours : Z)
    (kitClass : KitClass) (knownFlights : JsMap FlightEvent) :
  calculateDemandForAirport this airportCode currentDay currentHour withinHours
    kitClass knownFlights
  = calculateDemandForAirport this airportCode currentDay currentHour withinHours
      kitClass
      (keepFlights (fun f => bool_decide (originAirport f = airportCode)) knownFlights)
  /\ calculateInboundDemandForAirport this airportCode currentDay currentHour
       withinHours kitClass knownFlights
     = calculateInboundDemandForAirport this airportCode currentDay currentHour
         withinHours kitClass
         (keepFlights (fun f => bool_decide (destinationAirport f = airportCode))
            knownFlights).
Proof.
  split.
  - unfold calculateDemandForAirport, knownDemand. rewrite Map_values_keepFlights.
    f_equal. f_equal. apply fold_skip_unselected. intros f acc Hf.
    apply bool_decide_eq_false in Hf. destruct (decide _); [contradiction|reflexivity].
  - unfold calculateInboundDemandForAirport, knownInboundDemand.
    rewrite Map_values_keepFlights.
    f_equal. f_equal. apply fold_skip_unselected. intros f acc Hf.
    apply bool_decide_eq_false in Hf. destruct (decide _); [contradiction|reflexivity].
Qed.

(** X3: [getFlightDistance] is 0 when no flight plan serves the route,
    and otherwise the distance of the first plan of the route in the
    flight-plan list, whatever later plans of the same route say. *)
Theorem getFlightDistance_first_match (this : DemandForecaster)
    (origin destination : string) :
  (Forall (fun p => ~ (departCode p = origin /\ arrivalCode p = destination))
     (flightPlans this) ->
   getFlightDistance this origin destination = Fin 0)
  /\ (forall pre p post,
        flightPlans this = pre ++ p :: post ->
        departCode p = origin -> arrivalCode p = destination ->
        Forall (fun p' => ~ (departCode p' = origin /\ arrivalCode p' = destination))
          pre ->
        getFlightDistance this origin destination = distanceKm p).
Proof.
  unfold getFlightDistance.
  set (serves := fun plan => bool_decide (departCode plan = origin)
                             && bool_decide (arrivalCode plan = destination)).
  assert (Hno : forall l,
             Forall (fun p => ~ (departCode p = origin /\ arrivalCode p = destination)) l ->
             forall rest, List.find serves (l ++ rest) = List.find serves rest).
  { induction 1 as [|x l Hx _ IH]; intros rest; [reflexivity|].
    cbn [app List.find]. unfold serves at 1.
    destruct (decide (departCode x = origin)) as [H1|H1];
      destruct (decide (arrivalCode x = destination)) as [H2|H2];
      rewrite ?(bool_decide_eq_true_2 _ H1), ?(bool_decide_eq_false_2 _ H1),
        ?(bool_decide_eq_true_2 _ H2), ?(bool_decide_eq_false_2 _ H2);
      cbn [andb]; try apply IH.
    exfalso. apply Hx. auto. }
  split.
  - intros H. specialize (Hno _ H []). rewrite app_nil_r in Hno. rewrite Hno.
    reflexivity.
  - intros pre p post Hplans Ho Hd Hpre. rewrite Hplans, (Hno _ Hpre).
    cbn [List.find]. unfold serves.
    rewrite (bool_decide_eq_true_2 _ Ho), (bool_decide_eq_true_2 _ Hd). reflexivity.
Qed.

Lemma getFlightDistance_first_match_witness :
  let near := mkFlightPlan "HUB1" "SPK1" 8 10 [true] (Fin 700) in
  let far := mkFlightPlan "HUB1" "SPK1" 9 12 [true] (Fin 900) in
  getFlightDistance (new [near; far] None) "SPK1" "HUB1" = Fin 0
  /\ getFlightDistance (new [near; far] None) "HUB1" "SPK1" = Fin 700.
Proof.
  intros near far. split.
  - apply (proj1 (getFlightDistance_first_match (new [near; far] None) "SPK1" "HUB1")).
    repeat constructor; intros [H _]; discriminate H.
  - apply (proj2 (getFlightDistance_first_match (new [near; far] None) "HUB1" "SPK1")
             [] near [far] eq_refl eq_refl eq_refl).
    constructor.
Defined.

Lemma positiveDistances_fold (lo hi : Q) (plans : list FlightPlan) (s0 : Q) (c0 : nat) :
  (0 < lo <= hi)%Q ->
  Forall (fun p => (distanceKm p >? Fin 0)%js = true -> between lo hi (distanceKm p))
    plans ->
  (lo * inject_Z (Z.of_nat c0) <= s0 <= hi * inject_Z (Z.of_nat c0))%Q ->
  exists s c,
    fold_left
      (fun '(totalDistance, count) plan =>
         if (distanceKm plan >? Fin 0)%js
         then ((totalDistance + distanceKm plan)%js, S count)
         else (totalDistance, count))
      plans (Fin s0, c0)
    = (Fin s, c)
    /\ (lo * inject_Z (Z.of_nat c) <= s <= hi * inject_Z (Z.of_nat c))%Q
    /\ (c0 <= c)%nat
    /\ (c = c0 -> Forall (fun p => (distanceKm p >? Fin 0)%js = false) plans).
Proof.
  intros Hlh Hall. revert s0 c0.
  induction Hall as [|p l Hp _ IH]; intros s0 c0 H0.
  - exists s0, c0. split; [reflexivity|]. split; [exact H0|]. split; [lia|].
    intros _. constructor.
  - cbn [fold_left]. destruct (distanceKm p >? Fin 0)%js eqn:E.
    + specialize (Hp eq_refl). destruct (distanceKm p) as [d| | |]; try contradiction.
      cbn [between] in Hp. cbn [add].
      destruct (IH (s0 + d)%Q (S c0)) as (s & c & Hf & Hb & Hc & _).
      { rewrite Nat2Z.inj_succ, <- Z.add_1_r, inject_Z_plus.
        change (inject_Z 1) with 1%Q. lra. }
      exists s, c. split; [exact Hf|]. split; [exact Hb|]. split; [lia|].
      intros Heq. lia.
    + destruct (IH s0 c0 H0) as (s & c & Hf & Hb & Hc & Hz).
      exists s, c. split; [exact Hf|]. split; [exact Hb|]. split; [exact Hc|].
      intros Heq. constructor; auto.
Qed.



Lemma lastN_snoc (n : nat) (l : list num) (x : num) :
  (0 < n)%nat ->
  lastN n (l ++ [x])
  = (if (n <? length (lastN n l ++ [x]))%nat
     then tail (lastN n l ++ [x]) else lastN n l ++ [x]).
Proof.
  intros Hn. unfold lastN. rewrite !length_app, length_drop. cbn [length].
  destruct (Nat.le_gt_cases n (length l)) as [Hge|Hlt].
  - replace (length l - (length l - n) + 1)%nat with (S n) by lia.
    destruct (Nat.ltb_spec n (S n)) as [_|?]; [|lia].
    replace (length l + 1 - n)%nat with (S (length l - n)) by lia.
    rewrite drop_app_le by lia.
    destruct (drop (length l - n) l) as [|y rest] eqn:E.
    + apply (f_equal (@length num)) in E. rewrite length_drop in E. simpl in E. lia.
    + cbn [app tail].
      assert (Hd : drop (S (length l - n)) l = rest).
      { replace (S (length l - n)) with ((length l - n) + 1)%nat by lia.
        rewrite <- drop_drop, E. reflexivity. }
      rewrite Hd. reflexivity.
  - replace (length l - n)%nat with 0%nat by lia.
    replace (length l + 1 - n)%nat with 0%nat by lia.
    rewrite !drop_0.
    destruct (Nat.ltb_spec n (length l - 0 + 1)) as [?|_]; [lia|reflexivity].
Qed.

(** X5: after any sequence of [recordObservedDemand] calls on a fresh
    forecaster, the window of a class holds the last 100 positive counts
    recorded for that class, oldest first; so it never holds more than
    100 entries and never a zero. *)
Theorem window_is_last_100_positive plans chars (obs : list PerClassAmount)
    (k : KitClass) :
  let window := bc_get (observedDemands (recordAll (new plans chars) obs)) k in
  window = lastN 100 (positives (column k obs))
  /\ (length window <= 100)%nat
  /\ Forall (fun x => (x >? Fin 0)%js = true) window.
Proof.
  intros window.
  assert (H : window = lastN 100 (positives (column k obs))).
  { unfold window. clear window. induction obs as [|p obs IH] using rev_ind.
    - destruct k; reflexivity.
    - unfold recordAll in *. rewrite fold_left_app. cbn [fold_left].
      cbn [observedDemands recordObservedDemand].
      rewrite ForecasterFacts.recordWindows_get, IH.
      unfold column, positives. rewrite map_app, List.filter_app. cbn [map List.filter].
      destruct (pc_get p k >? Fin 0)%js.
      + rewrite lastN_snoc by lia. reflexivity.
      + rewrite app_nil_r. reflexivity. }
  split; [exact H|]. rewrite H. split.
  - unfold lastN. rewrite length_drop. lia.
  - apply List.Forall_forall. intros x Hx. unfold lastN in Hx.
    assert (Hin : In x (positives (column k obs))).
    { rewrite <- (take_drop (length (positives (column k obs)) - 100)
                   (positives (column k obs))).
      apply in_or_app. right. exact Hx. }
    unfold positives in Hin. apply filter_In in Hin. apply Hin.
Qed.

(** *** The cache of averages *)

Lemma sameButCache_refl a : sameButCache a a.
Proof. repeat split. Qed.

Lemma sameButCache_trans a b c : sameButCache a b -> sameButCache b c -> sameButCache a c.
Proof. intros (?&?&?&?) (?&?&?&?). repeat split; congruence. Qed.

Lemma sameButCache_sym a b : sameButCache a b -> sameButCache b a.
Proof. intros (?&?&?&?). repeat split; congruence. Qed.

Lemma dynamicEstimate_same a b k :
  sameButCache a b -> dynamicEstimate a k = dynamicEstimate b k.
Proof.
  intros (_ & Ho & Hc & _). unfold dynamicEstimate, getTypicalDemandEstimate.
  rewrite Ho, Hc. reflexivity.
Qed.

Lemma windowAverages_get this k :
  pc_get (windowAverages this) k = calculateAverage (bc_get (observedDemands this) k).
Proof. destruct k; reflexivity. Qed.

(** With a coherent cache the estimate does not depend on the cache, and
    the call changes nothing but the cache, which stays coherent. *)
Lemma getDynamicDemandEstimate_coherent this k :
  cacheCoherent this ->
  fst (getDynamicDemandEstimate this k) = dynamicEstimate this k
  /\ sameButCache this (snd (getDynamicDemandEstimate this k))
  /\ cacheCoherent (snd (getDynamicDemandEstimate this k)).
Proof.
  intros Hc. unfold getDynamicDemandEstimate, dynamicEstimate.
  destruct (5 <=? length (bc_get (observedDemands this) k))%nat.
  - assert (Hcache : match cachedAverages this with
                     | Some c => c
                     | None => windowAverages this
                     end = windowAverages this).
    { unfold cacheCoherent in Hc. destruct (cachedAverages this); auto. }
    fold (windowAverages this). rewrite Hcache. cbn [fst snd].
    rewrite windowAverages_get. repeat split.
  - cbn [fst snd]. split; [reflexivity|]. split; [apply sameButCache_refl|exact Hc].
Qed.

Lemma recordObservedDemand_same a b p :
  sameButCache a b ->
  sameButCache (recordObservedDemand a p) (recordObservedDemand b p).
Proof.
  intros (Hf & Ho & Hc & Hs). unfold recordObservedDemand, sameButCache.
  cbn [flightPlans observedDemands characteristics demandStats].
  rewrite Hf, Ho, Hc, Hs. repeat split.
Qed.

Lemma estimateRun_invariant a b calls :
  sameButCache a b -> cacheCoherent a ->
  sameButCache (estimateRun a calls) (recordAll b (recordsOf calls))
  /\ cacheCoherent (estimateRun a calls).
Proof.
  revert a b. induction calls as [|c calls IH]; intros a b Hs Hc; [split; assumption|].
  destruct c as [p|k]; cbn [estimateRun fold_left estimateStep recordsOf flat_map app].
  - apply IH; [apply recordObservedDemand_same, Hs|exact I].
  - destruct (getDynamicDemandEstimate_coherent a k Hc) as (_ & Hsame & Hcoh).
    apply IH; [|exact Hcoh].
    apply sameButCache_trans with a; [apply sameButCache_sym, Hsame|exact Hs].
Qed.

Lemma recordAll_coherent a obs : cacheCoherent a -> cacheCoherent (recordAll a obs).
Proof.
  revert a. induction obs as [|p obs IH]; intros a Hc; [exact Hc|].
  rewrite ForecasterFacts.recordAll_cons. apply IH. exact I.
Qed.

(** X6: the cache of averages is transparent.  After any interleaving of
    [recordObservedDemand] calls and estimate queries on a fresh
    forecaster, [getDynamicDemandEstimate] returns what it returns on a
    forecaster that recorded the same observations and was never
    queried: earlier queries never make a later one stale. *)
Theorem getDynamicDemandEstimate_cache_transparent plans chars
    (calls : list EstimateCall) (k : KitClass) :
  fst (getDynamicDemandEstimate (estimateRun (new plans chars) calls) k)
  = fst (getDynamicDemandEstimate (recordAll (new plans chars) (recordsOf calls)) k).
Proof.
  destruct (estimateRun_invariant (new plans chars) (new plans chars) calls
              (sameButCache_refl _) I) as [Hs Hc].
  rewrite (proj1 (getDynamicDemandEstimate_coherent _ k Hc)).
  rewrite (proj1 (getDynamicDemandEstimate_coherent _ k
                    (recordAll_coherent (new plans chars) (recordsOf calls) I))).
  apply dynamicEstimate_same, Hs.
Qed.

(** *** The forecast from the flight plan *)

Lemma plan_fold_coherent (keep : FlightPlan -> bool) (k : KitClass)
    (l : list FlightPlan) (dem : num) (a : DemandForecaster) :
  cacheCoherent a ->
  exists a',
    fold_left
      (fun '(demand, this) plan =>
         if keep plan
         then let '(estimate, this) := getDynamicDemandEstimate this k in
              ((demand + estimate)%js, this)
         else (demand, this))
      l (dem, a)
    = (Nat.iter (length (List.filter keep l)) (fun x => (x + dynamicEstimate a k)%js) dem,
       a')
    /\ sameButCache a a' /\ cacheCoherent a'.
Proof.
  revert dem a. induction l as [|p l IH]; intros dem a Hc.
  - exists a. split; [reflexivity|]. split; [apply sameButCache_refl|exact Hc].
  - cbn [fold_left List.filter]. destruct (keep p).
    + destruct (getDynamicDemandEstimate_coherent a k Hc) as (He & Hs & Hc1).
      destruct (getDynamicDemandEstimate a k) as [e a1]. cbn [fst snd] in *.
      destruct (IH (dem + e)%js a1 Hc1) as (a' & Hf & Hs' & Hc').
      exists a'. rewrite Hf. cbn [length]. rewrite Nat.iter_succ_r.
      rewrite <- (dynamicEstimate_same _ _ k Hs), He.
      split; [reflexivity|]. split; [eapply sameButCache_trans; eassumption|exact Hc'].
    + apply IH, Hc.
Qed.

Lemma planLoop_coherent (sel : FlightPlan -> Z -> Z -> bool) (k : KitClass) (n : nat)
    (checkDay checkHour : Z) (dem : num) (a : DemandForecaster) :
  cacheCoherent a ->
  exists a',
    planLoop sel k n checkDay checkHour (dem, a)
    = (Nat.iter (loopHits sel (flightPlans a) n checkDay checkHour)
         (fun x => (x + dynamicEstimate a k)%js) dem, a')
    /\ sameButCache a a' /\ cacheCoherent a'.
Proof.
  revert checkDay checkHour dem a.
  induction n as [|n IH]; intros checkDay checkHour dem a Hc.
  - exists a. split; [reflexivity|]. split; [apply sameButCache_refl|exact Hc].
  - cbn [planLoop loopHits]. unfold planHour. cbn [snd].
    destruct (plan_fold_coherent
                (fun plan => sel plan checkHour (Z.rem checkDay 7)) k
                (flightPlans a) dem a Hc) as (a1 & Hf & Hs1 & Hc1).
    rewrite Hf.
    assert (Hgo : forall d' h',
               exists a',
                 planLoop sel k n d' h'
                   (Nat.iter
                      (length (List.filter
                                 (fun plan => sel plan checkHour (Z.rem checkDay 7))
                                 (flightPlans a)))
                      (fun x => (x + dynamicEstimate a k)%js) dem, a1)
                 = (Nat.iter
                      (length (List.filter
                                 (fun plan => sel plan checkHour (Z.rem checkDay 7))
                                 (flightPlans a))
                       + loopHits sel (flightPlans a) n d' h')
                      (fun x => (x + dynamicEstimate a k)%js) dem, a')
                 /\ sameButCache a a' /\ cacheCoherent a').
    { intros d' h'.
      destruct (IH d' h'
                  (Nat.iter
                     (length (List.filter
                                (fun plan => sel plan checkHour (Z.rem checkDay 7))
                                (flightPlans a)))
                     (fun x => (x + dynamicEstimate a k)%js) dem) a1 Hc1)
        as (a' & Hl & Hs' & Hc').
      exists a'. rewrite Hl.
      rewrite <- (proj1 Hs1), <- (dynamicEstimate_same _ _ k Hs1).
      rewrite (Nat.add_comm (length _)), Nat.iter_add.
      split; [reflexivity|]. split; [eapply sameButCache_trans; eassumption|exact Hc']. }
    destruct (checkHour + 1 >=? 24)%Z; apply Hgo.
Qed.

Lemma loopHits_planHits sel plans (n : nat) (currentDay currentHour : Z) :
  validHour currentHour ->
  loopHits sel plans n currentDay currentHour
  = planHits sel plans currentDay currentHour n.
Proof.
  unfold validHour, planHits. revert currentDay currentHour.
  induction n as [|n IH]; intros d h Hh; [reflexivity|].
  cbn [loopHits]. rewrite <- cons_seq, <- seq_shift. cbn [map].
  rewrite List.map_map.
  assert (Hcons : forall a l, list_sum (a :: l) = (a + list_sum l)%nat) by reflexivity.
  rewrite Hcons. f_equal.
  - unfold slotHour, slotDay. change (Z.of_nat 0) with 0. rewrite Z.add_0_r.
    rewrite Z.mod_small by lia. rewrite Z.div_small by lia. rewrite Z.add_0_r.
    reflexivity.
  - destruct (Z.geb_spec (h + 1) 24) as [Hwrap|Hnext].
    + rewrite IH by lia. f_equal. apply map_ext. intros i.
      unfold slotHour, slotDay. assert (h = 23) by lia. subst h.
      rewrite Nat2Z.inj_succ.
      replace (23 + Z.succ (Z.of_nat i)) with (Z.of_nat i + 1 * 24) by lia.
      rewrite Z.mod_add, Z.div_add by lia.
      replace (d + 1 + (0 + Z.of_nat i) / 24) with (d + (Z.of_nat i / 24 + 1)) by
        (rewrite Z.add_0_l; lia).
      rewrite Z.add_0_l. reflexivity.
    + rewrite IH by lia. f_equal. apply map_ext. intros i.
      unfold slotHour, slotDay. rewrite Nat2Z.inj_succ.
      replace (h + 1 + Z.of_nat i) with (h + Z.succ (Z.of_nat i)) by lia.
      reflexivity.
Qed.

(** X7: the forecast of [calculateDemandForAirport] is the sum of the
    known flights departing in [now, now + horizon], plus one dynamic
    estimate for every pair of an hour offset [i] in [0, horizon) and a
    flight plan that leaves the airport at the hour [i] hours after now
    on that hour's weekday: the flight plan is read over the half-open
    interval [now, now + horizon).  The call changes at most the cache. *)
Theorem calculateDemandForAirport_forecast (this : DemandForecaster)
    (airportCode : string) (currentDay currentHour withinHours : Z)
    (kitClass : KitClass) (knownFlights : JsMap FlightEvent) :
  cacheCoherent this ->
  validHour currentHour -> 0 <= withinHours ->
  Forall (fun f => validHour (hour (departure f))) (Map_values knownFlights) ->
  let result :=
    calculateDemandForAirport this airportCode currentDay currentHour withinHours
      kitClass knownFlights in
  fst result
  = Nat.iter
      (planHits (departsAt airportCode) (flightPlans this) currentDay currentHour
         (Z.to_nat withinHours))
      (fun x => (x + dynamicEstimate this kitClass)%js)
      (countedPassengers
         (departsInClosedWindow airportCode currentDay currentHour withinHours)
         kitClass knownFlights)
  /\ sameButCache this (snd result)
  /\ cacheCoherent (snd result).
Proof.
  intros Hc Hh Hw Hall result. unfold result, calculateDemandForAirport.
  rewrite ForecasterFacts.knownDemand_counted by assumption.
  destruct (planLoop_coherent (departsAt airportCode) kitClass (Z.to_nat withinHours)
              currentDay currentHour
              (fold_left add
                 (map (fun f => pc_get (passengers f) kitClass)
                    (List.filter
                       (departsInClosedWindow airportCode currentDay currentHour
                          withinHours)
                       (Map_values knownFlights))) (Fin 0)) this Hc)
    as (a' & Hl & Hs & Hc').
  rewrite Hl. cbn [fst snd]. rewrite loopHits_planHits by assumption.
  split; [reflexivity|]. split; assumption.
Qed.

Lemma calculateDemandForAirport_forecast_witness :
  let plans :=
    [mkFlightPlan "AAA" "BBB" 5 9 [true; true; true; true; true; true; true] (Fin 700);
     mkFlightPlan "AAA" "CCC" 9 12 [true; true; true; true; true; true; true] (Fin 900)] in
  fst (calculateDemandForAirport (new plans None) "AAA" 1 5 4 K_economy [])
  = Nat.iter (planHits (departsAt "AAA") plans 1 5 4)
      (fun x => (x + dynamicEstimate (new plans None) K_economy)%js)
      (countedPassengers (departsInClosedWindow "AAA" 1 5 4) K_economy [])
  /\ planHits (departsAt "AAA") plans 1 5 4 = 1%nat.
Proof.
  intros plans. split; [|reflexivity].
  apply (proj1 (calculateDemandForAirport_forecast (new plans None) "AAA" 1 5 4
                  K_economy [] I
                  ltac:(unfold validHour; lia) ltac:(lia) ltac:(constructor))).
Defined.

Lemma calculateDemandForAirport_coherent (a : DemandForecaster)
    (airportCode : string) (currentDay currentHour withinHours : Z)
    (k : KitClass) (knownFlights : JsMap FlightEvent) :
  cacheCoherent a ->
  fst (calculateDemandForAirport a airportCode currentDay currentHour withinHours k
         knownFlights)
  = Nat.iter
      (loopHits (departsAt airportCode) (flightPlans a) (Z.to_nat withinHours)
         currentDay currentHour)
      (fun x => (x + dynamicEstimate a k)%js)
      (knownDemand airportCode currentDay currentHour withinHours k knownFlights (Fin 0))
  /\ sameButCache a
       (snd (calculateDemandForAirport a airportCode currentDay currentHour
               withinHours k knownFlights))
  /\ cacheCoherent
       (snd (calculateDemandForAirport a airportCode currentDay currentHour
               withinHours k knownFlights)).
Proof.
  intros Hc. unfold calculateDemandForAirport.
  destruct (planLoop_coherent (departsAt airportCode) k (Z.to_nat withinHours)
              currentDay currentHour
              (knownDemand airportCode currentDay currentHour withinHours k
                 knownFlights (Fin 0)) a Hc) as (a' & Hl & Hs & Hc').
  rewrite Hl. cbn [fst snd]. split; [reflexivity|]. split; assumption.
Qed.

Lemma calculateDemandForAirport_same (a b : DemandForecaster)
    (airportCode : string) (currentDay currentHour withinHours : Z)
    (k : KitClass) (knownFlights : JsMap FlightEvent) :
  sameButCache a b -> cacheCoherent a -> cacheCoherent b ->
  fst (calculateDemandForAirport a airportCode currentDay currentHour withinHours k
         knownFlights)
  = fst (calculateDemandForAirport b airportCode currentDay currentHour withinHours k
           knownFlights).
Proof.
  intros Hs Ha Hb.
  rewrite (proj1 (calculateDemandForAirport_coherent a _ _ _ _ k knownFlights Ha)).
  rewrite (proj1 (calculateDemandForAirport_coherent b _ _ _ _ k knownFlights Hb)).
  rewrite (proj1 Hs), (dynamicEstimate_same _ _ k Hs). reflexivity.
Qed.

(** X8: with a coherent cache, each component of [calculateTotalDemand]
    is what [calculateDemandForAirport] returns for that class on the
    same forecaster: the earlier classes' calls, which fill the cache,
    do not change the later results. *)
Theorem calculateTotalDemand_per_class (this : DemandForecaster)
    (airportCode : string) (currentDay currentHour withinHours : Z)
    (knownFlights : JsMap FlightEvent) (k : KitClass) :
  cacheCoherent this ->
  pc_get
    (fst (calculateTotalDemand this airportCode currentDay currentHour withinHours
            knownFlights)) k
  = fst (calculateDemandForAirport this airportCode currentDay currentHour withinHours
           k knownFlights).
Proof.
  intros Hc. unfold calculateTotalDemand. cbn [fold_left KIT_CLASSES].
  set (call := fun a kc =>
                 calculateDemandForAirport a airportCode currentDay currentHour
                   withinHours kc knownFlights).
  change (calculateDemandForAirport this airportCode currentDay currentHour
            withinHours k knownFlights) with (call this k).
  assert (Hstep : forall a kc,
             sameButCache this a -> cacheCoherent a ->
             fst (call a kc) = fst (call this kc)
             /\ sameButCache this (snd (call a kc))
             /\ cacheCoherent (snd (call a kc))).
  { intros a kc Hs Ha. unfold call.
    destruct (calculateDemandForAirport_coherent a airportCode currentDay currentHour
                withinHours kc knownFlights Ha) as (_ & Hs' & Hc').
    split; [|split; [eapply sameButCache_trans; eassumption|exact Hc']].
    apply calculateDemandForAirport_same; [apply sameButCache_sym, Hs|exact Ha|exact Hc]. }
  destruct (Hstep this K_first (sameButCache_refl _) Hc) as (E1 & S1 & C1).
  fold (call this K_first).
  destruct (call this K_first) as [v1 a1] eqn:Hfirst. cbn [fst snd] in *.
  destruct (Hstep a1 K_business S1 C1) as (E2 & S2 & C2).
  fold (call a1 K_business). destruct (call a1 K_business) as [v2 a2].
  cbn [fst snd] in *.
  destruct (Hstep a2 K_premiumEconomy S2 C2) as (E3 & S3 & C3).
  fold (call a2 K_premiumEconomy). destruct (call a2 K_premiumEconomy) as [v3 a3].
  cbn [fst snd] in *.
  destruct (Hstep a3 K_economy S3 C3) as (E4 & S4 & C4).
  fold (call a3 K_economy). destruct (call a3 K_economy) as [v4 a4].
  cbn [fst snd] in *.
  destruct k; cbn; [rewrite Hfirst; reflexivity|assumption..].
Qed.

Lemma calculateTotalDemand_per_class_witness :
  let plans :=
    [mkFlightPlan "AAA" "BBB" 5 9 [true; true; true; true; true; true; true] (Fin 700)] in
  pc_get (fst (calculateTotalDemand (new plans None) "AAA" 1 5 4 [])) K_business
  = fst (calculateDemandForAirport (new plans None) "AAA" 1 5 4 K_business []).
Proof.
  intros plans.
  apply (calculateTotalDemand_per_class (new plans None) "AAA" 1 5 4 [] K_business I).
Defined.

Lemma addEstimates_coherent (dem : PerClassAmount) (a : DemandForecaster) :
  cacheCoherent a ->
  exists dem' a',
    addEstimates (dem, a) = (dem', a')
    /\ (forall k, pc_get dem' k = (pc_get dem k + dynamicEstimate a k)%js)
    /\ sameButCache a a' /\ cacheCoherent a'.
Proof.
  intros Hc. unfold addEstimates. cbn [fold_left KIT_CLASSES].
  assert (Hstep : forall b kc,
             sameButCache a b -> cacheCoherent b ->
             fst (getDynamicDemandEstimate b kc) = dynamicEstimate a kc
             /\ sameButCache a (snd (getDynamicDemandEstimate b kc))
             /\ cacheCoherent (snd (getDynamicDemandEstimate b kc))).
  { intros b kc Hs Hb.
    destruct (getDynamicDemandEstimate_coherent b kc Hb) as (He & Hs' & Hc').
    rewrite He, (dynamicEstimate_same _ _ kc Hs).
    split; [reflexivity|]. split; [eapply sameButCache_trans; eassumption|exact Hc']. }
  destruct (Hstep a K_first (sameButCache_refl _) Hc) as (E1 & S1 & C1).
  destruct (getDynamicDemandEstimate a K_first) as [v1 a1]. cbn [fst snd] in *.
  destruct (Hstep a1 K_business S1 C1) as (E2 & S2 & C2).
  destruct (getDynamicDemandEstimate a1 K_business) as [v2 a2]. cbn [fst snd] in *.
  destruct (Hstep a2 K_premiumEconomy S2 C2) as (E3 & S3 & C3).
  destruct (getDynamicDemandEstimate a2 K_premiumEconomy) as [v3 a3]. cbn [fst snd] in *.
  destruct (Hstep a3 K_economy S3 C3) as (E4 & S4 & C4).
  destruct (getDynamicDemandEstimate a3 K_economy) as [v4 a4]. cbn [fst snd] in *.
  eexists _, a4. split; [reflexivity|]. split; [|split; assumption].
  subst v1 v2 v3 v4. destruct dem as [d1 d2 d3 d4]. intros k; destruct k; reflexivity.
Qed.

Lemma scheduled_fold_coherent (keep : FlightPlan -> bool) (l : list FlightPlan)
    (dem : PerClassAmount) (a : DemandForecaster) :
  cacheCoherent a ->
  exists dem' a',
    fold_left (fun acc plan => if keep plan then addEstimates acc else acc) l (dem, a)
    = (dem', a')
    /\ (forall k,
          pc_get dem' k
          = Nat.iter (length (List.filter keep l))
              (fun x => (x + dynamicEstimate a k)%js) (pc_get dem k))
    /\ sameButCache a a' /\ cacheCoherent a'.
Proof.
  revert dem a. induction l as [|p l IH]; intros dem a Hc.
  - exists dem, a. split; [reflexivity|]. split; [reflexivity|].
    split; [apply sameButCache_refl|exact Hc].
  - cbn [fold_left List.filter]. destruct (keep p).
    + destruct (addEstimates_coherent dem a Hc) as (dem1 & a1 & -> & Hd1 & Hs1 & Hc1).
      destruct (IH dem1 a1 Hc1) as (dem' & a' & Hf & Hd & Hs' & Hc').
      exists dem', a'. split; [exact Hf|].
      split; [|split; [eapply sameButCache_trans; eassumption|exact Hc']].
      intros k. rewrite Hd, Hd1. cbn [length]. rewrite Nat.iter_succ_r.
      rewrite (dynamicEstimate_same _ _ k Hs1). reflexivity.
    + apply IH, Hc.
Qed.

Lemma scheduledLoop_coherent (airportCode : string) (n : nat) (checkDay checkHour : Z)
    (dem : PerClassAmount) (a : DemandForecaster) :
  cacheCoherent a ->
  exists dem' a',
    scheduledLoop airportCode n checkDay checkHour (dem, a) = (dem', a')
    /\ (forall k,
          pc_get dem' k
          = Nat.iter
              (loopHits (departsAt airportCode) (flightPlans a) n checkDay checkHour)
              (fun x => (x + dynamicEstimate a k)%js) (pc_get dem k))
    /\ sameButCache a a' /\ cacheCoherent a'.
Proof.
  revert checkDay checkHour dem a.
  induction n as [|n IH]; intros checkDay checkHour dem a Hc.
  - exists dem, a. split; [reflexivity|]. split; [reflexivity|].
    split; [apply sameButCache_refl|exact Hc].
  - cbn [scheduledLoop loopHits]. unfold scheduledHourStep. cbn [snd].
    destruct (scheduled_fold_coherent
                (fun plan => departsAt airportCode plan checkHour (Z.rem checkDay 7))
                (flightPlans a) dem a Hc) as (dem1 & a1 & -> & Hd1 & Hs1 & Hc1).
    assert (Hgo : forall d' h',
               exists dem' a',
                 scheduledLoop airportCode n d' h' (dem1, a1) = (dem', a')
                 /\ (forall k,
                       pc_get dem' k
                       = Nat.iter
                           (length
                              (List.filter
                                 (fun plan =>
                                    departsAt airportCode plan checkHour
                                      (Z.rem checkDay 7))
                                 (flightPlans a))
                            + loopHits (departsAt airportCode) (flightPlans a) n d' h')
                           (fun x => (x + dynamicEstimate a k)%js) (pc_get dem k))
                 /\ sameButCache a a' /\ cacheCoherent a').
    { intros d' h'. destruct (IH d' h' dem1 a1 Hc1) as (dem' & a' & Hl & Hd & Hs' & Hc').
      exists dem', a'. split; [exact Hl|].
      split; [|split; [eapply sameButCache_trans; eassumption|exact Hc']].
      intros k. rewrite Hd, Hd1.
      rewrite <- (proj1 Hs1), <- (dynamicEstimate_same _ _ k Hs1).
      rewrite (Nat.add_comm (length _)), Nat.iter_add. reflexivity. }
    destruct (checkHour + 1 >=? 24)%Z; apply Hgo.
Qed.

(** X9: with a coherent cache, each component of
    [calculateScheduledDemand] is the demand [calculateDemandForAirport]
    forecasts for that class when no flight is known yet. *)
Theorem calculateScheduledDemand_per_class (this : DemandForecaster)
    (airportCode : string) (currentDay currentHour withinHours : Z) (k : KitClass) :
  cacheCoherent this ->
  pc_get
    (fst (calculateScheduledDemand this airportCode currentDay currentHour withinHours))
    k
  = fst (calculateDemandForAirport this airportCode currentDay currentHour withinHours
           k []).
Proof.
  intros Hc. unfold calculateScheduledDemand.
  destruct (scheduledLoop_coherent airportCode (Z.to_nat withinHours) currentDay
              currentHour (pc_const (Fin 0)) this Hc) as (dem' & a' & -> & Hd & _).
  cbn [fst]. rewrite Hd.
  rewrite (proj1 (calculateDemandForAirport_coherent this airportCode currentDay
                    currentHour withinHours k [] Hc)).
  rewrite ForecasterFacts.pc_get_const. reflexivity.
Qed.

Lemma calculateScheduledDemand_per_class_witness :
  let plans :=
    [mkFlightPlan "AAA" "BBB" 5 9 [true; true; true; true; true; true; true] (Fin 700)] in
  pc_get (fst (calculateScheduledDemand (new plans None) "AAA" 1 5 4)) K_economy
  = fst (calculateDemandForAirport (new plans None) "AAA" 1 5 4 K_economy []).
Proof.
  intros plans.
  apply (calculateScheduledDemand_per_class (new plans None) "AAA" 1 5 4 K_economy I).
Defined.

End ForecasterMore.
(* ===================================================================== *)
(** ** RuntimeCalibrator: statistics and the load-factor controller       *)
(* ===================================================================== *)

Module RuntimeFacts.

Import Runtime RuntimeSpec JSFacts.
Local Open Scope js_scope.

Lemma recordObservation_count r p :
  count (observedDemand (recordObservation r p)) = S (count (observedDemand r)).
Proof. reflexivity. Qed.

Lemma recordObservation_sum r p k :
  pc_get (sum (observedDemand (recordObservation r p))) k
  = (pc_get (sum (observedDemand r)) k + pc_get p k)%js.
Proof. destruct k; reflexivity. Qed.

Lemma runtime_getUpdatedDemandEstimates_get r k :
  (20 <= count (observedDemand r))%nat ->
  pc_get (getUpdatedDemandEstimates r) k
  = Math_ceil
      (getObservedMean r k * Fin 1.3 * Fin 0.7
       + pc_get (Calibrator.demandEstimates (initialCharacteristics r)) k * Fin 0.3)%js.
Proof.
  intros H. unfold getUpdatedDemandEstimates.
  destruct (Nat.ltb_spec (count (observedDemand r)) 20); [lia|].
  destruct k; reflexivity.
Qed.

Lemma sameStatistics_record r f p :
  sameStatistics r f ->
  sameStatistics (recordObservation r p) (Forecaster.recordObservedDemand f p).
Proof.
  intros (Hc & Hs & Hi). split; [|split].
  - rewrite recordObservation_count. cbn [Forecaster.recordObservedDemand
      Forecaster.demandStats]. rewrite ForecasterFacts.recordStats_count. congruence.
  - intros k. rewrite recordObservation_sum.
    cbn [Forecaster.recordObservedDemand Forecaster.demandStats].
    rewrite ForecasterFacts.recordStats_sum. rewrite Hs. reflexivity.
  - exact Hi.
Qed.

Lemma sameStatistics_recordAll obs r f :
  sameStatistics r f ->
  sameStatistics (fold_left recordObservation obs r) (ForecasterSpec.recordAll f obs).
Proof.
  revert r f. induction obs as [|p obs IH]; intros r f H; [exact H|].
  cbn [fold_left]. rewrite ForecasterFacts.recordAll_cons.
  apply IH, sameStatistics_record, H.
Qed.

Lemma sameStatistics_mean r f k :
  sameStatistics r f -> getObservedMean r k = Forecaster.getObservedMean f k.
Proof.
  intros (Hc & Hs & _). unfold getObservedMean, Forecaster.getObservedMean.
  rewrite Hc, Hs. reflexivity.
Qed.

(** X10: a [RuntimeCalibrator] and a [DemandForecaster] created with the
    same characteristics and fed the same observations report the same
    observed mean and return the same updated demand estimates. *)
Theorem runtime_estimates_agree_with_forecaster
    (initial : Calibrator.DatasetCharacteristics) (plans : list FlightPlan)
    (obs : list PerClassAmount) :
  let r := fold_left recordObservation obs (new initial) in
  let f := ForecasterSpec.recordAll (Forecaster.new plans (Some initial)) obs in
  (forall k, getObservedMean r k = Forecaster.getObservedMean f k)
  /\ getUpdatedDemandEstimates r = Forecaster.getUpdatedDemandEstimates f.
Proof.
  intros r f.
  assert (H : sameStatistics r f).
  { apply sameStatistics_recordAll. split; [|split]; reflexivity. }
  split; [intros k; apply sameStatistics_mean, H|].
  assert (Hm := fun k => sameStatistics_mean r f k H).
  destruct H as (Hc & Hs & Hi).
  unfold getUpdatedDemandEstimates, Forecaster.getUpdatedDemandEstimates,
    Forecaster.initialEstimates.
  rewrite Hc, Hi. destruct (_ <? 20)%nat; [reflexivity|].
  cbn [fold_left KIT_CLASSES]. rewrite !Hm. reflexivity.
Qed.

Lemma runtime_recordAll_characteristics obs r :
  initialCharacteristics (fold_left recordObservation obs r) = initialCharacteristics r.
Proof.
  revert r. induction obs as [|p obs IH]; intros r; [reflexivity|].
  cbn [fold_left]. rewrite IH. reflexivity.
Qed.

(** X14: when every class is estimated at 1 passenger or more, the
    calibrator and the forecaster, fed the same observations, take the
    same decision to recalibrate. *)
Theorem runtime_shouldRecalibrate_agrees_with_forecaster
    (initial : Calibrator.DatasetCharacteristics) (plans : list FlightPlan)
    (obs : list PerClassAmount) :
  estimatesAtLeastOne initial ->
  shouldRecalibrate (fold_left recordObservation obs (new initial))
  = Forecaster.shouldRecalibrate
      (ForecasterSpec.recordAll (Forecaster.new plans (Some initial)) obs).
Proof.
  intros Hest.
  set (r := fold_left recordObservation obs (new initial)).
  set (f := ForecasterSpec.recordAll (Forecaster.new plans (Some initial)) obs).
  assert (H : sameStatistics r f).
  { apply sameStatistics_recordAll. split; [|split]; reflexivity. }
  assert (Hm := fun k => sameStatistics_mean r f k H).
  destruct H as (Hc & Hs & Hi).
  assert (Hinit : initialCharacteristics r = initial).
  { apply (runtime_recordAll_characteristics obs (new initial)). }
  unfold shouldRecalibrate, Forecaster.shouldRecalibrate, Forecaster.initialEstimates.
  rewrite Hc, Hi, Hinit. destruct (_ <? 50)%nat; [reflexivity|].
  assert (Hk : forall k,
             (let observed := getObservedMean r k in
              let estimated := pc_get (Calibrator.demandEstimates initial) k in
              let ratio := observed / Math_max (Fin 1) estimated in
              (ratio <? Fin 0.75) || (ratio >? Fin 1.25))
             = (let observed := Forecaster.getObservedMean f k in
                let estimated := pc_get (Calibrator.demandEstimates initial) k in
                if estimated === Fin 0 then false
                else
                  let ratio := observed / estimated in
                  (ratio <? Fin 0.75) || (ratio >? Fin 1.25))).
  { intros k. cbv zeta. rewrite Hm. destruct (Hest k) as (q & -> & Hq).
    cbn [Math_max strict_eq le]. unfold Qleb, Qeqb.
    destruct (Qcompare_spec 1 q); destruct (Qcompare_spec q 0);
      try (exfalso; lra); try reflexivity. }
  cbn [existsb KIT_CLASSES]. rewrite !Hk. reflexivity.
Qed.

Lemma runtime_shouldRecalibrate_agrees_with_forecaster_witness :
  let initial :=
    Calibrator.mkDatasetCharacteristics
      (Calibrator.mkNetworkTopology "HUB1" 0 (Fin 0) (Fin 0) (pc_const (Fin 0))
         (pc_const (Fin 0)) (pc_const (Fin 0)) (pc_const (Fin 0)))
      (Calibrator.mkRouteEconomics (Fin 0) (Fin 0) (Fin 0) (Fin 0) (Fin 0)
         (Fin 0) (Fin 0))
      (Calibrator.mkEconomyLoadFactorConfig (Fin 0.7) (Fin 0.5) (Fin 0.7)
         (Fin 0.5) (Fin 0.8))
      (mkPerClass (Fin 10) (Fin 50) (Fin 25) (Fin 200))
      (Calibrator.mkDestinationBuffers (Fin 1) (Fin 0.7) (Fin 0.8) (Fin 0.85))
      (pc_const (Fin 0.5)) (Fin 1) [] in
  let obs := repeat (mkPerClass (Fin 4) (Fin 60) (Fin 25) (Fin 180)) 50 in
  shouldRecalibrate (fold_left recordObservation obs (new initial))
  = Forecaster.shouldRecalibrate
      (ForecasterSpec.recordAll (Forecaster.new [] (Some initial)) obs)
  /\ shouldRecalibrate (fold_left recordObservation obs (new initial)) = true.
Proof.
  intros initial obs. split; [|vm_compute; reflexivity].
  apply (runtime_shouldRecalibrate_agrees_with_forecaster initial [] obs).
  intros k. destruct k; eexists; (split; [reflexivity|]); cbn; lra.
Defined.

(** The outcomes of one [suggestLoadFactorAdjustment]: a step of at most
    0.02 that keeps the cumulative adjustment within ±0.10, pushed on the
    history exactly when it is not zero. *)
Lemma runtime_suggest_step (r : RuntimeCalibrator) (u o : num) (d : Z) (q : Q) :
  cumulativeAdjustment r = Fin q -> (-0.10 <= q <= 0.10)%Q ->
  exists s q',
    fst (suggestLoadFactorAdjustment r u o d) = Fin s
    /\ cumulativeAdjustment (snd (suggestLoadFactorAdjustment r u o d)) = Fin q'
    /\ (q' == q + s)%Q
    /\ (-0.02 <= s <= 0.02)%Q /\ (-0.10 <= q' <= 0.10)%Q
    /\ (d < 3 -> s = 0%Q)
    /\ ((s == 0)%Q
          /\ adjustmentHistory (snd (suggestLoadFactorAdjustment r u o d))
             = adjustmentHistory r
        \/ ~ (s == 0)%Q
           /\ adjustmentHistory (snd (suggestLoadFactorAdjustment r u o d))
              = adjustmentHistory r ++ [Fin s]).
Proof.
  intros Hq Hb. unfold suggestLoadFactorAdjustment.
  destruct (Z.ltb_spec d 3) as [Hlt|Hge].
  { exists 0%Q, q. cbn [fst snd]. rewrite Hq.
    repeat (split; [first [reflexivity|lra|intros; reflexivity]|]).
    left. split; reflexivity. }
  rewrite Hq. unfold MAX_TOTAL_ADJUSTMENT, MAX_DAILY_ADJUSTMENT.
  cbn [Math_abs ge le].
  destruct (Qleb 0.10 (Qabs q)) eqn:Habs.
  { exists 0%Q, q. cbn [fst snd]. rewrite Hq.
    repeat (split; [first [reflexivity|lra|intros; lia]|]).
    left. split; reflexivity. }
  apply Qleb_false in Habs.
  assert (Hq' : (-0.10 < q < 0.10)%Q).
  { revert Habs. apply Qabs_case; intros; lra. }
  assert (Hsolve :
            forall adj : Q,
              (adj == 0.02 \/ adj == - 0.02 \/ adj == 0)%Q ->
              let res :=
                (let adjustment := Math_max (neg (Fin 0.02)) (Math_min (Fin 0.02) (Fin adj)) in
                 let adjustment :=
                   if (Fin q + adjustment >? Fin 0.10)%js then (Fin 0.10 - Fin q)%js
                   else if (Fin q + adjustment <? neg (Fin 0.10))%js
                        then (neg (Fin 0.10) - Fin q)%js
                        else adjustment in
                 let this :=
                   if negb (adjustment === Fin 0)%js
                   then {| initialCharacteristics := initialCharacteristics r;
                           observedDemand := observedDemand r;
                           adjustmentHistory := adjustmentHistory r ++ [adjustment];
                           cumulativeAdjustment := (Fin q + adjustment)%js |}
                   else r in
                 (adjustment, this)) in
              exists s q',
                fst res = Fin s
                /\ cumulativeAdjustment (snd res) = Fin q'
                /\ (q' == q + s)%Q
                /\ (-0.02 <= s <= 0.02)%Q /\ (-0.10 <= q' <= 0.10)%Q
                /\ (d < 3 -> s = 0%Q)
                /\ ((s == 0)%Q /\ adjustmentHistory (snd res) = adjustmentHistory r
                    \/ ~ (s == 0)%Q
                       /\ adjustmentHistory (snd res) = adjustmentHistory r ++ [Fin s])).
  { intros adj Hadj. cbv zeta.
    cbn [Math_max Math_min add gt lt le neg sub]. unfold Qltb, Qleb.
    repeat match goal with
           | |- context [Qcompare ?a ?b] =>
               destruct (Qcompare_spec a b);
               cbn [strict_eq add gt lt le neg sub Math_max Math_min]; unfold Qeqb, Qltb, Qleb
           end;
      cbn [negb fst snd cumulativeAdjustment adjustmentHistory]; rewrite ?Hq;
      try (exfalso; lra);
      (eexists; eexists; split; [reflexivity|]; split; [reflexivity|];
       split; [first [reflexivity|lra]|]; split; [lra|]; split; [lra|];
       split; [intros; lia|];
       first [left; split; [lra|reflexivity] | right; split; [lra|reflexivity]]). }
  match goal with
  | |- context [if ?b then Fin 0.02 else _] => destruct b
  end.
  - apply (Hsolve 0.02%Q). left. reflexivity.
  - match goal with
    | |- context [if ?b then neg (Fin 0.02) else _] => destruct b
    end.
    + apply (Hsolve (- 0.02)%Q). right. left. reflexivity.
    + apply (Hsolve 0%Q). right. right. reflexivity.
Qed.

Lemma new_consistent initial : adjustmentConsistent (new initial).
Proof. exists 0%Q. split; [reflexivity|]. split; [lra|]. cbn. reflexivity. Qed.

Lemma runtimeStep_consistent r c :
  adjustmentConsistent r -> adjustmentConsistent (runtimeStep r c).
Proof.
  intros (q & Hq & Hb & Hh). destruct c as [p|u o d]; cbn [runtimeStep].
  - exists q. auto.
  - destruct (runtime_suggest_step r u o d q Hq Hb)
      as (s & q' & _ & Hc & He & _ & Hb' & _ & [[Hs Hhist]|[Hs Hhist]]).
    + exists q'. split; [exact Hc|]. split; [exact Hb'|]. rewrite Hhist.
      destruct (fold_left add (adjustmentHistory r) (Fin 0)) as [h| | |];
        cbn in Hh |- *; try contradiction. lra.
    + exists q'. split; [exact Hc|]. split; [exact Hb'|]. rewrite Hhist.
      rewrite fold_left_app. cbn [fold_left].
      destruct (fold_left add (adjustmentHistory r) (Fin 0)) as [h| | |];
        cbn in Hh |- *; try contradiction. lra.
Qed.

Lemma runtimeRun_consistent r calls :
  adjustmentConsistent r -> adjustmentConsistent (runtimeRun r calls).
Proof.
  revert r. induction calls as [|c calls IH]; intros r H; [exact H|].
  apply IH, runtimeStep_consistent, H.
Qed.

Lemma runtimeRun_characteristics r calls :
  initialCharacteristics (runtimeRun r calls) = initialCharacteristics r.
Proof.
  revert r. induction calls as [|c calls IH]; intros r; [reflexivity|].
  cbn [runtimeRun fold_left]. fold (runtimeRun (runtimeStep r c) calls). rewrite IH.
  destruct c as [p|u o d]; [reflexivity|]. cbn [runtimeStep].
  unfold suggestLoadFactorAdjustment.
  repeat match goal with
         | |- context [if ?b then _ else _] => destruct b
         end; reflexivity.
Qed.

(** X11: after any sequence of observations and suggestions on a new
    calibrator, a suggestion returns a step of at most 0.02 in absolute
    value, and 0 before day 3; the cumulative adjustment moves by that
    step, stays within ±0.10, and is the sum of the adjustment history. *)
Theorem runtime_suggestLoadFactorAdjustment_bounded
    (initial : Calibrator.DatasetCharacteristics) (calls : list RuntimeCall)
    (unfulfilledCost overflowCost : num) (currentDay : Z) :
  let r := runtimeRun (new initial) calls in
  let step := fst (suggestLoadFactorAdjustment r unfulfilledCost overflowCost currentDay) in
  let r' := snd (suggestLoadFactorAdjustment r unfulfilledCost overflowCost currentDay) in
  between (-0.02) 0.02 step
  /\ (currentDay < 3 -> step = Fin 0)
  /\ cumulativeAdjustment r' ≈ (cumulativeAdjustment r + step)%js
  /\ between (-0.10) 0.10 (cumulativeAdjustment r')
  /\ fold_left add (adjustmentHistory r') (Fin 0) ≈ cumulativeAdjustment r'.
Proof.
  intros r step r'.
  destruct (runtimeRun_consistent (new initial) calls (new_consistent initial))
    as (q & Hq & Hb & Hh). fold r in Hq, Hh.
  assert (Hc' : adjustmentConsistent r').
  { apply (runtimeStep_consistent r (Suggest unfulfilledCost overflowCost currentDay)).
    exists q. auto. }
  destruct (runtime_suggest_step r unfulfilledCost overflowCost currentDay q Hq Hb)
    as (s & q' & Hs & Hc & He & Hsb & Hb' & Hd & _).
  fold step in Hs. fold r' in Hc. rewrite Hs, Hc, Hq.
  split; [exact Hsb|]. split; [intros Hlt; rewrite (Hd Hlt); reflexivity|].
  split; [exact He|]. split; [exact Hb'|].
  destruct Hc' as (q2 & Hq2 & _ & Hh2). rewrite Hc in Hq2. injection Hq2 as <-.
  exact Hh2.
Qed.

Lemma runtimeRun_app r calls1 calls2 :
  runtimeRun r (calls1 ++ calls2) = runtimeRun (runtimeRun r calls1) calls2.
Proof. apply fold_left_app. Qed.

(** X12: for a calibrator created with the economy load-factor
    configuration of [calculateEconomyLoadFactor], the current economy
    load factor is, after any sequence of calls, the baseline plus the
    cumulative adjustment clamped to [0.50, 0.90]; it lies in that
    interval and within 0.10 of the baseline. *)
Theorem getCurrentEconomyLoadFactor_range
    (initial : Calibrator.DatasetCharacteristics)
    (economics : Calibrator.RouteEconomics) (topology : Calibrator.NetworkTopology)
    (calls : list RuntimeCall) :
  Calibrator.economyLoadFactor initial
  = Calibrator.calculateEconomyLoadFactor economics topology ->
  is_nan (Calibrator.penaltyCostRatio economics) = false ->
  is_finite (economy (Calibrator.capacityRatio topology)) ->
  let r := runtimeRun (new initial) calls in
  exists b c v,
    Calibrator.baseline (Calibrator.economyLoadFactor initial) = Fin b
    /\ getCumulativeAdjustment r = Fin c
    /\ getCurrentEconomyLoadFactor r = Fin v
    /\ (v == Qmax 0.50 (Qmin 0.90 (b + c)))%Q
    /\ (0.50 <= v <= 0.90)%Q
    /\ (Qabs (v - b) <= 0.10)%Q.
Proof.
  intros Hcfg HR Hcap r.
  destruct (runtimeRun_consistent (new initial) calls (new_consistent initial))
    as (c & Hc & Hcb & _). fold r in Hc.
  assert (Hb := CalibratorBounds.baseline_between economics topology HR Hcap).
  assert (Hi : initialCharacteristics r = initial)
    by apply runtimeRun_characteristics.
  unfold getCurrentEconomyLoadFactor, getCumulativeAdjustment. cbv zeta.
  rewrite Hi, Hc, Hcfg.
  change (Calibrator.minFactor (Calibrator.calculateEconomyLoadFactor economics topology))
    with (Fin 0.50).
  change (Calibrator.maxFactor (Calibrator.calculateEconomyLoadFactor economics topology))
    with (Math_min
            (Calibrator.baseline
               (Calibrator.calculateEconomyLoadFactor economics topology) + Fin 0.10)
            (Fin 0.90)).
  destruct (Calibrator.baseline
              (Calibrator.calculateEconomyLoadFactor economics topology))
    as [b| | |]; try contradiction.
  cbn in Hb. exists b, c.
  cbn [Math_max Math_min add le]. unfold Qleb.
  repeat match goal with
         | |- context [Qcompare ?x ?y] =>
             destruct (Qcompare_spec x y); cbn [Math_max Math_min add le]; unfold Qleb
         end;
    try (exfalso; lra);
    (eexists; split; [reflexivity|]; split; [reflexivity|]; split; [reflexivity|];
     split; [|split; [lra|apply Qabs_case; intros; lra]];
     destruct (Q.min_spec 0.90 (b + c)) as [[Hm1 Hm2]|[Hm1 Hm2]];
     destruct (Q.max_spec 0.50 (Qmin 0.90 (b + c))) as [[Hx1 Hx2]|[Hx1 Hx2]];
     revert Hm1 Hm2 Hx1 Hx2;
     generalize (Qmax 0.50 (Qmin 0.90 (b + c)));
     generalize (Qmin 0.90 (b + c)); intros; lra).
Qed.

Lemma getCurrentEconomyLoadFactor_range_witness :
  let economics :=
    Calibrator.mkRouteEconomics (Fin 1000) (Fin 500) (Fin 2000) (Fin 100) (Fin 400)
      (Fin 200) (Fin 2) in
  let topology :=
    Calibrator.mkNetworkTopology "HUB1" 3 (Fin 12) (Fin 4) (pc_const (Fin 9000))
      (pc_const (Fin 900)) (pc_const (Fin 600)) (pc_const (Fin 10)) in
  let config := Calibrator.calculateEconomyLoadFactor economics topology in
  let initial :=
    Calibrator.mkDatasetCharacteristics topology economics config (pc_const (Fin 100))
      (Calibrator.mkDestinationBuffers (Fin 1) (Fin 0.7) (Fin 0.8) (Fin 0.85))
      (pc_const (Fin 0.5)) (Fin 1) [] in
  exists b c v,
    Calibrator.baseline config = Fin b
    /\ getCumulativeAdjustment
         (runtimeRun (new initial) [Suggest (Fin 3000000) (Fin 0) 4]) = Fin c
    /\ getCurrentEconomyLoadFactor
         (runtimeRun (new initial) [Suggest (Fin 3000000) (Fin 0) 4]) = Fin v
    /\ (v == Qmax 0.50 (Qmin 0.90 (b + c)))%Q
    /\ (0.50 <= v <= 0.90)%Q
    /\ (Qabs (v - b) <= 0.10)%Q.
Proof.
  intros economics topology config initial.
  apply (getCurrentEconomyLoadFactor_range initial economics topology
           [Suggest (Fin 3000000) (Fin 0) 4]); [reflexivity|reflexivity|exact I].
Defined.

(** X13: the controller of [RuntimeCalibrator] and the one of
    [AdaptiveEngine] agree. Started from the same cumulative economy
    adjustment and given the engine's economy unfulfilled cost and total
    overflow cost, on a day other than the engine's last adjustment day,
    both end with the same cumulative adjustment, which from day 3 on is
    what the engine returns; before day 3 both return 0. *)
Theorem runtime_and_adaptive_controllers_agree
    (e : Adaptive.AdaptiveEngine) (r : RuntimeCalibrator) (currentDay : Z) :
  economy (Adaptive.loadFactorAdjustments e) = cumulativeAdjustment r ->
  currentDay <> Adaptive.lastAdjustmentDay e ->
  let engine := Adaptive.suggestLoadFactorAdjustment e currentDay in
  let runtime :=
    suggestLoadFactorAdjustment r
      (Adaptive.unfulfilledCost (c_economy (Adaptive.classPenaltyStats e)))
      (Adaptive.getTotalOverflowCost e) currentDay in
  economy (Adaptive.loadFactorAdjustments (snd engine))
  = cumulativeAdjustment (snd runtime)
  /\ (3 <= currentDay -> fst engine = cumulativeAdjustment (snd runtime))
  /\ (currentDay < 3 -> fst engine = Fin 0 /\ fst runtime = Fin 0).
Proof.
  intros Hcum Hday.
  unfold Adaptive.suggestLoadFactorAdjustment, suggestLoadFactorAdjustment.
  destruct (Z.ltb_spec currentDay 3) as [Hlt|Hge].
  { cbn [fst snd]. split; [exact Hcum|]. split; [lia|]. intros _. split; reflexivity. }
  destruct (Z.eqb_spec currentDay (Adaptive.lastAdjustmentDay e)) as [Heq|_];
    [contradiction|].
  rewrite Hcum.
  unfold Adaptive.MAX_TOTAL_ADJUSTMENT, Adaptive.MAX_DAILY_ADJUSTMENT,
    Adaptive.UNFULFILLED_THRESHOLD, Adaptive.OVERFLOW_THRESHOLD,
    MAX_TOTAL_ADJUSTMENT, MAX_DAILY_ADJUSTMENT.
  change (Fin 10000 * Fin 5)%js with (Fin 50000).
  cbv zeta.
  destruct (Math_abs (cumulativeAdjustment r) >=? Fin 0.10).
  { cbn [fst snd]. split; [exact Hcum|]. split; [|intros; lia]. reflexivity. }
  assert (Hsolve :
            forall adj : num,
              adj = Math_max (neg (Fin 0.02)) (Math_min (Fin 0.02) adj) ->
              let engine :=
                (let adjustment :=
                   if (cumulativeAdjustment r + adj >? Fin 0.10)
                   then Fin 0.10 - cumulativeAdjustment r
                   else if (cumulativeAdjustment r + adj <? neg (Fin 0.10))
                        then neg (Fin 0.10) - cumulativeAdjustment r
                        else adj in
                 let this :=
                   if negb (adjustment === Fin 0)
                   then Adaptive.setEconomyAdjustment e
                          (cumulativeAdjustment r + adjustment) currentDay
                   else e in
                 (economy (Adaptive.loadFactorAdjustments this), this)) in
              let runtime :=
                (let adjustment := Math_max (neg (Fin 0.02)) (Math_min (Fin 0.02) adj) in
                 let adjustment :=
                   if (cumulativeAdjustment r + adjustment >? Fin 0.10)
                   then Fin 0.10 - cumulativeAdjustment r
                   else if (cumulativeAdjustment r + adjustment <? neg (Fin 0.10))
                        then neg (Fin 0.10) - cumulativeAdjustment r
                        else adjustment in
                 let this :=
                   if negb (adjustment === Fin 0)
                   then {| initialCharacteristics := initialCharacteristics r;
                           observedDemand := observedDemand r;
                           adjustmentHistory := adjustmentHistory r ++ [adjustment];
                           cumulativeAdjustment := cumulativeAdjustment r + adjustment |}
                   else r in
                 (adjustment, this)) in
              economy (Adaptive.loadFactorAdjustments (snd engine))
              = cumulativeAdjustment (snd runtime)
              /\ (3 <= currentDay -> fst engine = cumulativeAdjustment (snd runtime))
              /\ (currentDay < 3 -> fst engine = Fin 0 /\ fst runtime = Fin 0)).
  { intros adj <-. cbv zeta.
    repeat match goal with
           | |- context [if ?b then _ else _] => destruct b
           end;
      cbn [negb fst snd cumulativeAdjustment];
      rewrite ?AdaptiveFacts.economy_setEconomyAdjustment, ?Hcum;
      (split; [reflexivity|]; split; [reflexivity|intros; lia]). }
  match goal with
  | |- context [if ?b then Fin 0.02 else _] => destruct b
  end.
  - apply (Hsolve (Fin 0.02)). reflexivity.
  - match goal with
    | |- context [if ?b then neg (Fin 0.02) else _] => destruct b
    end.
    + apply (Hsolve (neg (Fin 0.02))). reflexivity.
    + apply (Hsolve (Fin 0)). reflexivity.
Qed.

Lemma runtime_and_adaptive_controllers_agree_witness :
  let shortfall :=
    Adaptive.mkPenalty "FLIGHT_UNFULFILLED" (Fin 3000000)
      "Airport SPK1: Economy kits missing" in
  let e := Adaptive.run Adaptive.new [Adaptive.CallRecordPenalties [shortfall] 4 1] in
  let r :=
    new (Calibrator.mkDatasetCharacteristics
           (Calibrator.mkNetworkTopology "HUB1" 0 (Fin 0) (Fin 0) (pc_const (Fin 0))
              (pc_const (Fin 0)) (pc_const (Fin 0)) (pc_const (Fin 0)))
           (Calibrator.mkRouteEconomics (Fin 0) (Fin 0) (Fin 0) (Fin 0) (Fin 0)
              (Fin 0) (Fin 0))
           (Calibrator.mkEconomyLoadFactorConfig (Fin 0.7) (Fin 0.5) (Fin 0.7)
              (Fin 0.5) (Fin 0.8))
           (pc_const (Fin 100))
           (Calibrator.mkDestinationBuffers (Fin 1) (Fin 0.7) (Fin 0.8) (Fin 0.85))
           (pc_const (Fin 0.5)) (Fin 1) []) in
  let engine := Adaptive.suggestLoadFactorAdjustment e 5 in
  let runtime :=
    suggestLoadFactorAdjustment r
      (Adaptive.unfulfilledCost (c_economy (Adaptive.classPenaltyStats e)))
      (Adaptive.getTotalOverflowCost e) 5 in
  (economy (Adaptive.loadFactorAdjustments (snd engine))
   = cumulativeAdjustment (snd runtime)
   /\ (3 <= 5 -> fst engine = cumulativeAdjustment (snd runtime))
   /\ (5 < 3 -> fst engine = Fin 0 /\ fst runtime = Fin 0))
  /\ Adaptive.unfulfilledCost (c_economy (Adaptive.classPenaltyStats e)) ≈ Fin 3000000
  /\ fst runtime ≈ Fin 0.02
  /\ fst engine ≈ Fin 0.02.
Proof.
  intros shortfall e r engine runtime. split.
  - apply (runtime_and_adaptive_controllers_agree e r 5); [reflexivity|cbn; lia].
  - vm_compute. repeat split; reflexivity.
Defined.

End RuntimeFacts.
(* ===================================================================== *)
(** ** AdaptiveEngine: windows, buffers, hot airports and reasons         *)
(* ===================================================================== *)

Module AdaptiveMore.

Import Adaptive AdaptiveSpec AdaptiveMoreSpec JSFacts.
Local Open Scope string_scope.
Local Open Scope list_scope.

Lemma trimTo_length {A : Type} (n : nat) (arr : list A) :
  length (trimTo n arr) = Nat.min n (length arr).
Proof. unfold trimTo. rewrite length_drop. lia. Qed.

Lemma fold_recordOne_fields day hour ps acc :
  let e := snd (fold_left (recordOne day hour) ps acc) in
  length (penaltyHistory e) = (length (penaltyHistory (snd acc)) + length ps)%nat
  /\ roundPenalties e = roundPenalties (snd acc)
  /\ strategyMode e = strategyMode (snd acc)
  /\ bufferMultiplier e = bufferMultiplier (snd acc)
  /\ economyBufferBoost e = economyBufferBoost (snd acc).
Proof.
  revert acc. induction ps as [|p ps IH]; intros acc.
  - cbn. repeat split; lia.
  - cbn [fold_left]. destruct (IH (recordOne day hour acc p)) as (H1 & H2 & H3 & H4 & H5).
    cbv zeta. rewrite H1, H2, H3, H4, H5. destruct acc as [total e0].
    unfold recordOne. destruct (parseReason (reason p)) as [airport cls].
    cbn [snd penaltyHistory roundPenalties strategyMode bufferMultiplier
           economyBufferBoost length].
    rewrite length_app. cbn [length]. repeat split; lia.
Qed.

Lemma recordPenalties_fields e ps day hour :
  let e' := recordPenalties e ps day hour in
  length (penaltyHistory e')
  = Nat.min (HISTORY_WINDOW * 24) (length (penaltyHistory e) + length ps)
  /\ length (roundPenalties e') = Nat.min TREND_WINDOW (S (length (roundPenalties e)))
  /\ strategyMode e' = strategyMode e
  /\ bufferMultiplier e' = bufferMultiplier e
  /\ economyBufferBoost e' = economyBufferBoost e.
Proof.
  unfold recordPenalties.
  pose proof (fold_recordOne_fields day hour ps (Fin 0, e)) as H. cbv zeta in H.
  destruct (fold_left (recordOne day hour) ps (Fin 0, e)) as [total e1].
  cbn [snd] in H. destruct H as (H1 & H2 & H3 & H4 & H5).
  cbn [penaltyHistory roundPenalties strategyMode bufferMultiplier economyBufferBoost].
  rewrite !trimTo_length, length_app, H1, H2. cbn [length].
  repeat split; try assumption; lia.
Qed.

Lemma suggest_fields e d :
  let e' := snd (suggestLoadFactorAdjustment e d) in
  penaltyHistory e' = penaltyHistory e
  /\ roundPenalties e' = roundPenalties e
  /\ strategyMode e' = strategyMode e
  /\ bufferMultiplier e' = bufferMultiplier e
  /\ economyBufferBoost e' = economyBufferBoost e
  /\ airportPerformance e' = airportPerformance e.
Proof.
  unfold suggestLoadFactorAdjustment.
  repeat match goal with
         | |- context [if ?b then _ else _] => destruct b
         end; cbn; repeat split; reflexivity.
Qed.

Lemma run_snoc e calls c : run e (calls ++ [c]) = fst (step (run e calls) c).
Proof. unfold run. rewrite fold_left_app. reflexivity. Qed.

(** X15: the two rolling windows are bounded. After any sequence of calls
    on a new engine the penalty history holds one record per penalty
    passed to [recordPenalties], 1728 at most, and [roundPenalties] holds
    one total per [recordPenalties] call, 72 at most. *)
Theorem rolling_windows_bounded (calls : list Call) :
  let e := run new calls in
  length (penaltyHistory e) = Nat.min 1728 (recordedPenalties calls)
  /\ length (roundPenalties e) = Nat.min 72 (recordCalls calls).
Proof.
  induction calls as [|c calls IH] using rev_ind.
  - cbn. repeat split; lia.
  - cbv zeta in IH |- *. rewrite run_snoc. destruct IH as (H1 & H3).
    unfold recordedPenalties, recordCalls in *.
    rewrite List.filter_app, length_app, List.map_app, list_sum_app.
    destruct c as [ps day hour|d].
    + cbn [step fst].
      destruct (recordPenalties_fields (run new calls) ps day hour)
        as (F1 & F2 & _).
      rewrite F1, F2, H1, H3. unfold HISTORY_WINDOW, TREND_WINDOW.
      cbn [List.filter length map list_sum fold_right]. repeat split; lia.
    + unfold step.
      destruct (suggest_fields (run new calls) d) as (F1 & F2 & _).
      destruct (suggestLoadFactorAdjustment (run new calls) d) as [v e'].
      cbn [fst snd] in *. rewrite F1, F2, H1, H3.
      cbn [List.filter length map list_sum fold_right]. repeat split; lia.
Qed.

Lemma run_strategy (calls : list Call) :
  strategyMode (run new calls) = balanced
  /\ bufferMultiplier (run new calls) = Fin 1.0
  /\ economyBufferBoost (run new calls) = Fin 0.
Proof.
  induction calls as [|c calls IH] using rev_ind.
  - repeat split; reflexivity.
  - rewrite run_snoc. destruct IH as (H1 & H2 & H3). destruct c as [ps day hour|d].
    + cbn [step fst].
      destruct (recordPenalties_fields (run new calls) ps day hour)
        as (_ & _ & F3 & F4 & F5).
      rewrite F3, F4, F5. auto.
    + unfold step.
      destruct (suggest_fields (run new calls) d) as (_ & _ & F3 & F4 & F5 & _).
      destruct (suggestLoadFactorAdjustment (run new calls) d) as [v e'].
      cbn [fst snd] in *. rewrite F3, F4, F5. auto.
Qed.

Lemma run_scores_in_range (calls : list Call) :
  map_Forall (fun _ perf => scoreInRange perf) (airportPerformance (run new calls)).
Proof.
  induction calls as [|c calls IH] using rev_ind.
  - apply map_Forall_empty.
  - rewrite run_snoc. destruct c as [ps day hour|d].
    + cbn [step fst]. rewrite AdaptiveFacts.recordPenalties_perf.
      apply AdaptiveFacts.fold_recordOne_range. exact IH.
    + rewrite AdaptiveFacts.step_perf_suggest. exact IH.
Qed.

Lemma clampBuffer_spec (q : Q) :
  ((q <= 0.5)%Q /\ clampBuffer q == 0.5)
  \/ ((0.5 <= q <= 0.95)%Q /\ clampBuffer q == q)
  \/ ((0.95 <= q)%Q /\ clampBuffer q == 0.95).
Proof.
  unfold clampBuffer.
  destruct (Q.min_spec 0.95 q) as [[Hm1 Hm2]|[Hm1 Hm2]];
    destruct (Q.max_spec 0.5 (Qmin 0.95 q)) as [[Hx1 Hx2]|[Hx1 Hx2]];
    revert Hm1 Hm2 Hx1 Hx2;
    generalize (Qmax 0.5 (Qmin 0.95 q)); generalize (Qmin 0.95 q); intros m M; intros;
    first [ left; split; lra | right; left; split; lra | right; right; split; lra ].
Qed.

(** X16: mode switching is off, so after any sequence of calls on a new
    engine the strategy is [balanced] and [getBufferPercent] of a finite
    base buffer is the base clamped to [0.50, 0.95], lowered by the risk
    discount of the destination, which is at most 0.03 and is zero for
    an airport whose risk score is not above 0.7. *)
Theorem getBufferPercent_range (calls : list Call) (destinationAirport : string)
    (kitClass : KitClass) (baseBuffer : Q) :
  let e := run new calls in
  getStrategyMode e = balanced
  /\ exists v,
       getBufferPercent e destinationAirport kitClass (Fin baseBuffer) = Fin v
       /\ (0.5 <= v <= 0.95)%Q
       /\ (clampBuffer (baseBuffer - 0.03) <= v <= clampBuffer baseBuffer)%Q
       /\ ((getAirportRiskScore e destinationAirport >? Fin 0.7)%js = false ->
           (v == clampBuffer baseBuffer)%Q).
Proof.
  intros e. destruct (run_strategy calls) as (Hmode & Hmul & Hboost).
  split; [exact Hmode|].
  pose proof (run_scores_in_range calls) as Hscores. fold e in Hmul, Hboost, Hscores.
  unfold getBufferPercent, getAirportRiskScore. rewrite Hmul, Hboost.
  assert (Hbase : exists b,
             (b == baseBuffer)%Q
             /\ (if decide (kitClass = K_economy)
                 then (Fin baseBuffer * Fin 1.0 - Fin 0)%js
                 else (Fin baseBuffer * Fin 1.0)%js) = Fin b).
  { destruct (decide (kitClass = K_economy)); eexists; (split; [|reflexivity]); lra. }
  cbv zeta. destruct Hbase as (b & Hb & ->).
  destruct (clampBuffer_spec baseBuffer) as [[C1 C2]|[[C1 C2]|[C1 C2]]];
    destruct (clampBuffer_spec (baseBuffer - 0.03)) as [[D1 D2]|[[D1 D2]|[D1 D2]]];
    revert C2 D2;
    generalize (clampBuffer baseBuffer); generalize (clampBuffer (baseBuffer - 0.03));
    intros lo hi C2 D2;
    try (exfalso; lra);
    (destruct (airportPerformance e !! destinationAirport) as [perf|] eqn:Hperf;
     [ destruct (Hscores _ _ Hperf) as (q & -> & Hq) | ];
     cbn [gt lt sub add neg mul Math_max Math_min le]; unfold Qltb, Qleb;
     repeat match goal with
            | |- context [Qcompare ?x ?y] =>
                destruct (Qcompare_spec x y);
                cbn [gt lt sub add neg mul Math_max Math_min le]; unfold Qltb, Qleb
            end;
     try (exfalso; lra);
     (eexists; split; [reflexivity|]; split; [lra|]; split; [lra|];
      intros Hrisk; first [discriminate Hrisk | lra])).
Qed.

(** *** Reasons *)

Lemma matchAirport_unfold (reason : string) :
  Str.matchAirport reason
  = match
      (if Str.startsWith "Airport " reason
       then match Str.takeWord (Str.dropChars 8 reason) with
            | EmptyString => None
            | w => Some w
            end
       else None)
    with
    | Some w => Some w
    | None =>
        match reason with
        | EmptyString => None
        | String _ rest => Str.matchAirport rest
        end
    end.
Proof. destruct reason; reflexivity. Qed.

Lemma takeWord_wordChars (s : string) : wordChars (Str.takeWord s) = true.
Proof.
  induction s as [|c s IH]; [reflexivity|]. cbn [Str.takeWord].
  destruct (Str.isWordChar c) eqn:E; [|reflexivity]. cbn [wordChars]. rewrite E. exact IH.
Qed.

Lemma startsWith_takeWord (s : string) : Str.startsWith (Str.takeWord s) s = true.
Proof.
  induction s as [|c s IH]; [reflexivity|]. cbn [Str.takeWord].
  destruct (Str.isWordChar c); [|reflexivity]. cbn [Str.startsWith].
  rewrite Ascii.eqb_refl. exact IH.
Qed.

Lemma startsWith_app (p w s : string) :
  Str.startsWith p s = true ->
  Str.startsWith w (Str.dropChars (String.length p) s) = true ->
  Str.startsWith (p +:+ w) s = true.
Proof.
  revert s. induction p as [|a p IH]; intros s Hp Hw; [exact Hw|].
  destruct s as [|b s]; [discriminate Hp|]. change (String a p +:+ w) with (String a (p +:+ w)).
  cbn [Str.startsWith Str.dropChars String.length] in *.
  destruct (Ascii.eqb a b); [|discriminate Hp]. apply IH; assumption.
Qed.

Lemma includes_here (s sub : string) :
  Str.startsWith sub s = true -> Str.includes s sub = true.
Proof. intros H. destruct s; cbn [Str.includes]; rewrite H; reflexivity. Qed.

Lemma includes_later (c : ascii) (s sub : string) :
  Str.includes s sub = true -> Str.includes (String c s) sub = true.
Proof. intros H. cbn [Str.includes]. rewrite H. apply orb_true_r. Qed.

(** X17: an airport code that [parseReason] extracts is never empty, is
    made of word characters only, and stands in the reason right after
    the text "Airport ". *)
Theorem parseReason_airport_sound (reason w : string) :
  fst (parseReason reason) = Some w ->
  w <> EmptyString
  /\ wordChars w = true
  /\ Str.includes reason ("Airport " +:+ w) = true.
Proof.
  unfold parseReason. cbn [fst]. induction reason as [|c rest IH].
  - rewrite matchAirport_unfold. cbn. discriminate.
  - rewrite matchAirport_unfold.
    destruct (Str.startsWith "Airport " (String c rest)) eqn:Hstart.
    + destruct (Str.takeWord (Str.dropChars 8 (String c rest))) as [|a w'] eqn:Hword.
      * intros H. destruct (IH H) as (H1 & H2 & H3).
        split; [exact H1|]. split; [exact H2|]. apply includes_later, H3.
      * intros H. injection H as <-. split; [discriminate|].
        split; [rewrite <- Hword; apply takeWord_wordChars|].
        apply includes_here, startsWith_app; [exact Hstart|].
        rewrite <- Hword. apply startsWith_takeWord.
    + intros H. destruct (IH H) as (H1 & H2 & H3).
      split; [exact H1|]. split; [exact H2|]. apply includes_later, H3.
Qed.

Lemma parseReason_airport_sound_witness :
  fst (parseReason "Flight AB12: Airport SPK7 over capacity (Economy)") = Some "SPK7"
  /\ Str.includes "Flight AB12: Airport SPK7 over capacity (Economy)" "Airport SPK7"
     = true.
Proof.
  split; [reflexivity|].
  apply (parseReason_airport_sound
           "Flight AB12: Airport SPK7 over capacity (Economy)" "SPK7" eq_refl).
Defined.

Lemma matchAirport_nonempty (reason : string) :
  Str.matchAirport reason <> Some EmptyString.
Proof.
  induction reason as [|c rest IH]; rewrite matchAirport_unfold.
  - cbn. discriminate.
  - destruct (Str.startsWith "Airport " (String c rest)); [|exact IH].
    destruct (Str.takeWord (Str.dropChars 8 (String c rest))); [exact IH|discriminate].
Qed.

Lemma append_cons (c : ascii) (s t : string) : String c s +:+ t = String c (s +:+ t).
Proof. reflexivity. Qed.

Lemma takeWord_app (w rest : string) :
  wordChars w = true -> endsWord rest = true -> Str.takeWord (w +:+ rest) = w.
Proof.
  intros Hw Hr. induction w as [|c w IH].
  - destruct rest as [|c rest]; [reflexivity|]. cbn [endsWord] in Hr.
    change (EmptyString +:+ String c rest) with (String c rest). cbn [Str.takeWord].
    destruct (Str.isWordChar c); [discriminate Hr|reflexivity].
  - cbn [wordChars] in Hw. apply andb_true_iff in Hw as [Hc Hw].
    rewrite append_cons. cbn [Str.takeWord]. rewrite Hc, (IH Hw). reflexivity.
Qed.

Lemma startsWith_prefix (p s : string) : Str.startsWith p (p +:+ s) = true.
Proof.
  induction p as [|a p IH]; [reflexivity|]. rewrite append_cons.
  cbn [Str.startsWith]. rewrite Ascii.eqb_refl. exact IH.
Qed.

Lemma dropChars_prefix (p s : string) : Str.dropChars (String.length p) (p +:+ s) = s.
Proof.
  induction p as [|a p IH]; [destruct s; reflexivity|]. rewrite append_cons. exact IH.
Qed.

(** A pattern without the character [c] that does not match at the start
    of [b] does not match either once a text beginning with [c] follows. *)
Lemma startsWith_no_overlap (c : ascii) (pat b rest : string) :
  lacksChar c pat = true -> Str.startsWith pat b = false ->
  Str.startsWith pat (b +:+ String c rest) = false.
Proof.
  revert b. induction pat as [|a pat IH]; intros b Hpat Hb; [discriminate Hb|].
  cbn [lacksChar] in Hpat. apply andb_true_iff in Hpat as [Ha Hpat].
  destruct b as [|x b].
  - change (EmptyString +:+ String c rest) with (String c rest). cbn [Str.startsWith].
    destruct (Ascii.eqb a c); [discriminate Ha|reflexivity].
  - rewrite append_cons. cbn [Str.startsWith] in Hb |- *.
    destruct (Ascii.eqb a x); [|reflexivity]. apply IH; assumption.
Qed.

(** X18: a reason that names an airport yields it. When the text
    "Airport " does not occur before, the code that follows it, a
    non-empty run of word characters ended by another character or by
    the end of the reason, is what [parseReason] extracts. *)
Theorem parseReason_airport_round_trip (before w rest : string) :
  Str.includes before "Airport " = false ->
  w <> EmptyString -> wordChars w = true -> endsWord rest = true ->
  fst (parseReason (before +:+ "Airport " +:+ w +:+ rest)) = Some w.
Proof.
  intros Hbefore Hne Hw Hrest. unfold parseReason. cbn [fst].
  induction before as [|c before IH].
  - change (EmptyString +:+ "Airport " +:+ w +:+ rest) with ("Airport " +:+ w +:+ rest).
    rewrite matchAirport_unfold, startsWith_prefix.
    change 8%nat with (String.length "Airport "). rewrite dropChars_prefix.
    rewrite takeWord_app by assumption. destruct w; [contradiction|reflexivity].
  - cbn [Str.includes] in Hbefore. apply orb_false_iff in Hbefore as [Hhere Hlater].
    rewrite append_cons, matchAirport_unfold, <- append_cons.
    assert (Hno : Str.startsWith "Airport " (String c before +:+ "Airport " +:+ w +:+ rest)
                  = false).
    { rewrite append_cons.
      change (Str.startsWith "Airport " (String c before))
        with (if Ascii.eqb "A" c then Str.startsWith "irport " before else false)
        in Hhere.
      change (Str.startsWith "Airport "
                (String c (before +:+ "Airport " +:+ w +:+ rest)))
        with (if Ascii.eqb "A" c
              then Str.startsWith "irport " (before +:+ "Airport " +:+ w +:+ rest)
              else false).
      destruct (Ascii.eqb "A" c); [|reflexivity].
      change ("Airport " +:+ w +:+ rest) with (String "A" ("irport " +:+ w +:+ rest)).
      apply startsWith_no_overlap; [reflexivity|exact Hhere]. }
    rewrite Hno, append_cons. apply IH, Hlater.
Qed.

Lemma parseReason_airport_round_trip_witness :
  fst (parseReason ("Flight AB12 at " +:+ "Airport " +:+ "SPK7" +:+ ": Economy overflow"))
  = Some "SPK7".
Proof.
  apply (parseReason_airport_round_trip "Flight AB12 at " "SPK7" ": Economy overflow");
    [reflexivity|discriminate|reflexivity|reflexivity].
Defined.

Lemma matchClass_unfold (reason : string) :
  Str.matchClass reason
  = match
      (if Str.startsWithCI "First" reason then Some K_first
       else if Str.startsWithCI "Business" reason then Some K_business
       else if Str.startsWithCI "Premium Economy" reason then Some K_premiumEconomy
       else if Str.startsWithCI "Economy" reason then Some K_economy
       else None)
    with
    | Some k => Some k
    | None =>
        match reason with
        | EmptyString => None
        | String _ rest => Str.matchClass rest
        end
    end.
Proof. destruct reason; reflexivity. Qed.

Lemma toLower_toLower (c : ascii) : Str.toLower (Str.toLower c) = Str.toLower c.
Proof.
  destruct c as [[] [] [] [] [] [] [] []]; vm_compute; reflexivity.
Qed.

Lemma toLower_toUpper (c : ascii) : Str.toLower (toUpper c) = Str.toLower c.
Proof.
  destruct c as [[] [] [] [] [] [] [] []]; vm_compute; reflexivity.
Qed.

Lemma startsWithCI_mapChars (f : ascii -> ascii) (p s : string) :
  (forall c, Str.toLower (f c) = Str.toLower c) ->
  Str.startsWithCI p (mapChars f s) = Str.startsWithCI p s.
Proof.
  intros Hf. revert s. induction p as [|a p IH]; intros s; [reflexivity|].
  destruct s as [|b s]; [reflexivity|]. cbn [mapChars Str.startsWithCI].
  rewrite Hf, IH. reflexivity.
Qed.

Lemma matchClass_mapChars (f : ascii -> ascii) (s : string) :
  (forall c, Str.toLower (f c) = Str.toLower c) ->
  Str.matchClass (mapChars f s) = Str.matchClass s.
Proof.
  intros Hf. induction s as [|c s IH]; [reflexivity|].
  rewrite (matchClass_unfold (String c s)), matchClass_unfold.
  rewrite !startsWithCI_mapChars by exact Hf.
  cbn [mapChars]. rewrite IH. reflexivity.
Qed.

(** X20: the kit class [parseReason] finds in a reason does not depend on
    the case of its letters: the reason in lower case, or in upper case,
    yields the same class. *)
Theorem parseReason_class_case_insensitive (reason : string) :
  snd (parseReason (lowerCase reason)) = snd (parseReason reason)
  /\ snd (parseReason (upperCase reason)) = snd (parseReason reason).
Proof.
  unfold parseReason, lowerCase, upperCase. cbn [snd].
  split; apply matchClass_mapChars; [apply toLower_toLower|apply toLower_toUpper].
Qed.

(** *** Hot airports *)

Lemma recordOne_counts day hour acc p (airport : string) (days : list Z) :
  countsOverflows (airportPerformance (snd acc)) airport days ->
  countsOverflows (airportPerformance (snd (recordOne day hour acc p))) airport
    (days ++ (if overflowAt airport p then [day] else [])).
Proof.
  intros H. rewrite AdaptiveFacts.recordOne_perf. unfold overflowAt, parseReason.
  cbn [fst]. pose proof (matchAirport_nonempty (reason p)) as Hne.
  destruct (Str.matchAirport (reason p)) as [c|].
  - destruct (decide (c = EmptyString)) as [->|_]; [contradiction|].
    unfold updateAirportPerformance, countsOverflows in *.
    destruct (decide (c = airport)) as [->|Hc].
    + rewrite lookup_insert_eq, bool_decide_eq_true_2 by reflexivity.
      destruct (airportPerformance (snd acc) !! airport) as [perf|].
      * destruct H as [H1 H2]. unfold updatePerf. cbn [type Adaptive.day].
        destruct (classifyPenalty (code p));
          cbn [overflowCount lastOverflowDay]; rewrite ?app_nil_r, ?length_app, ?last_last;
          cbn [length]; split; first [assumption|lia|reflexivity].
      * subst days. unfold updatePerf. cbn [type Adaptive.day].
        destruct (classifyPenalty (code p)); cbn; split; reflexivity.
    + rewrite lookup_insert_ne by exact Hc.
      rewrite bool_decide_eq_false_2 by exact Hc.
      destruct (classifyPenalty (code p)); rewrite app_nil_r; exact H.
  - destruct (classifyPenalty (code p)); rewrite app_nil_r; exact H.
Qed.

Lemma fold_recordOne_counts day hour ps acc (airport : string) (days : list Z) :
  countsOverflows (airportPerformance (snd acc)) airport days ->
  countsOverflows
    (airportPerformance (snd (fold_left (recordOne day hour) ps acc))) airport
    (days ++ map (fun _ => day) (List.filter (overflowAt airport) ps)).
Proof.
  revert acc days. induction ps as [|p ps IH]; intros acc days H.
  - cbn. rewrite app_nil_r. exact H.
  - cbn [fold_left List.filter].
    pose proof (IH _ _ (recordOne_counts day hour acc p airport days H)) as H'.
    rewrite <- app_assoc in H'.
    destruct (overflowAt airport p); exact H'.
Qed.

Lemma run_counts (calls : list Call) (airport : string) :
  countsOverflows (airportPerformance (run new calls)) airport
    (overflowDays airport calls).
Proof.
  induction calls as [|c calls IH] using rev_ind.
  - reflexivity.
  - rewrite run_snoc. unfold overflowDays. rewrite flat_map_app. cbn [flat_map].
    rewrite app_nil_r. fold (overflowDays airport calls).
    destruct c as [ps day hour|d].
    + cbn [step fst]. rewrite AdaptiveFacts.recordPenalties_perf.
      apply (fold_recordOne_counts day hour ps (Fin 0, run new calls)). exact IH.
    + rewrite AdaptiveFacts.step_perf_suggest, app_nil_r. exact IH.
Qed.

(** X19: after any sequence of calls on a new engine, an airport is hot
    on a day exactly when more than 3 overflow penalties naming it were
    recorded and the last of them was recorded for a day no more than 2
    days back. *)
Theorem isHotAirport_overflow_history (calls : list Call) (airportCode : string)
    (currentDay : Z) :
  isHotAirport (run new calls) airportCode currentDay
  = (List.last (overflowDays airportCode calls) (-1) >=? currentDay - 2)%Z
    && (3 <? length (overflowDays airportCode calls))%nat.
Proof.
  pose proof (run_counts calls airportCode) as H.
  unfold isHotAirport, countsOverflows in *.
  destruct (airportPerformance (run new calls) !! airportCode) as [perf|].
  - destruct H as [-> ->]. reflexivity.
  - rewrite H. cbn. rewrite andb_false_r. reflexivity.
Qed.

End AdaptiveMore.
(* ===================================================================== *)
(** ** Purchase configuration                                             *)
(* ===================================================================== *)

Module EngineTypesFacts.

Import EngineTypes EngineTypesSpec JSFacts.

#[local] Arguments Qfloor : simpl never.

(** The floor of a number is at least an integer below that number. *)
Lemma floor_at_least (m : Z) (x : Q) :
  (inject_Z m <= x)%Q -> (inject_Z m <= inject_Z (Qfloor x))%Q.
Proof.
  intros H. rewrite <- Zle_Qle. rewrite <- (Qfloor_Z m). apply Qfloor_resp_le, H.
Qed.

Lemma floor_monotone (x y : Q) :
  (x <= y)%Q -> (inject_Z (Qfloor x) <= inject_Z (Qfloor y))%Q.
Proof. intros H. rewrite <- Zle_Qle. apply Qfloor_resp_le, H. Qed.

(** One class of [calculateDynamicPurchaseConfig]: emergency threshold
    [max(m, floor x1)], threshold [floor x2], order limit
    [max(_, floor x3)]. *)
Ltac ordered_class m mq x1 x2 x3 :=
  unfold of_Z;
  pose proof (Qfloor_le x1) as L1;
  pose proof (Qfloor_le x2) as L2;
  pose proof (Qfloor_le x3) as L3;
  assert (A : (x2 < mq \/ mq <= inject_Z (Qfloor x2))%Q)
    by (destruct (Qlt_le_dec x2 mq) as [Hlt|Hge];
        [left; exact Hlt|right; exact (floor_at_least m x2 Hge)]);
  assert (M : (x2 < x1 \/ inject_Z (Qfloor x1) <= inject_Z (Qfloor x2))%Q)
    by (destruct (Qlt_le_dec x2 x1) as [Hlt|Hge];
        [left; exact Hlt|right; exact (floor_monotone x1 x2 Hge)]);
  revert L1 L2 L3 A M;
  generalize (inject_Z (Qfloor x1)); intros F1;
  generalize (inject_Z (Qfloor x2)); intros F2;
  generalize (inject_Z (Qfloor x3)); intros F3;
  intros L1 L2 L3 [A|A] [M|M];
  (split; [intros Hc|intros Hc]; cbn [lt le]; unfold Qltb, Qleb;
   repeat match goal with
          | |- context [Qcompare ?a ?b] =>
              destruct (Qcompare_spec a b); cbn [lt le]; unfold Qltb, Qleb
          end;
   try (exfalso; lra); repeat split; reflexivity).

(** X21: the purchase thresholds are ordered for a hub that is large
    enough, and only then.  For a finite hub capacity [c] of a class at
    or above the minimum capacity of the class (500, 607, 125 and 1429),
    the emergency threshold is at most the regular threshold, which is
    at most [c], and one order never exceeds the total purchase limit;
    for [c] at most the minimum capacity less 1 the regular threshold is
    below the emergency threshold.  The comparisons are the source's
    own; capacities strictly between the two bounds are left out, the
    rounding of [c * 0.70] deciding there. *)
Theorem calculateDynamicPurchaseConfig_ordered (hubCapacity : PerClassAmount)
    (k : KitClass) (c : Q) :
  pc_get hubCapacity k = Fin c ->
  let config := calculateDynamicPurchaseConfig hubCapacity in
  ((minimumCapacity k <= c)%Q ->
   (pc_get (emergencyThresholds config) k <=? pc_get (thresholds config) k)%js = true
   /\ (pc_get (thresholds config) k <=? Fin c)%js = true
   /\ (pc_get (maxPerOrder config) k <=? pc_get (maxTotalPurchase config) k)%js = true)
  /\ ((c <= minimumCapacity k - 1)%Q ->
      (pc_get (thresholds config) k <? pc_get (emergencyThresholds config) k)%js = true).
Proof.
  intros Hc config. destruct hubCapacity as [c1 c2 c3 c4].
  destruct k; cbn [pc_get first business premiumEconomy economy] in Hc; subst;
    unfold config, calculateDynamicPurchaseConfig;
    cbn [pc_get emergencyThresholds thresholds maxPerOrder maxTotalPurchase
           first business premiumEconomy economy mul Math_floor of_Z Math_max le
           minimumCapacity];
    unfold Qleb.
  - ordered_class 50%Z 50%Q (c * 0.02)%Q (c * 0.10)%Q (c * 0.05)%Q.
  - ordered_class 200%Z 200%Q (c * 0.03)%Q (c * 0.33)%Q (c * 0.15)%Q.
  - ordered_class 50%Z 50%Q (c * 0.02)%Q (c * 0.40)%Q (c * 0.10)%Q.
  - ordered_class 1000%Z 1000%Q (c * 0.05)%Q (c * 0.70)%Q (c * 0.15)%Q.
Qed.

Lemma calculateDynamicPurchaseConfig_ordered_witness :
  let large := mkPerClass (Fin 1000) (Fin 3000) (Fin 1500) (Fin 20000) in
  let small := mkPerClass (Fin 90) (Fin 90) (Fin 90) (Fin 90) in
  ((pc_get (emergencyThresholds (calculateDynamicPurchaseConfig large)) K_economy
    <=? pc_get (thresholds (calculateDynamicPurchaseConfig large)) K_economy)%js = true
   /\ (pc_get (thresholds (calculateDynamicPurchaseConfig large)) K_economy
       <=? Fin 20000)%js = true
   /\ (pc_get (maxPerOrder (calculateDynamicPurchaseConfig large)) K_economy
       <=? pc_get (maxTotalPurchase (calculateDynamicPurchaseConfig large)) K_economy)%js
      = true)
  /\ (pc_get (thresholds (calculateDynamicPurchaseConfig small)) K_economy
      <? pc_get (emergencyThresholds (calculateDynamicPurchaseConfig small)) K_economy)%js
     = true.
Proof.
  intros large small. split.
  - apply (proj1 (calculateDynamicPurchaseConfig_ordered large K_economy 20000 eq_refl)).
    cbn. lra.
  - apply (proj2 (calculateDynamicPurchaseConfig_ordered small K_economy 90 eq_refl)).
    cbn. lra.
Defined.

End EngineTypesFacts.
(* ===================================================================== *)
(** ** NetworkCalibrator: confidence and warnings                         *)
(* ===================================================================== *)

Module CalibratorMore.

Import Calibrator CalibratorSpec CalibratorMoreSpec JSFacts.
Local Open Scope js_scope.

Lemma gt_zero_positive (d : num) : (d >? Fin 0) = true -> positiveOrInf d.
Proof.
  destruct d as [q| | |]; cbn; try discriminate; try tauto.
  intros H. apply Qltb_true in H. exact H.
Qed.

Lemma fold_add_positive (l : list num) (s0 : num) :
  nonNegativeOrInf s0 -> Forall positiveOrInf l ->
  nonNegativeOrInf (fold_left add l s0)
  /\ (l <> [] -> positiveOrInf (fold_left add l s0)).
Proof.
  revert s0. induction l as [|x l IH]; intros s0 H0 Hl.
  - split; [exact H0|]. intros H. contradiction.
  - apply Forall_cons_iff in Hl as [Hx Hl]. cbn [fold_left].
    assert (Hs : positiveOrInf (s0 + x)).
    { destruct s0 as [a| | |], x as [b| | |]; cbn in *; try contradiction; try tauto.
      lra. }
    assert (Hs' : nonNegativeOrInf (s0 + x)).
    { destruct (s0 + x) as [a| | |]; cbn in *; try contradiction; try tauto. lra. }
    destruct (IH _ Hs' Hl) as [IH1 IH2]. split; [exact IH1|]. intros _.
    destruct l as [|y l]; [exact Hs|]. apply IH2. discriminate.
Qed.

Section Confidence.

Variable Math_sqrt : num -> num.
Variable airports : JsMap Airport.
Variable aircraft : JsMap Aircraft.
Variable flightPlans : list FlightPlan.

(** The average distance is a positive number or +Infinity: only
    positive distances are averaged, and the default is 3000. *)
Lemma avgDistance_positive (topology : NetworkTopology) :
  positiveOrInf
    (avgDistance (analyzeEconomics Math_sqrt airports aircraft flightPlans topology)).
Proof.
  unfold analyzeEconomics.
  set (distances := List.filter (fun d => d >? Fin 0) (map distanceKm flightPlans)).
  destruct (length distances =? 0)%nat eqn:Hlen; cbn [avgDistance]; [cbn; lra|].
  apply Nat.eqb_neq in Hlen.
  assert (Hpos : Forall positiveOrInf distances).
  { apply List.Forall_forall. intros d Hd. apply List.filter_In in Hd as [_ Hd].
    apply gt_zero_positive, Hd. }
  assert (Hne : distances <> []) by (intros E; rewrite E in Hlen; apply Hlen; reflexivity).
  destruct (fold_add_positive distances (Fin 0)) as [_ Hsum];
    [cbn; lra|exact Hpos|]. specialize (Hsum Hne). unfold sum.
  assert (Hn : (0 < length distances)%nat) by lia.
  destruct (fold_left add distances (Fin 0)) as [s| | |]; cbn in Hsum; try contradiction.
  - rewrite div_of_nat by exact Hn. cbn. apply Qlt_shift_div_l; [apply of_nat_pos, Hn|lra].
  - apply of_nat_pos in Hn. unfold of_nat, of_Z. cbn [div].
    destruct (Qcompare_spec (inject_Z (Z.of_nat (length distances))) 0); cbn; try lra; exact I.
Qed.

(** X22: whenever [calibrate] returns, the confidence is a number
    between 0.4 and 1.0, so the floor of 0.3 is never reached; there are
    at most two warnings; and a calibration that carries a warning has a
    confidence of 0.9 at most. *)
Theorem calibrate_confidence (r : DatasetCharacteristics) :
  calibrate Math_sqrt airports aircraft flightPlans = Return r ->
  between 0.4 1.0 (confidence r)
  /\ (length (warnings r) <= 2)%nat
  /\ (warnings r <> [] -> between 0.4 0.9 (confidence r)).
Proof.
  unfold calibrate. destruct (analyzeTopology airports flightPlans) as [t|e];
    [|discriminate].
  cbv zeta. intros H. injection H as <-. cbn [confidence warnings].
  pose proof (avgDistance_positive t) as Havg.
  unfold calculateConfidence, collectWarnings.
  destruct (avgDistance (analyzeEconomics Math_sqrt airports aircraft flightPlans t))
    as [a| | |]; cbn in Havg; try contradiction;
    destruct (distanceStdDev
                (analyzeEconomics Math_sqrt airports aircraft flightPlans t))
      as [s| | |];
    destruct (Nat.ltb_spec (spokeCount t) 5);
    destruct (Nat.ltb_spec 100 (spokeCount t)); try lia;
    destruct (length aircraft =? 0)%nat;
    destruct (length flightPlans <? 50)%nat;
    try change (PInf * Fin 0.5) with PInf; try change (PInf * Fin 0.6) with PInf;
    cbn [orb mul gt lt sub add neg Math_max le app length]; unfold Qltb, Qleb;
    repeat match goal with
           | |- context [Qcompare ?x ?y] =>
               destruct (Qcompare_spec x y);
               cbn [orb mul gt lt sub add neg Math_max le app length between];
               unfold Qltb, Qleb
           end;
    try (exfalso; lra);
    (split; [cbn [between]; lra|]; split; [cbn [length]; lia|]; intros Hw;
     first [ exfalso; apply Hw; reflexivity | cbn [between]; lra ]).
Qed.

End Confidence.

Lemma calibrate_confidence_witness :
  exists r,
    calibrate (fun x => x)
      [("HUB1", mkAirport "HUB1" true
                  (mkPerClass (Fin 1000) (Fin 3000) (Fin 1500) (Fin 20000)) None None)]
      [] [] = Return r
    /\ between 0.4 1.0 (confidence r)
    /\ (length (warnings r) <= 2)%nat
    /\ (warnings r <> [] -> between 0.4 0.9 (confidence r)).
Proof.
  eexists. split; [reflexivity|].
  apply (calibrate_confidence (fun x => x)
           [("HUB1", mkAirport "HUB1" true
                       (mkPerClass (Fin 1000) (Fin 3000) (Fin 1500) (Fin 20000))
                       None None)] [] [] _ eq_refl).
Defined.

End CalibratorMore.
